(** * ULearningCWAuto: hierarchy reconciliation and synchronisation engine

    A shallow embedding of the parts of the program that decide the
    properties stated further down:

    - [models/courseware.py], [models/course.py]: the courseware tree and
      its [prune] methods;
    - [models/api_response.py], [models/api_request.py]: the response and
      request shapes that the data manager reads and builds;
    - [services/data_manager.py]: [parse_textbook_info],
      [parse_chapter_info], [parse_study_record_info],
      [build_sync_study_record_request];
    - [services/http_client.py]: the retry loop of [get] and [post];
    - [services/courseware_manager.py]: the section loop of
      [courseware_handler], and the loop that clears the course dictionary.

    Conventions.  Python [int] is [Z]; a Python [float] is a binary64 value,
    with the rounding of every operation written out; a [dict[int, X]] is a
    [gmap Z X].  A Python dict iterates in insertion order, which a [gmap]
    does not record: the functions that walk a dict to send requests take
    the keys in insertion order as an argument ([dict_items]).  Objects that
    the code mutates through a reference are written back into the
    enclosing map. *)

From Stdlib Require Import ZArith QArith Qround Qabs Qpower Lia Lqa.
From stdpp Require Import base option list strings gmap fin_maps.
From Equations Require Import Equations.

Local Open Scope Z_scope.

(** ** Loops over the items of a dictionary

    [for k, v in d.items(): ...] and [for k, v in dict(d).items(): ...] walk
    the entries of [d], the second form through a shallow copy so that the
    body may remove keys from [d].  In both forms [v] is the very object
    stored in [d]: a body that mutates [v] in place changes [d] at [k], and a
    body that calls [d.pop(k)] removes the entry.  [items_loop step d] folds
    over the entries with the live dictionary as accumulator; [step k v] is
    the object as the body leaves it, or [None] when the body pops the key. *)

Section items.
Context {A : Type}.

Definition items_body (step : Z → A → option A)
    (k : Z) (v : A) (live : gmap Z A) : gmap Z A :=
  match step k v with
  | Some v' => <[k := v']> live
  | None => delete k live
  end.

Definition items_loop (step : Z → A → option A) (d : gmap Z A) : gmap Z A :=
  map_fold (items_body step) d d.
End items.

(** [d.items()] where the order of the walk matters: the entries of [d] in
    the order of [keys], the keys of [d] in insertion order.  Keys that
    [keys] repeats are met once, keys that [d] does not hold are passed
    over, and entries that [keys] leaves out come last, so that every entry
    is met exactly once whatever [keys] is. *)
Definition dict_items {A} (keys : list Z) (d : gmap Z A) : list (Z * A) :=
  omap (λ k, pair k <$> d !! k) (remove_dups keys)
  ++ filter (λ item, item.1 ∉ keys) (map_to_list d).

(** ** The courseware tree ([models/courseware.py], [models/course.py]) *)

Record Question := {
  question_id : Z;
  question_score : Z;
  question_content : string;
  question_answer_list : list string;
}.

(** [ElementContent | ElementDocumen | ElementVideo | ElementQuestion]; the
    constructor plays the role of the class that [isinstance] tests. *)
Inductive Element :=
| ElementContent (content_content : string)
| ElementDocumen (document_content : string)
| ElementVideo (video_id : Z) (video_length : Z)
| ElementQuestion (questions : list Question).

Record CoursewarePage := {
  page_id : Z;
  page_relation_id : Z;
  page_name : string;
  page_content_type : Z;
  is_complete : bool;
  elements : list Element;
}.

Record CoursewareSection := {
  section_id : Z;
  section_name : string;
  pages : gmap Z CoursewarePage;
}.

Record CoursewareChapter := {
  chapter_id : Z;
  chapter_name : string;
  sections : gmap Z CoursewareSection;
}.

Record ModelTextbook := {
  textbook_id : Z;
  textbook_name : string;
  status : Z;
  limit : Z;
  chapters : gmap Z CoursewareChapter;
}.

Record ModelCourse := {
  course_id : Z;
  course_name : string;
  class_id : Z;
  class_user_id : Z;
  textbooks : gmap Z ModelTextbook;
}.

(** Attribute assignment through a reference. *)
Definition set_is_complete (b : bool) (p : CoursewarePage) : CoursewarePage :=
  {| page_id := page_id p; page_relation_id := page_relation_id p;
     page_name := page_name p; page_content_type := page_content_type p;
     is_complete := b; elements := elements p |}.

Definition set_elements (es : list Element) (p : CoursewarePage) : CoursewarePage :=
  {| page_id := page_id p; page_relation_id := page_relation_id p;
     page_name := page_name p; page_content_type := page_content_type p;
     is_complete := is_complete p; elements := es |}.

Definition set_pages (ps : gmap Z CoursewarePage) (s : CoursewareSection) : CoursewareSection :=
  {| section_id := section_id s; section_name := section_name s; pages := ps |}.

Definition set_sections (ss : gmap Z CoursewareSection) (c : CoursewareChapter) : CoursewareChapter :=
  {| chapter_id := chapter_id c; chapter_name := chapter_name c; sections := ss |}.

Definition set_chapters (cs : gmap Z CoursewareChapter) (t : ModelTextbook) : ModelTextbook :=
  {| textbook_id := textbook_id t; textbook_name := textbook_name t;
     status := status t; limit := limit t; chapters := cs |}.

Definition set_textbooks (ts : gmap Z ModelTextbook) (c : ModelCourse) : ModelCourse :=
  {| course_id := course_id c; course_name := course_name c;
     class_id := class_id c; class_user_id := class_user_id c; textbooks := ts |}.

(** Truth value of a dict: [not d] holds exactly for the empty dict. *)
Definition dict_not {A} (d : gmap Z A) : bool := bool_decide (d = ∅).

(** ** [prune]

    Every [prune] walks a snapshot of its dictionary.  [pop] is only ever
    called with a key of that snapshot which is still in the live
    dictionary, so it cannot raise [KeyError]. *)

(** [CoursewareSection.prune]:
    [for page_id, page in dict(self.pages).items():
         if page.is_complete: self.pages.pop(page_id)] *)
Definition CoursewareSection_prune_body (page_id : Z) (page : CoursewarePage)
    : option CoursewarePage :=
  if is_complete page then None else Some page.

Definition CoursewareSection_prune (self : CoursewareSection) : CoursewareSection :=
  set_pages (items_loop CoursewareSection_prune_body (pages self)) self.

(** [CoursewareChapter.prune]:
    [for section_id, section in dict(self.sections).items():
         if remove_complete: section.prune()
         if not section.pages: self.sections.pop(section_id)] *)
Definition CoursewareChapter_prune_body (remove_complete : bool)
    (section_id : Z) (section : CoursewareSection) : option CoursewareSection :=
  let section :=
    if remove_complete then CoursewareSection_prune section else section in
  if dict_not (pages section) then None else Some section.

Definition CoursewareChapter_prune (remove_complete : bool)
    (self : CoursewareChapter) : CoursewareChapter :=
  set_sections
    (items_loop (CoursewareChapter_prune_body remove_complete) (sections self)) self.

(** [ModelTextbook.prune]:
    [for chapter_id, chapter in dict(self.chapters).items():
         chapter.prune(remove_complete)
         if not chapter.sections: self.chapters.pop(chapter_id)] *)
Definition ModelTextbook_prune_body (remove_complete : bool)
    (chapter_id : Z) (chapter : CoursewareChapter) : option CoursewareChapter :=
  let chapter := CoursewareChapter_prune remove_complete chapter in
  if dict_not (sections chapter) then None else Some chapter.

Definition ModelTextbook_prune (remove_complete : bool)
    (self : ModelTextbook) : ModelTextbook :=
  set_chapters
    (items_loop (ModelTextbook_prune_body remove_complete) (chapters self)) self.

(** [ModelCourse.prune]:
    [for textbook_id, textbook in dict(self.textbooks).items():
         textbook.prune(remove_complete)
         if not textbook.chapters: self.textbooks.pop(textbook_id)] *)
Definition ModelCourse_prune_body (remove_complete : bool)
    (textbook_id : Z) (textbook : ModelTextbook) : option ModelTextbook :=
  let textbook := ModelTextbook_prune remove_complete textbook in
  if dict_not (chapters textbook) then None else Some textbook.

Definition ModelCourse_prune (remove_complete : bool)
    (self : ModelCourse) : ModelCourse :=
  set_textbooks
    (items_loop (ModelCourse_prune_body remove_complete) (textbooks self)) self.

(** Paths into the tree: the page stored under textbook [tb], chapter [ch],
    section [sec] and key [pid], if every dictionary on the way has the key. *)
Definition course_section (course : ModelCourse) (tb ch sec : Z) : option CoursewareSection :=
  t ← textbooks course !! tb; c ← chapters t !! ch; sections c !! sec.

Definition chapter_page (c : CoursewareChapter) (sec pid : Z) : option CoursewarePage :=
  s ← sections c !! sec; pages s !! pid.

Definition textbook_page (t : ModelTextbook) (ch sec pid : Z) : option CoursewarePage :=
  c ← chapters t !! ch; chapter_page c sec pid.

Definition course_page (course : ModelCourse) (tb ch sec pid : Z) : option CoursewarePage :=
  t ← textbooks course !! tb; textbook_page t ch sec pid.

(** A tree in which no container is empty. *)
Definition section_nonempty (s : CoursewareSection) : Prop :=
  pages s ≠ ∅.

Definition chapter_nonempty (c : CoursewareChapter) : Prop :=
  sections c ≠ ∅ ∧ map_Forall (λ _, section_nonempty) (sections c).

Definition textbook_nonempty (t : ModelTextbook) : Prop :=
  chapters t ≠ ∅ ∧ map_Forall (λ _, chapter_nonempty) (chapters t).

Definition no_empty_container (course : ModelCourse) : Prop :=
  map_Forall (λ _, textbook_nonempty) (textbooks course).

(** A small tree used to run the definitions: one textbook with one chapter;
    section 1000 holds a completed video page and an open document page,
    section 1001 a single completed question page. *)
Definition sample_video_page : CoursewarePage :=
  {| page_id := 1; page_relation_id := 501; page_name := "video";
     page_content_type := 6; is_complete := true;
     elements := [ElementVideo 71 600] |}.

Definition sample_document_page : CoursewarePage :=
  {| page_id := 2; page_relation_id := 502; page_name := "document";
     page_content_type := 5; is_complete := false;
     elements := [ElementDocumen "d1"; ElementContent "c1"] |}.

Definition sample_question_page : CoursewarePage :=
  {| page_id := 3; page_relation_id := 503; page_name := "quiz";
     page_content_type := 7; is_complete := true;
     elements := [ElementQuestion
       [ {| question_id := 31; question_score := 40; question_content := "q1";
            question_answer_list := ["A"] |};
         {| question_id := 32; question_score := 60; question_content := "q2";
            question_answer_list := ["B"; "C"] |} ]] |}.

Definition sample_section_1000 : CoursewareSection :=
  {| section_id := 1000; section_name := "s1000";
     pages := {[ 1 := sample_video_page; 2 := sample_document_page ]} |}.

Definition sample_section_1001 : CoursewareSection :=
  {| section_id := 1001; section_name := "s1001";
     pages := {[ 3 := sample_question_page ]} |}.

Definition sample_chapter : CoursewareChapter :=
  {| chapter_id := 100; chapter_name := "c100";
     sections := {[ 1000 := sample_section_1000; 1001 := sample_section_1001 ]} |}.

Definition sample_textbook : ModelTextbook :=
  {| textbook_id := 10; textbook_name := "t10"; status := 1; limit := 0;
     chapters := {[ 100 := sample_chapter ]} |}.

Definition sample_course : ModelCourse :=
  {| course_id := 1; course_name := "course"; class_id := 7; class_user_id := 8;
     textbooks := {[ 10 := sample_textbook ]} |}.

(** ** Effects: in-place state, the log, exceptions

    A computation runs on a state [σ] (the object it mutates) and on the
    log.  It either returns a value or raises a Python exception; in both
    cases the mutations and log lines made so far remain, as they do for
    objects changed in place before a [raise]. *)

Inductive Level := DEBUG | INFO | SUCCESS | WARNING | ERROR.

Global Instance Level_eq_dec : EqDecision Level.
Proof. solve_decision. Defined.

(** One [logger] call: the level, the message text (rendered in English) and
    the integers interpolated into it. *)
Record LogLine := { level : Level; text : string; args : list Z }.

Inductive Exn :=
| KeyError (key : Z)
| ValueError
| OverflowError.

Global Instance Exn_eq_dec : EqDecision Exn.
Proof. solve_decision. Defined.

Definition Eff (σ A : Type) : Type :=
  σ * list LogLine → (Exn + A) * (σ * list LogLine).

Section eff.
Context {σ : Type}.

Definition eff_ret {A} (a : A) : Eff σ A := λ w, (inr a, w).

Definition eff_bind {A B} (f : A → Eff σ B) (m : Eff σ A) : Eff σ B :=
  λ w, match m w with
       | (inr a, w') => f a w'
       | (inl e, w') => (inl e, w')
       end.

Definition raise {A} (e : Exn) : Eff σ A := λ w, (inl e, w).

Definition get_state : Eff σ σ := λ w, (inr (fst w), w).

Definition modify_state (f : σ → σ) : Eff σ () := λ w, (inr (), (f (fst w), snd w)).

Definition logger (lvl : Level) (msg : string) (vals : list Z) : Eff σ () :=
  λ w, (inr (), (fst w, snd w ++ [{| level := lvl; text := msg; args := vals |}])).

(** [try: body except Exception as e: handler(e)] *)
Definition try_except {A} (body : Eff σ A) (handler : Exn → Eff σ A) : Eff σ A :=
  λ w, match body w with
       | (inr a, w') => (inr a, w')
       | (inl e, w') => handler e w'
       end.
End eff.

Global Instance eff_mret {σ} : MRet (Eff σ) := @eff_ret σ.
Global Instance eff_mbind {σ} : MBind (Eff σ) := @eff_bind σ.
Global Instance eff_mthrow {σ} : MThrow Exn (Eff σ) := @raise σ.

(** [d[k]] *)
Definition getitem {σ A} (d : gmap Z A) (k : Z) : Eff σ A :=
  match d !! k with
  | Some v => mret v
  | None => raise (KeyError k)
  end.

(** [for x in xs: body(x)]; a [continue] in the body is its early return. *)
Fixpoint for_each {σ A} (xs : list A) (body : A → Eff σ ()) : Eff σ () :=
  match xs with
  | [] => mret ()
  | x :: xs' => body x;; for_each xs' body
  end.

(** [for x in xs: acc = body(acc, x)] for a loop that updates local
    variables. *)
Fixpoint fold_each {σ A B} (xs : list A) (acc : B) (body : B → A → Eff σ B) : Eff σ B :=
  match xs with
  | [] => mret acc
  | x :: xs' => acc' ← body acc x; fold_each xs' acc' body
  end.

(** [bool(n)] and [int(x)] *)
Definition py_bool (n : Z) : bool := negb (n =? 0).

Definition py_int (x : Q) : Z :=
  if Qle_bool 0 x then Qfloor x else Qceiling x.

(** ** Floating-point values

    A Python [float] is an IEEE 754 binary64 value: a finite number, kept
    here as the rational it denotes, an infinity, or NaN.  The sign of a
    zero is not kept; nothing in the code below looks at it. *)
Inductive float :=
| Finite (x : Q)
| Infinity (negative : bool)
| NaN.

(** [int(x)] for a float [x]: truncation towards zero for a finite [x],
    [OverflowError] for an infinity and [ValueError] for NaN. *)
Definition int_of_float {σ} (x : float) : Eff σ Z :=
  match x with
  | Finite x => mret (py_int x)
  | Infinity _ => raise OverflowError
  | NaN => raise ValueError
  end.

(** [round(x)] for a float: to the nearest integer, ties to the even one. *)
Definition py_round (x : Q) : Z :=
  let f := Qfloor x in
  match (x - inject_Z f ?= 1 # 2)%Q with
  | Lt => f
  | Gt => f + 1
  | Eq => if Z.even f then f else f + 1
  end.

(** The exponent of a positive rational: the [e] with [2^e <= x < 2^(e+1)]. *)
Definition ilog2 (x : Q) : Z :=
  let e := Z.log2 (Qnum x) - Z.log2 (Z.pos (Qden x)) in
  if Qle_bool (2 ^ e) x then e else e - 1.

(** Rounding to binary64: to the nearest number with a significand of 53
    bits, ties to the even significand; below [2^-1022] the spacing stays
    [2^-1074].  The exponent is not bounded from above here, see
    [float_round]. *)
Definition binary64 (x : Q) : Q :=
  if Qeq_bool x 0 then 0%Q
  else
    let q := Z.max (ilog2 (Qabs x) - 52) (-1074) in
    Qred (inject_Z (py_round (x / 2 ^ q)) * 2 ^ q).

(** The float that an arithmetic operation returns for the exact result
    [x]: a result that rounds to [2^1024] or beyond is an infinity. *)
Definition float_round (x : Q) : float :=
  let y := binary64 x in
  if Qle_bool (2 ^ 1024) (Qabs y) then Infinity (negb (Qle_bool 0 x)) else Finite y.

Definition float_opp (a : float) : float :=
  match a with
  | Finite x => Finite (- x)
  | Infinity negative => Infinity (negb negative)
  | NaN => NaN
  end.

(** [a + b], [a - b] and [a * b] for floats. *)
Definition float_add (a b : float) : float :=
  match a, b with
  | Finite x, Finite y => float_round (x + y)
  | Finite _, Infinity negative | Infinity negative, Finite _ => Infinity negative
  | Infinity negative, Infinity negative' =>
      if bool_decide (negative = negative') then Infinity negative else NaN
  | NaN, _ | _, NaN => NaN
  end.

Definition float_sub (a b : float) : float := float_add a (float_opp b).

Definition float_mul (a b : float) : float :=
  match a, b with
  | Finite x, Finite y => float_round (x * y)
  | Finite x, Infinity negative | Infinity negative, Finite x =>
      if Qeq_bool x 0 then NaN else Infinity (xorb negative (negb (Qle_bool 0 x)))
  | Infinity negative, Infinity negative' => Infinity (xorb negative negative')
  | NaN, _ | _, NaN => NaN
  end.

(** The conversion of an [int] operand of a float operation: the nearest
    float, or [OverflowError] for an integer that no float holds. *)
Definition float_of_int {σ} (n : Z) : Eff σ float :=
  match float_round (inject_Z n) with
  | Finite x => mret (Finite x)
  | _ => raise OverflowError
  end.

(** ** Response models ([models/api_response.py]) *)

Module StudyRecordAPIResponse.
Record PageStudyRecordDTO := {
  pageid : Z;
  complete : Z;
  submitTimes : Z;
  studyTime : Z;
  answerTime : Z;
  coursepageId : option Z;
}.

Record t := {
  completion_status : Z;
  item_id : Z;
  node_id : Z;
  score : Z;
  pageStudyRecordDTOList : list PageStudyRecordDTO;
}.
End StudyRecordAPIResponse.

Module ChapterInfoAPIResponse.
Record QuestionDTO := {
  questionid : Z;
  score : float;
  title : string;
}.

(** The element union [ContentPageDTO | DocumentPageDTO | VideoPageDTO |
    QuestionPageDTO].  Each class fixes its [type] field by a [Literal]
    annotation, which is also the discriminator of the union. *)
Inductive BasePageDTO :=
| ContentPageDTO (content : string)
| VideoPageDTO (resourceid : Z) (videoLength : Z)
| QuestionPageDTO (content : string) (questionDTOList : list QuestionDTO)
| DocumentPageDTO (content : string).

Definition type (e : BasePageDTO) : Z :=
  match e with
  | ContentPageDTO _ => 12
  | VideoPageDTO _ _ => 4
  | QuestionPageDTO _ _ => 6
  | DocumentPageDTO _ => 10
  end.

Record WholePageDTO := {
  id : Z;
  relationid : Z;
  content : string;
  contentType : Z;
  coursepageDTOList : list BasePageDTO;
}.

Record ItemDTO := {
  itemid : Z;
  wholepageDTOList : list WholePageDTO;
}.

Record t := {
  chapterid : Z;
  wholepageItemDTOList : list ItemDTO;
}.
End ChapterInfoAPIResponse.

(** ** [DataManager]: parsing ([services/data_manager.py]) *)

(** The code holds references to dictionaries and lists inside
    [course_config] and mutates them in place.  A reference is kept here as
    the keys that lead to the object; writing through it rewrites the course
    along that path. *)
Definition with_pages (tb ch sec : Z)
    (f : gmap Z CoursewarePage → gmap Z CoursewarePage)
    (course_config : ModelCourse) : ModelCourse :=
  set_textbooks
    (alter (λ t, set_chapters
      (alter (λ c, set_sections
        (alter (λ s, set_pages (f (pages s)) s) sec (sections c)) c)
      ch (chapters t)) t)
    tb (textbooks course_config)) course_config.

(** [course_config_elements.append(e)] for the page stored under [pid]. *)
Definition elements_append (tb ch sec pid : Z) (e : Element) : Eff ModelCourse () :=
  modify_state
    (with_pages tb ch sec (alter (λ p, set_elements (elements p ++ [e]) p) pid)).

(** [ElementQuestion.Question(question_id=question_id,
       question_score=int(question_score), question_content=question_content)];
    [int] raises for a score that is an infinity or NaN. *)
Definition ElementQuestion_Question_of {σ}
    (question_info : ChapterInfoAPIResponse.QuestionDTO) : Eff σ Question :=
  let question_id := ChapterInfoAPIResponse.questionid question_info in
  let question_score := ChapterInfoAPIResponse.score question_info in
  let question_content := ChapterInfoAPIResponse.title question_info in
  question_score ← int_of_float question_score;
  mret {| question_id := question_id;
          question_score := question_score;
          question_content := question_content;
          question_answer_list := [] |}.

(** Body of the innermost loop of [parse_chapter_info]: one [element_info]
    of a page whose response carries [page_content_type]. *)
Definition parse_element (tb ch sec pid : Z) (page_content_type : Z)
    (element_info : ChapterInfoAPIResponse.BasePageDTO) : Eff ModelCourse () :=
  let unknown :=
    logger WARNING "unknown element type" [ChapterInfoAPIResponse.type element_info];;
    logger DEBUG "element_info" [] in
  if page_content_type =? 5 then
    match element_info with
    | ChapterInfoAPIResponse.DocumentPageDTO content =>
        if ChapterInfoAPIResponse.type element_info =? 10
        then elements_append tb ch sec pid (ElementDocumen content)
        else unknown
    | ChapterInfoAPIResponse.ContentPageDTO content =>
        if ChapterInfoAPIResponse.type element_info =? 12
        then elements_append tb ch sec pid (ElementContent content)
        else unknown
    | _ => unknown
    end
  else if page_content_type =? 6 then
    match element_info with
    | ChapterInfoAPIResponse.VideoPageDTO resourceid videoLength =>
        elements_append tb ch sec pid (ElementVideo resourceid videoLength)
    | _ => mret ()
    end
  else if page_content_type =? 7 then
    match element_info with
    | ChapterInfoAPIResponse.QuestionPageDTO _ questionDTOList =>
        questions ← fold_each questionDTOList []
                      (λ questions question_info,
                         question ← ElementQuestion_Question_of question_info;
                         mret (questions ++ [question]));
        elements_append tb ch sec pid (ElementQuestion questions)
    | _ => mret ()
    end
  else mret ().

(** Body of the page loop: [course_config_pages[page_id]] raises [KeyError]
    for a page that the tree does not have. *)
Definition parse_page (tb ch sec : Z)
    (page_info : ChapterInfoAPIResponse.WholePageDTO) : Eff ModelCourse () :=
  let page_id := ChapterInfoAPIResponse.id page_info in
  let page_content_type := ChapterInfoAPIResponse.contentType page_info in
  course_config ← get_state;
  match course_page course_config tb ch sec page_id with
  | None => raise (KeyError page_id)
  | Some _ =>
      for_each (ChapterInfoAPIResponse.coursepageDTOList page_info)
        (parse_element tb ch sec page_id page_content_type)
  end.

(** Body of the section loop: a section that the tree does not have is
    passed over ([continue]). *)
Definition parse_section (tb ch : Z) (course_config_sections : gmap Z CoursewareSection)
    (section_info : ChapterInfoAPIResponse.ItemDTO) : Eff ModelCourse () :=
  let section_id := ChapterInfoAPIResponse.itemid section_info in
  if decide (is_Some (course_config_sections !! section_id)) then
    for_each (ChapterInfoAPIResponse.wholepageDTOList section_info)
      (parse_page tb ch section_id)
  else mret ().

Definition parse_chapter_info (textbook_id : Z)
    (chapter_info : ChapterInfoAPIResponse.t) : Eff ModelCourse bool :=
  logger DEBUG "[MANAGER][DATA] parse chapter info" [];;
  try_except
    (course_config ← get_state;
     course_config_textbook ← getitem (textbooks course_config) textbook_id;
     let chapter_id := ChapterInfoAPIResponse.chapterid chapter_info in
     course_config_chapter ← getitem (chapters course_config_textbook) chapter_id;
     let course_config_sections := sections course_config_chapter in
     for_each (ChapterInfoAPIResponse.wholepageItemDTOList chapter_info)
       (parse_section textbook_id chapter_id course_config_sections);;
     logger DEBUG "[MANAGER][DATA] chapter info parsed" [];;
     mret true)
    (λ e,
     logger ERROR "[MANAGER][DATA] error while parsing chapter info" [];;
     mret false).

(** Body of the inner loop of [parse_study_record_info]:
    [if course_page_info.page_relation_id == page_relation_id:
         course_page_info.is_complete = bool(page_is_complete)] *)
Definition mark_page (page_info : StudyRecordAPIResponse.PageStudyRecordDTO)
    (course_page_info : CoursewarePage) : CoursewarePage :=
  let pageid := StudyRecordAPIResponse.pageid page_info in
  let page_is_complete := StudyRecordAPIResponse.complete page_info in
  if page_relation_id course_page_info =? pageid
  then set_is_complete (py_bool page_is_complete) course_page_info
  else course_page_info.

(** [for course_page_id, course_page_info in course_config_pages.items(): ...] *)
Definition mark_pages (page_info : StudyRecordAPIResponse.PageStudyRecordDTO)
    (course_config_pages : gmap Z CoursewarePage) : gmap Z CoursewarePage :=
  items_loop
    (λ course_page_id course_page_info, Some (mark_page page_info course_page_info))
    course_config_pages.

Definition parse_study_record_info (textbook_id : Z)
    (study_record_info : StudyRecordAPIResponse.t) : Eff ModelCourse bool :=
  logger DEBUG "[MANAGER][DATA] parse study record" [];;
  try_except
    (let chapter_id := StudyRecordAPIResponse.node_id study_record_info in
     let section_id := StudyRecordAPIResponse.item_id study_record_info in
     course_config ← get_state;
     course_config_textbook ← getitem (textbooks course_config) textbook_id;
     course_config_chapter ← getitem (chapters course_config_textbook) chapter_id;
     course_config_section ← getitem (sections course_config_chapter) section_id;
     for_each (StudyRecordAPIResponse.pageStudyRecordDTOList study_record_info)
       (λ page_info,
          modify_state (with_pages textbook_id chapter_id section_id (mark_pages page_info)));;
     logger DEBUG "[MANAGER][DATA] study record parsed" [];;
     mret true)
    (λ e,
     logger ERROR "[MANAGER][DATA] error while parsing study record" [];;
     mret false).

(** Sample responses for [sample_course]. *)
Definition sample_record_entry (pageid complete : Z)
    : StudyRecordAPIResponse.PageStudyRecordDTO :=
  {| StudyRecordAPIResponse.pageid := pageid;
     StudyRecordAPIResponse.complete := complete;
     StudyRecordAPIResponse.submitTimes := 0;
     StudyRecordAPIResponse.studyTime := 0;
     StudyRecordAPIResponse.answerTime := 1;
     StudyRecordAPIResponse.coursepageId := None |}.

Definition sample_study_record (node_id item_id : Z)
    (entries : list StudyRecordAPIResponse.PageStudyRecordDTO)
    : StudyRecordAPIResponse.t :=
  {| StudyRecordAPIResponse.completion_status := 0;
     StudyRecordAPIResponse.item_id := item_id;
     StudyRecordAPIResponse.node_id := node_id;
     StudyRecordAPIResponse.score := 0;
     StudyRecordAPIResponse.pageStudyRecordDTOList := entries |}.

(** ** The classification table of the specification

    The specification gives the merge of a chapter detail as a table from
    the pair (page content type, remote type code) to the element variant
    that is stored; [parse_element] is compared with it below. *)
Inductive ElementKind := Document | Content | Video | QuestionList.

Definition classification_table (content_type remote_type : Z) : option ElementKind :=
  if (content_type =? 5) && (remote_type =? 10) then Some Document
  else if (content_type =? 5) && (remote_type =? 12) then Some Content
  else if (content_type =? 6) && (remote_type =? 4) then Some Video
  else if (content_type =? 7) && (remote_type =? 6) then Some QuestionList
  else None.

Definition element_kind (el : Element) : ElementKind :=
  match el with
  | ElementDocumen _ => Document
  | ElementContent _ => Content
  | ElementVideo _ _ => Video
  | ElementQuestion _ => QuestionList
  end.

(** The value of [int(x)], or the exception it raises. *)
Definition float_int (x : float) : Exn + Z :=
  match x with
  | Finite x => inr (py_int x)
  | Infinity _ => inl OverflowError
  | NaN => inl ValueError
  end.

(** The questions built from the question list of a response element, or
    the exception of the first score that [int] does not convert. *)
Fixpoint questions_from (question_infos : list ChapterInfoAPIResponse.QuestionDTO)
    : Exn + list Question :=
  match question_infos with
  | [] => inr []
  | question_info :: rest =>
      match float_int (ChapterInfoAPIResponse.score question_info) with
      | inl e => inl e
      | inr question_score =>
          match questions_from rest with
          | inl e => inl e
          | inr questions =>
              inr ({| question_id := ChapterInfoAPIResponse.questionid question_info;
                      question_score := question_score;
                      question_content := ChapterInfoAPIResponse.title question_info;
                      question_answer_list := [] |} :: questions)
          end
      end
  end.

(** The tree element that carries the payload of a response element, or
    the exception raised while it is built. *)
Definition element_of (element_info : ChapterInfoAPIResponse.BasePageDTO) : Exn + Element :=
  match element_info with
  | ChapterInfoAPIResponse.DocumentPageDTO content => inr (ElementDocumen content)
  | ChapterInfoAPIResponse.ContentPageDTO content => inr (ElementContent content)
  | ChapterInfoAPIResponse.VideoPageDTO resourceid videoLength =>
      inr (ElementVideo resourceid videoLength)
  | ChapterInfoAPIResponse.QuestionPageDTO _ questionDTOList =>
      match questions_from questionDTOList with
      | inl e => inl e
      | inr questions => inr (ElementQuestion questions)
      end
  end.

(** The element that is stored for a response element: the table classifies
    the pair and the element is built. *)
Definition classified (content_type : Z)
    (element_info : ChapterInfoAPIResponse.BasePageDTO) : option Element :=
  match classification_table content_type (ChapterInfoAPIResponse.type element_info) with
  | Some _ => match element_of element_info with
              | inr element => Some element
              | inl _ => None
              end
  | None => None
  end.

(** The exception that a response element raises: the table classifies the
    pair and building the element fails. *)
Definition failure (content_type : Z)
    (element_info : ChapterInfoAPIResponse.BasePageDTO) : option Exn :=
  match classification_table content_type (ChapterInfoAPIResponse.type element_info) with
  | Some _ => match element_of element_info with
              | inr _ => None
              | inl e => Some e
              end
  | None => None
  end.

(** The log lines of the [else] branch for an unknown element. *)
Definition unknown_element_lines (element_info : ChapterInfoAPIResponse.BasePageDTO)
    : list LogLine :=
  [ {| level := WARNING; text := "unknown element type";
       args := [ChapterInfoAPIResponse.type element_info] |};
    {| level := DEBUG; text := "element_info"; args := [] |} ].

(** A sample chapter detail for [sample_course]: section 1000 with the video
    page (one video, one stray text element) and the document page (one
    document, one stray video); section 999 is not in the tree. *)
Definition sample_whole_page (id contentType : Z)
    (es : list ChapterInfoAPIResponse.BasePageDTO) : ChapterInfoAPIResponse.WholePageDTO :=
  {| ChapterInfoAPIResponse.id := id;
     ChapterInfoAPIResponse.relationid := 500 + id;
     ChapterInfoAPIResponse.content := "page";
     ChapterInfoAPIResponse.contentType := contentType;
     ChapterInfoAPIResponse.coursepageDTOList := es |}.

Definition sample_chapter_info : ChapterInfoAPIResponse.t :=
  {| ChapterInfoAPIResponse.chapterid := 100;
     ChapterInfoAPIResponse.wholepageItemDTOList :=
       [ {| ChapterInfoAPIResponse.itemid := 999;
            ChapterInfoAPIResponse.wholepageDTOList :=
              [sample_whole_page 77 6 [ChapterInfoAPIResponse.VideoPageDTO 1 1]] |};
         {| ChapterInfoAPIResponse.itemid := 1000;
            ChapterInfoAPIResponse.wholepageDTOList :=
              [ sample_whole_page 1 6
                  [ ChapterInfoAPIResponse.ContentPageDTO "stray text";
                    ChapterInfoAPIResponse.VideoPageDTO 72 300 ];
                sample_whole_page 2 5
                  [ ChapterInfoAPIResponse.VideoPageDTO 73 10;
                    ChapterInfoAPIResponse.DocumentPageDTO "d2" ] ] |} ] |}.

(** The log lines that the element loop writes for a list of elements: the
    [else] branch that logs is only in the [page_content_type == 5] case. *)
Definition dropped_lines (content_type : Z)
    (es : list ChapterInfoAPIResponse.BasePageDTO) : list LogLine :=
  flat_map
    (λ e, match classification_table content_type (ChapterInfoAPIResponse.type e) with
          | Some _ => []
          | None => if content_type =? 5 then unknown_element_lines e else []
          end) es.

(** ** The study-record batch of [CoursewareManager]

    [services/courseware_manager.py], the section loop that ends
    [__complete_courseware] and [__prune_completed_courseware]: each fetched
    result is a pair of the fetch status and the parsed record, if any.
    [for ...: if not resp_status: warning; continue
              if not resp_study_record_info: continue
              self.data_manager.parse_study_record_info(...)]
    The value returned by [parse_study_record_info] is not used. *)
Definition refresh_section (textbook_id : Z)
    (fetched : bool * option StudyRecordAPIResponse.t) : Eff ModelCourse () :=
  let '(resp_status, resp_study_record_info) := fetched in
  if negb resp_status then
    logger WARNING "fetching the study record failed, skipped" []
  else
    match resp_study_record_info with
    | None => mret ()
    | Some study_record_info =>
        parse_study_record_info textbook_id study_record_info;; mret ()
    end.

Definition refresh_sections (textbook_id : Z)
    (fetched : list (bool * option StudyRecordAPIResponse.t)) : Eff ModelCourse () :=
  for_each fetched (refresh_section textbook_id).

(** ** Request and configuration models
    ([models/api_request.py], [models/config.py]) *)

Module StartEndTime.
Record t := {
  startTime : Z;
  endTime : Z;
}.
End StartEndTime.

Module VideoDTO.
Record t := {
  videoid : Z;
  current : float;
  status : Z;
  recordTime : float;
  time : float;
  startEndTimeList : list StartEndTime.t;
}.
End VideoDTO.

Module QuestionDTO.
Record t := {
  questionid : Z;
  answerList : list string;
  score : Z;
}.
End QuestionDTO.

Module PageStudyRecordDTO.
Record t := {
  pageid : Z;
  complete : Z;
  studyTime : Z;
  score : Z;
  answerTime : Z;
  submitTimes : Z;
  coursepageId : option Z;
  questions : list QuestionDTO.t;
  videos : list VideoDTO.t;
}.
End PageStudyRecordDTO.

Module SyncStudyRecordAPIRequest.
Record t := {
  itemid : Z;
  autoSave : Z;
  complete : Z;
  studyStartTime : Z;
  userName : string;
  score : Z;
  pageStudyRecordDTOList : list PageStudyRecordDTO.t;
}.
End SyncStudyRecordAPIRequest.

Module CourseAPIUserInfoAPIResponse.
Record t := {
  userid : Z;
  name : string;
}.
End CourseAPIUserInfoAPIResponse.

Module MinMaxTime.
Record t := {
  min : Z;
  max : Z;
}.
End MinMaxTime.

Module StudyTime.
Record t := {
  question : MinMaxTime.t;
  document : MinMaxTime.t;
  content : MinMaxTime.t;
}.
End StudyTime.

(** [ConfigModel.StudyTime()] with its defaults, 180 to 360 seconds. *)
Definition default_study_time : StudyTime.t :=
  let range := {| MinMaxTime.min := 180; MinMaxTime.max := 360 |} in
  {| StudyTime.question := range; StudyTime.document := range; StudyTime.content := range |}.

(** ** The ambient random source and clock

    [random] and [time.time()] are read from the state: [rng] is the stream
    of raw draws of the generator and [clock] the stream of the times at
    which the clock is read, each with the position of the next one to be
    consumed.

    - [random.randint(a, b)] is [a + randbelow(b - a + 1)] and raises
      [ValueError] when the range is empty;
    - [random.uniform(a, b)] is [a + (b - a) * random()], where [random()]
      is the float [k / 2^53] for an integer [0 <= k < 2^53]; with [a] and
      [b] of type [int], the difference is taken on integers and both
      operations are float operations;
    - [time.time()] is the time as a float. *)
Record Ambient := {
  rng : nat → Z;
  rng_pos : nat;
  clock : nat → Q;
  clock_pos : nat;
}.

Definition next_draw (amb : Ambient) : Ambient :=
  {| rng := rng amb; rng_pos := S (rng_pos amb);
     clock := clock amb; clock_pos := clock_pos amb |}.

Definition next_tick (amb : Ambient) : Ambient :=
  {| rng := rng amb; rng_pos := rng_pos amb;
     clock := clock amb; clock_pos := S (clock_pos amb) |}.

Definition randint (a b : Z) : Eff Ambient Z :=
  λ w, if a <=? b
       then (inr (a + rng w.1 (rng_pos w.1) `mod` (b - a + 1)), (next_draw w.1, w.2))
       else (inl ValueError, w).

Definition random_unit (k : Z) : Q := (k `mod` 2 ^ 53) # (2 ^ 53).

Definition random : Eff Ambient float :=
  λ w, (inr (Finite (random_unit (rng w.1 (rng_pos w.1)))), (next_draw w.1, w.2)).

Definition uniform (a b : Z) : Eff Ambient float :=
  r ← random;
  d ← float_of_int (b - a);
  a ← float_of_int a;
  mret (float_add a (float_mul d r)).

Definition time_time : Eff Ambient float :=
  λ w, (inr (float_round (clock w.1 (clock_pos w.1))), (next_tick w.1, w.2)).

(** ** [DataManager.build_sync_study_record_request] *)

Definition isinstance_ElementDocumen (element : Element) : bool :=
  match element with ElementDocumen _ => true | _ => false end.

(** The local variables of one iteration of the page loop:
    [page_study_time], [page_score], [page_study_record_dto_videos],
    [page_study_record_dto_questions]. *)
Record PageLocals := {
  page_study_time : Z;
  page_score : Z;
  page_study_record_dto_videos : list VideoDTO.t;
  page_study_record_dto_questions : list QuestionDTO.t;
}.

(** Body of the loop over the elements of a video page.  [video_length]
    is an [int]: the subtraction converts it to a float, and so does the
    validation of the field [time], which is a float. *)
Definition build_video (acc : Z * list VideoDTO.t) (element : Element)
    : Eff Ambient (Z * list VideoDTO.t) :=
  match element with
  | ElementVideo video_id video_length =>
      let page_study_time := acc.1 + video_length in
      logger INFO "[video] study seconds" [video_id; video_length];;
      video_start_time ← time_time;
      u ← uniform 2 8;
      video_time ← float_of_int video_length;
      let video_watch_time := float_sub video_time u in
      startTime ← int_of_float video_start_time;
      endTime ← int_of_float (float_add video_start_time video_watch_time);
      mret (page_study_time,
            acc.2 ++
            [{| VideoDTO.videoid := video_id;
                VideoDTO.current := video_watch_time;
                VideoDTO.status := 1;
                VideoDTO.recordTime := video_watch_time;
                VideoDTO.time := video_time;
                VideoDTO.startEndTimeList :=
                  [{| StartEndTime.startTime := startTime;
                      StartEndTime.endTime := endTime |}] |}])
  | _ => mret acc
  end.

(** Body of the loops over the elements and questions of a question page. *)
Definition build_questions (acc : Z * list QuestionDTO.t) (element : Element)
    : Z * list QuestionDTO.t :=
  match element with
  | ElementQuestion questions =>
      foldl (λ acc question,
               (acc.1 + question_score question,
                acc.2 ++ [{| QuestionDTO.questionid := question_id question;
                             QuestionDTO.answerList := question_answer_list question;
                             QuestionDTO.score := question_score question |}]))
        acc questions
  | _ => acc
  end.

(** The [if not is_first:] block; [None] stands for its [continue]. *)
Definition simulate_page (study_time_config : StudyTime.t) (page_info : CoursewarePage)
    : Eff Ambient (option PageLocals) :=
  let page_content_type := page_content_type page_info in
  if page_content_type =? 5 then
    let page_score := 100 in
    let element_num := Z.of_nat (length (elements page_info)) in
    let element_is_document := existsb isinstance_ElementDocumen (elements page_info) in
    if element_is_document then
      t ← randint (MinMaxTime.min (StudyTime.document study_time_config))
                  (MinMaxTime.max (StudyTime.document study_time_config));
      let page_study_time := 0 + Z.min (t * element_num) 3600 in
      logger INFO "[document] study seconds" [page_study_time];;
      mret (Some {| page_study_time := page_study_time; page_score := page_score;
                    page_study_record_dto_videos := [];
                    page_study_record_dto_questions := [] |})
    else
      t ← randint (MinMaxTime.min (StudyTime.content study_time_config))
                  (MinMaxTime.max (StudyTime.content study_time_config));
      let page_study_time := 0 + Z.min (t * element_num) 3600 in
      logger INFO "[text] study seconds" [page_study_time];;
      mret (Some {| page_study_time := page_study_time; page_score := page_score;
                    page_study_record_dto_videos := [];
                    page_study_record_dto_questions := [] |})
  else if page_content_type =? 6 then
    let page_score := 100 in
    r ← fold_each (elements page_info) (0, []) build_video;
    mret (Some {| page_study_time := r.1; page_score := page_score;
                  page_study_record_dto_videos := r.2;
                  page_study_record_dto_questions := [] |})
  else if page_content_type =? 7 then
    t ← randint (MinMaxTime.min (StudyTime.question study_time_config))
                (MinMaxTime.max (StudyTime.question study_time_config));
    let page_study_time := 0 + Z.min t 3600 in
    logger INFO "[question] study seconds" [page_study_time];;
    let r := foldl build_questions (0, []) (elements page_info) in
    mret (Some {| page_study_time := page_study_time; page_score := r.1;
                  page_study_record_dto_videos := [];
                  page_study_record_dto_questions := r.2 |})
  else
    logger WARNING "unknown page type" [page_content_type];;
    mret None.

(** Body of the page loop: the record of one page, or [None] when the page
    is passed over. *)
Definition build_page (study_time_config : StudyTime.t) (is_first : bool)
    (page_id : Z) (page_info : CoursewarePage) : Eff Ambient (option PageStudyRecordDTO.t) :=
  logger INFO "[page] processing" [page_id];;
  locals ← (if negb is_first then simulate_page study_time_config page_info
            else mret (Some {| page_study_time := 0; page_score := 0;
                               page_study_record_dto_videos := [];
                               page_study_record_dto_questions := [] |}));
  match locals with
  | None => mret None
  | Some locals =>
      mret (Some
        {| PageStudyRecordDTO.pageid := page_relation_id page_info;
           PageStudyRecordDTO.complete := 1;
           PageStudyRecordDTO.studyTime := if is_first then 0 else page_study_time locals;
           PageStudyRecordDTO.score := page_score locals;
           PageStudyRecordDTO.answerTime := 1;
           PageStudyRecordDTO.submitTimes := 0;
           PageStudyRecordDTO.coursepageId :=
             match page_study_record_dto_questions locals with
             | [] => None
             | _ :: _ => Some page_id
             end;
           PageStudyRecordDTO.questions := page_study_record_dto_questions locals;
           PageStudyRecordDTO.videos := page_study_record_dto_videos locals |})
  end.

(** [page_keys] are the keys of [section_info.pages] in insertion order,
    the order in which [pages.items()] yields the pages. *)
Definition build_sync_study_record_request (page_keys : list Z) (study_start_time : Z)
    (section_info : CoursewareSection) (user_info : CourseAPIUserInfoAPIResponse.t)
    (study_time_config : StudyTime.t) (is_first : bool)
    : Eff Ambient (option SyncStudyRecordAPIRequest.t) :=
  logger DEBUG "[MANAGER][DATA] build sync study record request" [];;
  try_except
    (let section_id := section_id section_info in
     let pages := pages section_info in
     page_study_record_dto_list ←
       fold_each (dict_items page_keys pages) []
         (λ page_study_record_dto_list item,
            dto ← build_page study_time_config is_first item.1 item.2;
            mret (match dto with
                  | Some dto => page_study_record_dto_list ++ [dto]
                  | None => page_study_record_dto_list
                  end));
     mret (Some
       {| SyncStudyRecordAPIRequest.itemid := section_id;
          SyncStudyRecordAPIRequest.autoSave := 1;
          SyncStudyRecordAPIRequest.complete := 1;
          SyncStudyRecordAPIRequest.studyStartTime := study_start_time;
          SyncStudyRecordAPIRequest.userName := CourseAPIUserInfoAPIResponse.name user_info;
          SyncStudyRecordAPIRequest.score := 100;
          SyncStudyRecordAPIRequest.pageStudyRecordDTOList := page_study_record_dto_list |}))
    (λ e,
     logger ERROR "[MANAGER][DATA] error while building sync study record request" [];;
     mret None).

(** Sample ambient states: every raw draw is [k], every clock reading [t]. *)
Definition sample_ambient (k : Z) (t : Q) : Ambient :=
  {| rng := λ _, k; rng_pos := 0; clock := λ _, t; clock_pos := 0 |}.

Definition sample_user : CourseAPIUserInfoAPIResponse.t :=
  {| CourseAPIUserInfoAPIResponse.userid := 9; CourseAPIUserInfoAPIResponse.name := "user" |}.

(** A document page with 21 elements. *)
Definition long_document_page : CoursewarePage :=
  {| page_id := 4; page_relation_id := 504; page_name := "long document";
     page_content_type := 5; is_complete := false;
     elements := replicate 21 (ElementDocumen "d") |}.

(** The record that the first pass sends for a page. *)
Definition first_pass_record (page_info : CoursewarePage) : PageStudyRecordDTO.t :=
  {| PageStudyRecordDTO.pageid := page_relation_id page_info;
     PageStudyRecordDTO.complete := 1;
     PageStudyRecordDTO.studyTime := 0;
     PageStudyRecordDTO.score := 0;
     PageStudyRecordDTO.answerTime := 1;
     PageStudyRecordDTO.submitTimes := 0;
     PageStudyRecordDTO.coursepageId := None;
     PageStudyRecordDTO.questions := [];
     PageStudyRecordDTO.videos := [] |}.

(** The bucket of the timing configuration for a document/text page:
    [document] when some element is an [ElementDocumen], else [content]. *)
Definition page_bucket (study_time_config : StudyTime.t) (page_info : CoursewarePage)
    : MinMaxTime.t :=
  if existsb isinstance_ElementDocumen (elements page_info)
  then StudyTime.document study_time_config
  else StudyTime.content study_time_config.

(** The videos among the elements of a page, as pairs of [video_id] and
    [video_length]. *)
Definition videos_of (es : list Element) : list (Z * Z) :=
  omap (λ element, match element with
                   | ElementVideo video_id video_length => Some (video_id, video_length)
                   | _ => None
                   end) es.

(** The float that [random.uniform(2, 8)] returns for the raw draw [k]. *)
Definition uniform_2_8 (k : Z) : Q := binary64 (2 + binary64 (6 * random_unit k)).

(** The watch time of a video of length [L] for the raw draw [k]: the float
    [L - uniform(2, 8)]. *)
Definition watch_time (L k : Z) : Q := binary64 (inject_Z L - uniform_2_8 k).

(** The record of one video when the clock is read at the time [c] and the
    raw draw is [k]: the timestamps are [int(now)] and
    [int(now + watchTime)] for the float [now] that the clock returns, the
    sum rounded to a float. *)
Definition video_record (video : Z * Z) (c : Q) (k : Z) : VideoDTO.t :=
  let now := binary64 c in
  let w := watch_time video.2 k in
  {| VideoDTO.videoid := video.1;
     VideoDTO.current := Finite w;
     VideoDTO.status := 1;
     VideoDTO.recordTime := Finite w;
     VideoDTO.time := Finite (inject_Z video.2);
     VideoDTO.startEndTimeList :=
       [{| StartEndTime.startTime := py_int now;
           StartEndTime.endTime := py_int (binary64 (now + w)) |}] |}.

(** The records of the videos of a page: the [i]-th video reads the clock
    and draws at the [i]-th position from where the page starts. *)
Definition video_records (amb : Ambient) (videos : list (Z * Z)) : list VideoDTO.t :=
  imap (λ i video,
          video_record video (clock amb (clock_pos amb + i)) (rng amb (rng_pos amb + i)))
    videos.

(** The ambient state after [n] videos: [n] clock readings and [n] draws
    are consumed. *)
Definition after_videos (n : nat) (amb : Ambient) : Ambient :=
  {| rng := rng amb; rng_pos := rng_pos amb + n;
     clock := clock amb; clock_pos := clock_pos amb + n |}.


(** ** [HttpClient] ([services/http_client.py])

    The [httpx] client is the environment: [transport n] is the outcome of
    the [n]-th request that is sent.  [sent] counts the requests and [wire]
    records what the client does, in order. *)

Inductive Method := GET | POST.

Record Response := { status_code : Z; body : string }.

Inductive Outcome :=
| Responded (resp : Response)
| TransportError
| OtherException.

(** A request with the [follow_redirects] flag it was sent with, or an
    [asyncio.sleep] with its duration in seconds. *)
Inductive Wire :=
| Sent (method : Method) (url : string) (follow_redirects : bool)
| Slept (seconds : Q).

Record Net := {
  transport : nat → Outcome;
  sent : nat;
  wire : list Wire;
}.

(** [await self.__client.get(...)] / [await self.__client.post(...)] *)
Definition client_request (method : Method) (url : string) (follow_redirects : bool)
    : Eff Net Outcome :=
  λ w, (inr (transport w.1 (sent w.1)),
        ({| transport := transport w.1; sent := S (sent w.1);
            wire := wire w.1 ++ [Sent method url follow_redirects] |}, w.2)).

(** [await asyncio.sleep(seconds)] *)
Definition asyncio_sleep (seconds : Q) : Eff Net () :=
  modify_state (λ net, {| transport := transport net; sent := sent net;
                          wire := wire net ++ [Slept seconds] |}).

(** [HttpClient.get]; the recursive call passes [retry + 1] and leaves
    [follow_redirects] at its default. *)
Equations? get (url : string) (retry : Z) (follow_redirects : bool)
    : Eff Net (option Response) by wf (Z.to_nat (3 - retry)) lt :=
get url retry follow_redirects :=
  logger DEBUG "[HTTP][GET]" [];;
  outcome ← client_request GET url follow_redirects;
  match outcome with
  | Responded resp => mret (Some resp)
  | TransportError =>
      logger ERROR "[HTTP][GET] network error" [];;
      match decide (retry >= 3) with
      | left _ =>
          logger ERROR "[HTTP][GET] too many retries" [];;
          mret None
      | right _ =>
          asyncio_sleep (1 # 2);;
          logger INFO "[HTTP][GET] retrying" [];;
          get url (retry + 1) false
      end
  | OtherException =>
      logger ERROR "[HTTP][GET] request failed" [];;
      mret None
  end.
Proof. lia. Qed.

(** [HttpClient.post] *)
Equations? post (url : string) (retry : Z) (follow_redirects : bool)
    : Eff Net (option Response) by wf (Z.to_nat (3 - retry)) lt :=
post url retry follow_redirects :=
  logger DEBUG "[HTTP][POST]" [];;
  outcome ← client_request POST url follow_redirects;
  match outcome with
  | Responded resp => mret (Some resp)
  | TransportError =>
      logger ERROR "[HTTP][POST] network error" [];;
      match decide (retry >= 3) with
      | left _ =>
          logger ERROR "[HTTP][POST] too many retries" [];;
          mret None
      | right _ =>
          asyncio_sleep (1 # 2);;
          logger INFO "[HTTP][POST] retrying" [];;
          post url (retry + 1) false
      end
  | OtherException =>
      logger ERROR "[HTTP][POST] request failed" [];;
      mret None
  end.
Proof. lia. Qed.

(** A network on which every request fails at the transport level. *)
Definition dead_net : Net :=
  {| transport := λ _, TransportError; sent := 0; wire := [] |}.

(** The number of requests that a call started with [retry] sends when every
    one of them fails at the transport level, and what goes over the wire
    after the first of them. *)
Definition attempts_from (retry : Z) : nat := Z.to_nat (Z.max 1 (4 - retry)).

Definition retried (method : Method) (url : string) (k : nat) : list Wire :=
  mjoin (replicate k [Slept (1 # 2); Sent method url false]).

(** A network whose first four requests fail at the transport level and
    whose later requests are answered. *)
Definition flaky_net : Net :=
  {| transport := λ n, if (n <? 4)%nat then TransportError
                       else Responded {| status_code := 200; body := "ok" |};
     sent := 0; wire := [] |}.

(** ** [CoursewareManager]: the section loop of [courseware_handler]
    ([services/courseware_manager.py])

    [self.course_api] is not among the sources.  Its calls are the
    environment of the loop: what [initialize_section] returns for a section,
    what the [n]-th call of [sync_study_record] returns, and what
    [watch_video_behavior] returns for a video.  [events] records the calls
    and the [asyncio.sleep]s in order.  The pings that [asyncio.gather]
    starts together are recorded one after the other. *)

Inductive Event :=
| Initialized (section_id : Z)
| Watched (video_id : Z)
| Synced (study_record_info : SyncStudyRecordAPIRequest.t)
| Paused (seconds : Q).

Record World := {
  ambient : Ambient;
  initialize_results : Z → option Z;
  sync_results : nat → bool;
  sync_calls : nat;
  watch_results : Z → bool;
  events : list Event;
}.

Record Config := {
  study_time : StudyTime.t;
  sleep_time : Q;
}.

Definition record_event (e : Event) (world : World) : World :=
  {| ambient := ambient world; initialize_results := initialize_results world;
     sync_results := sync_results world; sync_calls := sync_calls world;
     watch_results := watch_results world; events := events world ++ [e] |}.

(** Code of [DataManager] run inside the manager: it sees the random source
    and the clock of the world. *)
Definition lift_ambient {A} (m : Eff Ambient A) : Eff World A :=
  λ w, let r := m (ambient w.1, w.2) in
       (r.1,
        ({| ambient := r.2.1; initialize_results := initialize_results w.1;
            sync_results := sync_results w.1; sync_calls := sync_calls w.1;
            watch_results := watch_results w.1; events := events w.1 |}, r.2.2)).

Definition initialize_section (section_id : Z) : Eff World (option Z) :=
  λ w, (inr (initialize_results w.1 section_id),
        (record_event (Initialized section_id) w.1, w.2)).

Definition watch_video_behavior (video_id : Z) : Eff World bool :=
  λ w, (inr (watch_results w.1 video_id), (record_event (Watched video_id) w.1, w.2)).

Definition sync_study_record (study_record_info : SyncStudyRecordAPIRequest.t)
    : Eff World bool :=
  λ w, (inr (sync_results w.1 (sync_calls w.1)),
        ({| ambient := ambient w.1; initialize_results := initialize_results w.1;
            sync_results := sync_results w.1; sync_calls := S (sync_calls w.1);
            watch_results := watch_results w.1;
            events := events w.1 ++ [Synced study_record_info] |}, w.2)).

Definition sleep (seconds : Q) : Eff World () :=
  modify_state (record_event (Paused seconds)).

(** The [while True:] loop that builds and reports the study record of one
    section, entered with [retry = 0].  [page_keys] are the keys of the
    pages of the section in insertion order. *)
Equations? submit_loop (page_keys : list Z) (config : Config) (study_start_time : Z)
    (section_info : CoursewareSection) (user_info : CourseAPIUserInfoAPIResponse.t)
    (is_first : bool) (retry : Z) : Eff World () by wf (Z.to_nat (3 - retry)) lt :=
submit_loop page_keys config study_start_time section_info user_info is_first retry :=
  study_record_info ←
    lift_ambient (build_sync_study_record_request page_keys study_start_time section_info
                    user_info (study_time config) is_first);
  match study_record_info with
  | None => logger WARNING "building the request failed, skipped" []
  | Some study_record_info =>
      logger INFO "[section] reporting the study record" [section_id section_info];;
      sync_status ← sync_study_record study_record_info;
      match decide (retry >= 3) with
      | left _ =>
          logger WARNING "[section] retried reports failed, skipped"
            [section_id section_info]
      | right _ =>
          if negb sync_status then
            logger WARNING "[section] report failed" [section_id section_info];;
            sleep 1;;
            submit_loop page_keys config study_start_time section_info user_info is_first
              (retry + 1)
          else
            logger SUCCESS "[section] report accepted" [section_id section_info]
      end
  end.
Proof. lia. Qed.

(** The pings for the videos of one page, second pass only. *)
Definition watch_page (page_info : CoursewarePage) : Eff World () :=
  if page_content_type page_info =? 6 then
    statuses ← fold_each (videos_of (elements page_info)) []
                 (λ statuses video,
                    watch_status ← watch_video_behavior video.1;
                    mret (statuses ++ [(video.1, watch_status)]));
    for_each statuses
      (λ result,
         (if negb result.2
          then logger WARNING "[video] reporting the watch behaviour failed" [result.1]
          else logger SUCCESS "[video] watch behaviour reported" [result.1]);;
         sleep (3 # 10))
  else mret ().

(** Body of the section loop.  [page_order] gives, for a section
    identifier, the keys of the pages of that section in insertion order. *)
Definition handle_section (page_order : Z → list Z) (config : Config)
    (user_info : CourseAPIUserInfoAPIResponse.t) (is_first : bool)
    (item : Z * CoursewareSection) : Eff World () :=
  let section_id := item.1 in
  let section_info := item.2 in
  let page_keys := page_order section_id in
  study_start_time ← initialize_section section_id;
  match study_start_time with
  | None => logger WARNING "initialising the section failed, skipped" [section_id]
  | Some study_start_time =>
      if study_start_time =? 0 then
        logger WARNING "initialising the section failed, skipped" [section_id]
      else
        (if negb is_first
         then for_each (dict_items page_keys (pages section_info))
                (λ page, watch_page page.2)
         else mret ());;
        logger INFO "[section] building the sync study record request" [section_id];;
        submit_loop page_keys config study_start_time section_info user_info is_first 0;;
        (if negb is_first then sleep (sleep_time config) else mret ())
  end.

(** The insertion order of the dictionaries of a tree of chapters: the
    keys of the chapters, of the sections of a chapter and of the pages of a
    section of a chapter. *)
Record TreeOrder := {
  chapter_order : list Z;
  section_order : Z → list Z;
  page_order : Z → Z → list Z;
}.

Definition courseware_handler (order : TreeOrder) (config : Config)
    (chapters : gmap Z CoursewareChapter)
    (user_info : CourseAPIUserInfoAPIResponse.t) (is_first : bool) : Eff World () :=
  for_each (dict_items (chapter_order order) chapters)
    (λ chapter,
       logger INFO "[chapter] processing" [chapter.1];;
       for_each (dict_items (section_order order chapter.1) (sections chapter.2))
         (handle_section (page_order order chapter.1) config user_info is_first)).



Definition sample_config : Config :=
  {| study_time := default_study_time; sleep_time := 1 |}.

(** What a run of reports that are all rejected puts on record: the reports,
    with a pause of one second between them. *)
Definition rejected_reports (reqs : list SyncStudyRecordAPIRequest.t) : list Event :=
  match reqs with
  | [] => []
  | req :: reqs => Synced req :: flat_map (λ req, [Paused 1; Synced req]) reqs
  end.

(** ** [DataManager.parse_textbook_info] ([services/data_manager.py])

    The textbook directory ([models/api_response.py],
    [TextbookInfoAPIResponse]) and the function that builds the chapters,
    sections and pages of a textbook from it. *)

Module CoursePage.
Record t := {
  id : Z;
  relationid : Z;
  title : string;
  orderindex : Z;
  contentType : Z;
}.
End CoursePage.

Module Item.
Record t := {
  itemid : Z;
  title : string;
  orderindex : Z;
  hide : Z;
  coursepages : list CoursePage.t;
}.
End Item.

Module Chapter.
Record t := {
  nodeid : Z;
  nodetitle : string;
  orderindex : Z;
  hide : Z;
  items : list Item.t;
}.
End Chapter.

Module TextbookInfoAPIResponse.
Record t := {
  courseid : Z;
  coursename : string;
  chapters : list Chapter.t;
}.
End TextbookInfoAPIResponse.

(** References into the tree, as for [with_pages]: the [chapters] dictionary
    of a textbook and the [sections] dictionary of a chapter. *)
Definition with_chapters (tb : Z)
    (f : gmap Z CoursewareChapter → gmap Z CoursewareChapter)
    (course_config : ModelCourse) : ModelCourse :=
  set_textbooks
    (alter (λ t, set_chapters (f (chapters t)) t) tb (textbooks course_config))
    course_config.

Definition with_sections (tb ch : Z)
    (f : gmap Z CoursewareSection → gmap Z CoursewareSection)
    (course_config : ModelCourse) : ModelCourse :=
  with_chapters tb (alter (λ c, set_sections (f (sections c)) c) ch) course_config.

(** [CoursewarePage(page_id=..., page_relation_id=..., page_name=...,
    page_content_type=...)], with the defaults of the other fields. *)
Definition new_page (page_info : CoursePage.t) : CoursewarePage :=
  {| page_id := CoursePage.id page_info;
     page_relation_id := CoursePage.relationid page_info;
     page_name := CoursePage.title page_info;
     page_content_type := CoursePage.contentType page_info;
     is_complete := false;
     elements := [] |}.

(** Body of the page loop: [course_config_pages[page_id] = CoursewarePage(...)] *)
Definition add_page (tb ch sec : Z) (page_info : CoursePage.t) : Eff ModelCourse () :=
  modify_state
    (with_pages tb ch sec (<[CoursePage.id page_info := new_page page_info]>)).

(** Body of the section loop: a hidden section is passed over; otherwise
    [course_config_sections[section_id] = CoursewareSection(...)] and the
    pages are put into the new section. *)
Definition add_section (tb ch : Z) (section_info : Item.t) : Eff ModelCourse () :=
  let section_id := Item.itemid section_info in
  let section_name := Item.title section_info in
  if py_bool (Item.hide section_info) then
    logger INFO ("skipping hidden section: " +:+ section_name) []
  else
    modify_state
      (with_sections tb ch
         (<[section_id := {| section_id := section_id; section_name := section_name;
                             pages := ∅ |}]>));;
    for_each (Item.coursepages section_info) (add_page tb ch section_id).

(** Body of the chapter loop. *)
Definition add_chapter (tb : Z) (chapter_info : Chapter.t) : Eff ModelCourse () :=
  let chapter_id := Chapter.nodeid chapter_info in
  let chapter_name := Chapter.nodetitle chapter_info in
  if py_bool (Chapter.hide chapter_info) then
    logger INFO ("skipping hidden chapter: " +:+ chapter_name) []
  else
    modify_state
      (with_chapters tb
         (<[chapter_id := {| chapter_id := chapter_id; chapter_name := chapter_name;
                             sections := ∅ |}]>));;
    for_each (Chapter.items chapter_info) (add_section tb chapter_id).

Definition parse_textbook_info (textbook_info : TextbookInfoAPIResponse.t)
    : Eff ModelCourse bool :=
  logger DEBUG "[MANAGER][DATA] parse textbook info" [];;
  try_except
    (let textbook_id := TextbookInfoAPIResponse.courseid textbook_info in
     course_config ← get_state;
     _ ← getitem (textbooks course_config) textbook_id;
     for_each (TextbookInfoAPIResponse.chapters textbook_info) (add_chapter textbook_id);;
     logger DEBUG "[MANAGER][DATA] textbook info parsed" [];;
     mret true)
    (λ e,
     logger ERROR "[MANAGER][DATA] error while parsing textbook info" [];;
     mret false).

(** The objects that the loops leave behind: the section built from a
    visible item, the chapter built from a visible chapter of the directory,
    and the chapters of the textbook after the whole directory.  Each
    dictionary is a [listing]: filled from a list, hidden entries passed
    over, a later entry replacing an earlier one with the same identifier. *)
Definition listing {A B} (key : A → Z) (hidden : A → bool) (build : A → B)
    (old : gmap Z B) (entries : list A) : gmap Z B :=
  foldl (λ m x, if hidden x then m else <[key x := build x]> m) old entries.

Definition built_pages (page_infos : list CoursePage.t) : gmap Z CoursewarePage :=
  listing CoursePage.id (λ _, false) new_page ∅ page_infos.

Definition built_section (section_info : Item.t) : CoursewareSection :=
  {| section_id := Item.itemid section_info;
     section_name := Item.title section_info;
     pages := built_pages (Item.coursepages section_info) |}.

Definition built_sections (section_infos : list Item.t) : gmap Z CoursewareSection :=
  listing Item.itemid (λ section_info, py_bool (Item.hide section_info)) built_section
    ∅ section_infos.

Definition built_chapter (chapter_info : Chapter.t) : CoursewareChapter :=
  {| chapter_id := Chapter.nodeid chapter_info;
     chapter_name := Chapter.nodetitle chapter_info;
     sections := built_sections (Chapter.items chapter_info) |}.

Definition built_chapters (chapter_infos : list Chapter.t)
    (old : gmap Z CoursewareChapter) : gmap Z CoursewareChapter :=
  listing Chapter.nodeid (λ chapter_info, py_bool (Chapter.hide chapter_info)) built_chapter
    old chapter_infos.

(** A sample directory for textbook 10 of [sample_course]: chapter 100 with
    section 1000 (pages 1 and 2) and a hidden section 1002, and a hidden
    chapter 101. *)
Definition sample_course_page (id contentType : Z) : CoursePage.t :=
  {| CoursePage.id := id; CoursePage.relationid := 500 + id; CoursePage.title := "page";
     CoursePage.orderindex := id; CoursePage.contentType := contentType |}.

Definition sample_section_info : Item.t :=
  {| Item.itemid := 1000; Item.title := "s1000"; Item.orderindex := 1; Item.hide := 0;
     Item.coursepages := [sample_course_page 1 6; sample_course_page 2 5] |}.

Definition sample_hidden_section_info : Item.t :=
  {| Item.itemid := 1002; Item.title := "s1002"; Item.orderindex := 2; Item.hide := 1;
     Item.coursepages := [sample_course_page 9 5] |}.

Definition sample_chapter_listing : Chapter.t :=
  {| Chapter.nodeid := 100; Chapter.nodetitle := "c100"; Chapter.orderindex := 1;
     Chapter.hide := 0;
     Chapter.items := [sample_section_info; sample_hidden_section_info] |}.

Definition sample_hidden_chapter_listing : Chapter.t :=
  {| Chapter.nodeid := 101; Chapter.nodetitle := "c101"; Chapter.orderindex := 2;
     Chapter.hide := 1; Chapter.items := [] |}.

Definition sample_directory : TextbookInfoAPIResponse.t :=
  {| TextbookInfoAPIResponse.courseid := 10;
     TextbookInfoAPIResponse.coursename := "t10";
     TextbookInfoAPIResponse.chapters :=
       [sample_chapter_listing; sample_hidden_chapter_listing] |}.

(** A course with a second textbook, and with two chapters in textbook 10
    that the sample directory does not list as visible: chapter 101, which it
    lists as hidden, and chapter 102, which it does not list. *)
Definition sample_kept_chapter (id : Z) : CoursewareChapter :=
  {| chapter_id := id; chapter_name := "kept";
     sections := {[ 1001 := sample_section_1001 ]} |}.

Definition sample_other_textbook : ModelTextbook :=
  {| textbook_id := 11; textbook_name := "t11"; status := 1; limit := 0;
     chapters := {[ 100 := sample_chapter ]} |}.

Definition sample_wide_course : ModelCourse :=
  {| course_id := 1; course_name := "course"; class_id := 7; class_user_id := 8;
     textbooks :=
       {[ 10 := {| textbook_id := 10; textbook_name := "t10"; status := 1; limit := 0;
                   chapters := {[ 100 := sample_chapter;
                                  101 := sample_kept_chapter 101;
                                  102 := sample_kept_chapter 102 ]} |};
          11 := sample_other_textbook ]} |}.
(** ** [CoursewareManager]: clearing the configured courses
    ([services/courseware_manager.py])

    The loop that ends [__complete_courseware] (with [prune()]) and
    [__prune_completed_courseware] (with [prune(remove_complete=True)]):
    [for course_id, course_info in dict(courses).items():
         course_info.prune(remove_complete)
         if not course_info.textbooks: courses.pop(course_id)] *)
Definition prune_courses_body (remove_complete : bool)
    (course_id : Z) (course_info : ModelCourse) : option ModelCourse :=
  let course_info := ModelCourse_prune remove_complete course_info in
  if dict_not (textbooks course_info) then None else Some course_info.

Definition prune_courses (remove_complete : bool)
    (courses : gmap Z ModelCourse) : gmap Z ModelCourse :=
  items_loop (prune_courses_body remove_complete) courses.

(** The courses of a user with one configured course. *)
Definition sample_courses : gmap Z ModelCourse := {[ 1 := sample_course ]}.

(** ** What a second-pass report holds

    Helpers for statements about [build_sync_study_record_request]. *)

(** The questions among the elements of a page, in order. *)
Definition questions_of (es : list Element) : list Question :=
  flat_map (λ element, match element with
                       | ElementQuestion questions => questions
                       | _ => []
                       end) es.

(** [QuestionDTO(questionid=..., answerList=..., score=...)] *)
Definition question_record (question : Question) : QuestionDTO.t :=
  {| QuestionDTO.questionid := question_id question;
     QuestionDTO.answerList := question_answer_list question;
     QuestionDTO.score := question_score question |}.

(** The page types that the second pass knows: 5, 6 and 7. *)
Definition page_type_known (page_info : CoursewarePage) : bool :=
  (page_content_type page_info =? 5) || (page_content_type page_info =? 6)
  || (page_content_type page_info =? 7).

(** The range that [random.randint] is called with for a page, if it is
    called: the document or content range for type 5, the question range
    for type 7. *)
Definition page_range (study_time_config : StudyTime.t) (page_info : CoursewarePage)
    : option MinMaxTime.t :=
  if page_content_type page_info =? 5 then Some (page_bucket study_time_config page_info)
  else if page_content_type page_info =? 7 then Some (StudyTime.question study_time_config)
  else None.

(** A configuration whose question range is empty. *)
Definition broken_study_time : StudyTime.t :=
  {| StudyTime.question := {| MinMaxTime.min := 10; MinMaxTime.max := 5 |};
     StudyTime.document := {| MinMaxTime.min := 180; MinMaxTime.max := 360 |};
     StudyTime.content := {| MinMaxTime.min := 180; MinMaxTime.max := 360 |} |}.

(** The video lengths of a video page are at most [2^51] in magnitude. *)
Definition short_videos (p : CoursewarePage) : Prop :=
  page_content_type p = 6 →
  Forall (λ video : Z * Z, Z.abs video.2 ≤ 2 ^ 51) (videos_of (elements p)).
(** ** What a pass over a section puts on record

    Helpers for statements about [handle_section] and [courseware_handler]. *)

Definition add_events (new : list Event) (world : World) : World :=
  {| ambient := ambient world; initialize_results := initialize_results world;
     sync_results := sync_results world; sync_calls := sync_calls world;
     watch_results := watch_results world; events := events world ++ new |}.

(** The pings of one page in the second pass: one call of
    [watch_video_behavior] for every video of a video page, then a pause of
    0.3 s for every video. *)
Definition page_pings (page_info : CoursewarePage) : list Event :=
  if page_content_type page_info =? 6 then
    (Watched ∘ fst <$> videos_of (elements page_info))
    ++ ((λ _, Paused (3 # 10)) <$> videos_of (elements page_info))
  else [].

(** The pings of a section, page after page in the order [page_keys] of
    the page dictionary. *)
Definition section_pings (page_keys : list Z) (section_info : CoursewareSection)
    : list Event :=
  flat_map (λ page, page_pings page.2) (dict_items page_keys (pages section_info)).

Definition is_initialized (e : Event) : bool :=
  match e with Initialized _ => true | _ => false end.

(** The sections that [courseware_handler] walks, in order: chapter after
    chapter, and the sections of a chapter in the order of its dictionary. *)
Definition section_ids (order : TreeOrder) (chapters : gmap Z CoursewareChapter) : list Z :=
  flat_map (λ chapter,
              fst <$> dict_items (section_order order chapter.1) (sections chapter.2))
    (dict_items (chapter_order order) chapters).

(** The insertion order of the sample tree. *)
Definition sample_order : TreeOrder :=
  {| chapter_order := [100];
     section_order := λ _, [1000; 1001];
     page_order := λ _ section_id, if section_id =? 1000 then [1; 2] else [3] |}.

(** A world in which every section initialises and every report is
    accepted, and one in which no section initialises. *)
Definition accepting_world : World :=
  {| ambient := sample_ambient 7 0;
     initialize_results := λ _, Some 1700000000;
     sync_results := λ _, true;
     sync_calls := 0;
     watch_results := λ _, true;
     events := [] |}.

Definition closed_world : World :=
  {| ambient := sample_ambient 7 0;
     initialize_results := λ _, None;
     sync_results := λ _, true;
     sync_calls := 0;
     watch_results := λ _, true;
     events := [] |}.


(** A configuration with an empty question range. *)
Definition broken_config : Config :=
  {| study_time := broken_study_time; sleep_time := 1 |}.

(** A configuration with an empty document range. *)
Definition broken_document_config : Config :=
  {| study_time :=
       {| StudyTime.question := {| MinMaxTime.min := 180; MinMaxTime.max := 360 |};
          StudyTime.document := {| MinMaxTime.min := 360; MinMaxTime.max := 180 |};
          StudyTime.content := {| MinMaxTime.min := 180; MinMaxTime.max := 360 |} |};
     sleep_time := 1 |}.

(** A network whose first two requests fail at the transport level and
    whose later requests are answered with a redirect. *)
Definition recovering_net : Net :=
  {| transport := λ n, if (n <? 2)%nat then TransportError
                       else Responded {| status_code := 302; body := "moved" |};
     sent := 0; wire := [] |}.


(** * Properties *)

(** ** Loops over dictionary items *)

Section items_facts.
Context {A : Type}.

Lemma items_loop_lookup (step : Z → A → option A) (d : gmap Z A) (k : Z) :
  items_loop step d !! k = d !! k ≫= step k.
Proof.
  unfold items_loop.
  enough (Hgen : ∀ live : gmap Z A,
    map_fold (items_body step) live d !! k =
    match d !! k with Some v => step k v | None => live !! k end).
  { rewrite Hgen. by destruct (d !! k). }
  intros live.
  apply (map_fold_weak_ind (λ (r : gmap Z A) (seen : gmap Z A),
    r !! k = match seen !! k with Some v => step k v | None => live !! k end)).
  - by rewrite lookup_empty.
  - intros i x seen r Hfresh IH. unfold items_body.
    destruct (decide (i = k)) as [->|Hne].
    + rewrite lookup_insert_eq.
      destruct (step k x); [by rewrite lookup_insert_eq|by rewrite lookup_delete_eq].
    + rewrite (lookup_insert_ne seen) by done. rewrite <- IH.
      destruct (step i x); [by rewrite lookup_insert_ne|by rewrite lookup_delete_ne].
Qed.

Lemma items_loop_Some (step : Z → A → option A) (d : gmap Z A) (k : Z) (v' : A) :
  items_loop step d !! k = Some v' ↔ ∃ v, d !! k = Some v ∧ step k v = Some v'.
Proof. by rewrite items_loop_lookup, bind_Some. Qed.

Lemma items_loop_fixed (step : Z → A → option A) (d : gmap Z A) :
  (∀ k v v', step k v = Some v' → step k v' = Some v') →
  items_loop step (items_loop step d) = items_loop step d.
Proof.
  intros Hstep. apply map_eq; intros k. rewrite !items_loop_lookup.
  destruct (d !! k) as [v|]; simpl; [|done].
  destruct (step k v) as [v'|] eqn:Hv; simpl; [eauto|done].
Qed.
End items_facts.

(** ** Pruning *)

Lemma dict_not_true {A} (d : gmap Z A) : dict_not d = true ↔ d = ∅.
Proof. unfold dict_not. apply bool_decide_eq_true. Qed.

Lemma dict_not_false {A} (d : gmap Z A) : dict_not d = false ↔ d ≠ ∅.
Proof. unfold dict_not. apply bool_decide_eq_false. Qed.

(** One level of the tree: a container is pruned by [g] and then dropped
    when it has no child left. *)
Section level.
Context {A B : Type} (kids : A → gmap Z B) (g : A → A) (body : A → option A).
Hypothesis body_eq :
  ∀ x, body x = if dict_not (kids (g x)) then None else Some (g x).

Lemma level_body_fixed (x x' : A) :
  (∀ y, g (g y) = g y) → body x = Some x' → body x' = Some x'.
Proof.
  intros Hg. rewrite !body_eq. destruct (dict_not (kids (g x))) eqn:Hk; [done|].
  intros [= <-]. by rewrite Hg, Hk.
Qed.

Lemma level_body_Some (x x' : A) :
  body x = Some x' → x' = g x ∧ kids x' ≠ ∅.
Proof.
  rewrite body_eq. destruct (dict_not (kids (g x))) eqn:Hk; [done|].
  intros [= <-]. split; [done|]. by apply dict_not_false.
Qed.

Lemma level_body_look {P} (look : A → option P) (x : A) :
  (∀ y p, look y = Some p → kids y ≠ ∅) → body x ≫= look = look (g x).
Proof.
  intros Hlook. rewrite body_eq.
  destruct (dict_not (kids (g x))) eqn:Hk; [|done]. simpl.
  apply dict_not_true in Hk. destruct (look (g x)) as [p|] eqn:Hp; [|done].
  by destruct (Hlook _ _ Hp).
Qed.
End level.

(** The page filter of [CoursewareSection.prune], as [CoursewareChapter.prune]
    applies it. *)
Lemma CoursewareSection_prune_pages (self : CoursewareSection) (pid : Z) :
  pages (CoursewareSection_prune self) !! pid =
  p ← pages self !! pid; if is_complete p then None else Some p.
Proof. unfold CoursewareSection_prune; simpl. by rewrite items_loop_lookup. Qed.

Lemma section_pruned_pages (rc : bool) (s : CoursewareSection) (pid : Z) :
  pages (if rc then CoursewareSection_prune s else s) !! pid =
  p ← pages s !! pid; if rc && is_complete p then None else Some p.
Proof.
  destruct rc; simpl.
  - apply CoursewareSection_prune_pages.
  - by destruct (pages s !! pid).
Qed.

Lemma CoursewareSection_prune_idem (s : CoursewareSection) :
  CoursewareSection_prune (CoursewareSection_prune s) = CoursewareSection_prune s.
Proof.
  unfold CoursewareSection_prune, set_pages; simpl. f_equal.
  apply items_loop_fixed. unfold CoursewareSection_prune_body.
  intros _ v v'. by destruct (is_complete v) eqn:Hv; [|intros [= <-]; rewrite Hv].
Qed.

Lemma CoursewareChapter_prune_idem (rc : bool) (c : CoursewareChapter) :
  CoursewareChapter_prune rc (CoursewareChapter_prune rc c) = CoursewareChapter_prune rc c.
Proof.
  unfold CoursewareChapter_prune, set_sections; simpl. f_equal.
  apply items_loop_fixed. intros k v v'.
  apply (level_body_fixed pages (λ s, if rc then CoursewareSection_prune s else s)
    (CoursewareChapter_prune_body rc k) (λ _, eq_refl)).
  intros s. destruct rc; [apply CoursewareSection_prune_idem|done].
Qed.

Lemma ModelTextbook_prune_idem (rc : bool) (t : ModelTextbook) :
  ModelTextbook_prune rc (ModelTextbook_prune rc t) = ModelTextbook_prune rc t.
Proof.
  unfold ModelTextbook_prune, set_chapters; simpl. f_equal.
  apply items_loop_fixed. intros k v v'.
  apply (level_body_fixed sections (CoursewareChapter_prune rc)
    (ModelTextbook_prune_body rc k) (λ _, eq_refl)).
  apply CoursewareChapter_prune_idem.
Qed.

Lemma ModelCourse_prune_idem (rc : bool) (course : ModelCourse) :
  ModelCourse_prune rc (ModelCourse_prune rc course) = ModelCourse_prune rc course.
Proof.
  unfold ModelCourse_prune, set_textbooks; simpl. f_equal.
  apply items_loop_fixed. intros k v v'.
  apply (level_body_fixed chapters (ModelTextbook_prune rc)
    (ModelCourse_prune_body rc k) (λ _, eq_refl)).
  apply ModelTextbook_prune_idem.
Qed.

Lemma CoursewareChapter_prune_nonempty (rc : bool) (c : CoursewareChapter) :
  map_Forall (λ _, section_nonempty) (sections (CoursewareChapter_prune rc c)).
Proof.
  intros sec s'. unfold CoursewareChapter_prune; simpl.
  rewrite items_loop_Some. intros (s & _ & Hs).
  by apply (level_body_Some pages
    (λ s, if rc then CoursewareSection_prune s else s)
    (CoursewareChapter_prune_body rc sec) (λ _, eq_refl)) in Hs as [_ ?].
Qed.

Lemma ModelTextbook_prune_nonempty (rc : bool) (t : ModelTextbook) :
  map_Forall (λ _, chapter_nonempty) (chapters (ModelTextbook_prune rc t)).
Proof.
  intros ch c'. unfold ModelTextbook_prune; simpl.
  rewrite items_loop_Some. intros (c & _ & Hc).
  apply (level_body_Some sections (CoursewareChapter_prune rc)
    (ModelTextbook_prune_body rc ch) (λ _, eq_refl)) in Hc as [-> Hne].
  split; [done|]. apply CoursewareChapter_prune_nonempty.
Qed.

Lemma ModelCourse_prune_nonempty (rc : bool) (course : ModelCourse) :
  no_empty_container (ModelCourse_prune rc course).
Proof.
  intros tb t'. unfold ModelCourse_prune; simpl.
  rewrite items_loop_Some. intros (t & _ & Ht).
  apply (level_body_Some chapters (ModelTextbook_prune rc)
    (ModelCourse_prune_body rc tb) (λ _, eq_refl)) in Ht as [-> Hne].
  split; [done|]. apply ModelTextbook_prune_nonempty.
Qed.

Lemma chapter_page_kids (c : CoursewareChapter) (sec pid : Z) (p : CoursewarePage) :
  chapter_page c sec pid = Some p → sections c ≠ ∅.
Proof.
  unfold chapter_page. intros H Hempty. by rewrite Hempty, lookup_empty in H.
Qed.

Lemma textbook_page_kids (t : ModelTextbook) (ch sec pid : Z) (p : CoursewarePage) :
  textbook_page t ch sec pid = Some p → chapters t ≠ ∅.
Proof.
  unfold textbook_page. intros H Hempty. by rewrite Hempty, lookup_empty in H.
Qed.

Lemma CoursewareChapter_prune_page (rc : bool) (c : CoursewareChapter) (sec pid : Z) :
  chapter_page (CoursewareChapter_prune rc c) sec pid =
  p ← chapter_page c sec pid; if rc && is_complete p then None else Some p.
Proof.
  unfold chapter_page, CoursewareChapter_prune; simpl.
  rewrite items_loop_lookup.
  destruct (sections c !! sec) as [s|]; simpl; [|done].
  rewrite (level_body_look pages
    (λ s, if rc then CoursewareSection_prune s else s)
    (CoursewareChapter_prune_body rc sec) (λ _, eq_refl)).
  - apply section_pruned_pages.
  - intros y p H Hempty. by rewrite Hempty, lookup_empty in H.
Qed.

Lemma ModelTextbook_prune_page (rc : bool) (t : ModelTextbook) (ch sec pid : Z) :
  textbook_page (ModelTextbook_prune rc t) ch sec pid =
  p ← textbook_page t ch sec pid; if rc && is_complete p then None else Some p.
Proof.
  unfold textbook_page, ModelTextbook_prune; simpl.
  rewrite items_loop_lookup.
  destruct (chapters t !! ch) as [c|]; simpl; [|done].
  rewrite (level_body_look sections (CoursewareChapter_prune rc)
    (ModelTextbook_prune_body rc ch) (λ _, eq_refl)).
  - apply CoursewareChapter_prune_page.
  - intros y p. apply chapter_page_kids.
Qed.

Lemma ModelCourse_prune_page (rc : bool) (course : ModelCourse) (tb ch sec pid : Z) :
  course_page (ModelCourse_prune rc course) tb ch sec pid =
  p ← course_page course tb ch sec pid; if rc && is_complete p then None else Some p.
Proof.
  unfold course_page, ModelCourse_prune; simpl.
  rewrite items_loop_lookup.
  destruct (textbooks course !! tb) as [t|]; simpl; [|done].
  rewrite (level_body_look chapters (ModelTextbook_prune rc)
    (ModelCourse_prune_body rc tb) (λ _, eq_refl)).
  - apply ModelTextbook_prune_page.
  - intros y p. apply textbook_page_kids.
Qed.

(** The scenario of a tree whose only page is complete: [prune(True)] removes
    the page, then its section, chapter and textbook, and the course is left
    with an empty textbook dictionary. *)
Example prune_cascade :
  let section := {| section_id := 1001; section_name := "s";
                    pages := {[ 3 := sample_question_page ]} |} in
  let chapter := {| chapter_id := 100; chapter_name := "c";
                    sections := {[ 1001 := section ]} |} in
  let textbook := {| textbook_id := 10; textbook_name := "t"; status := 1; limit := 0;
                     chapters := {[ 100 := chapter ]} |} in
  let course := {| course_id := 1; course_name := "course"; class_id := 7;
                   class_user_id := 8; textbooks := {[ 10 := textbook ]} |} in
  textbooks (ModelCourse_prune true course) = ∅ ∧
  ModelCourse_prune false course = course.
Proof. split; vm_compute; reflexivity. Qed.

Example prune_sample :
  course_page (ModelCourse_prune true sample_course) 10 100 1000 1 = None ∧
  course_page (ModelCourse_prune true sample_course) 10 100 1000 2 = Some sample_document_page ∧
  course_page (ModelCourse_prune true sample_course) 10 100 1001 3 = None ∧
  course_page (ModelCourse_prune false sample_course) 10 100 1001 3 = Some sample_question_page.
Proof. repeat split; vm_compute; reflexivity. Qed.

(** C5.  [prune] is idempotent, at every level of the tree and for either
    value of [remove_complete], so in particular with [remove_complete =
    True]: pruning a pruned course changes nothing.  The pruned course has no
    empty textbook, chapter or section, and a page is found in it exactly
    where it was before, except that completed pages are gone when
    [remove_complete] is set. *)
Theorem prune_idempotent_removes_empty
    (remove_complete : bool) (course : ModelCourse) (textbook : ModelTextbook)
    (chapter : CoursewareChapter) (section : CoursewareSection) :
  ModelCourse_prune remove_complete (ModelCourse_prune remove_complete course)
    = ModelCourse_prune remove_complete course
  ∧ ModelTextbook_prune remove_complete (ModelTextbook_prune remove_complete textbook)
    = ModelTextbook_prune remove_complete textbook
  ∧ CoursewareChapter_prune remove_complete (CoursewareChapter_prune remove_complete chapter)
    = CoursewareChapter_prune remove_complete chapter
  ∧ CoursewareSection_prune (CoursewareSection_prune section)
    = CoursewareSection_prune section
  ∧ no_empty_container (ModelCourse_prune remove_complete course)
  ∧ ∀ tb ch sec pid : Z,
      course_page (ModelCourse_prune remove_complete course) tb ch sec pid =
      p ← course_page course tb ch sec pid;
      if remove_complete && is_complete p then None else Some p.
Proof.
  split; [apply ModelCourse_prune_idem|].
  split; [apply ModelTextbook_prune_idem|].
  split; [apply CoursewareChapter_prune_idem|].
  split; [apply CoursewareSection_prune_idem|].
  split; [apply ModelCourse_prune_nonempty|].
  intros tb ch sec pid. apply ModelCourse_prune_page.
Qed.

(** C10.  [prune] never removes an incomplete page: a page with
    [is_complete = False] is found after [prune], for both values of
    [remove_complete], under the same textbook, chapter and section keys,
    which are therefore all still present. *)
Theorem prune_keeps_incomplete_page
    (remove_complete : bool) (course : ModelCourse) (tb ch sec pid : Z)
    (p : CoursewarePage) :
  course_page course tb ch sec pid = Some p →
  is_complete p = false →
  ∃ t c s,
    textbooks (ModelCourse_prune remove_complete course) !! tb = Some t ∧
    chapters t !! ch = Some c ∧
    sections c !! sec = Some s ∧
    pages s !! pid = Some p.
Proof.
  intros Hp Hopen.
  assert (Hkept : course_page (ModelCourse_prune remove_complete course) tb ch sec pid
                  = Some p).
  { rewrite ModelCourse_prune_page, Hp; simpl. by rewrite Hopen, andb_false_r. }
  unfold course_page, textbook_page, chapter_page in Hkept.
  apply bind_Some in Hkept as (t & Ht & Hkept).
  apply bind_Some in Hkept as (c & Hc & Hkept).
  apply bind_Some in Hkept as (s & Hs & Hkept).
  by exists t, c, s.
Qed.

Lemma prune_keeps_incomplete_page_witness :
  course_page sample_course 10 100 1000 2 = Some sample_document_page ∧
  is_complete sample_document_page = false ∧
  ∃ t c s,
    textbooks (ModelCourse_prune true sample_course) !! 10 = Some t ∧
    chapters t !! 100 = Some c ∧
    sections c !! 1000 = Some s ∧
    pages s !! 2 = Some sample_document_page.
Proof.
  split; [reflexivity|]. split; [reflexivity|].
  apply (prune_keeps_incomplete_page true sample_course 10 100 1000 2
           sample_document_page); reflexivity.
Defined.

(** ** Running effectful code *)

Lemma eff_bind_run {σ A B} (f : A → Eff σ B) (m : Eff σ A) (w : σ * list LogLine) :
  (m ≫= f) w =
  match m w with
  | (inr a, w') => f a w'
  | (inl e, w') => (inl e, w')
  end.
Proof. reflexivity. Qed.

Lemma eff_ret_run {σ A} (a : A) (w : σ * list LogLine) :
  (mret a : Eff σ A) w = (inr a, w).
Proof. reflexivity. Qed.

Lemma for_each_modify {σ A} (g : A → σ → σ) (xs : list A) (s : σ) (lg : list LogLine) :
  for_each xs (λ x, modify_state (g x)) (s, lg) =
  (inr (), (foldl (λ s x, g x s) s xs, lg)).
Proof.
  revert s. induction xs as [|x xs IH]; intros s; [done|].
  simpl. rewrite eff_bind_run. simpl. apply IH.
Qed.

Lemma for_each_app {σ A} (body : A → Eff σ ()) (xs ys : list A) (w : σ * list LogLine) :
  for_each (xs ++ ys) body w =
  match for_each xs body w with
  | (inr _, w') => for_each ys body w'
  | (inl e, w') => (inl e, w')
  end.
Proof.
  revert w. induction xs as [|x xs IH]; intros w; simpl.
  - done.
  - rewrite !eff_bind_run. destruct (body x w) as [[e|[]] w']; [done|]. apply IH.
Qed.

(** ** Paths through [with_pages] *)

Lemma course_page_with_pages (tb ch sec : Z)
    (f : gmap Z CoursewarePage → gmap Z CoursewarePage) (course : ModelCourse)
    (tb' ch' sec' pid : Z) :
  course_page (with_pages tb ch sec f course) tb' ch' sec' pid =
  if decide (tb' = tb ∧ ch' = ch ∧ sec' = sec)
  then t ← textbooks course !! tb; c ← chapters t !! ch; s ← sections c !! sec;
       f (pages s) !! pid
  else course_page course tb' ch' sec' pid.
Proof.
  unfold course_page, textbook_page, chapter_page, with_pages; simpl.
  rewrite lookup_alter.
  destruct (decide (tb = tb')) as [<-|Htb]; cycle 1.
  { by rewrite decide_False by (intros (?&?&?); congruence). }
  destruct (textbooks course !! tb) as [t|]; simpl; [|by case_decide].
  rewrite lookup_alter.
  destruct (decide (ch = ch')) as [<-|Hch]; cycle 1.
  { by rewrite decide_False by (intros (?&?&?); congruence). }
  destruct (chapters t !! ch) as [c|]; simpl; [|by case_decide].
  rewrite lookup_alter.
  destruct (decide (sec = sec')) as [<-|Hsec]; cycle 1.
  { by rewrite decide_False by (intros (?&?&?); congruence). }
  rewrite decide_True by done.
  by destruct (sections c !! sec) as [s|].
Qed.

(** ** Study records *)

Lemma mark_pages_lookup (e : StudyRecordAPIResponse.PageStudyRecordDTO)
    (ps : gmap Z CoursewarePage) (pid : Z) :
  mark_pages e ps !! pid = mark_page e <$> ps !! pid.
Proof. unfold mark_pages. rewrite items_loop_lookup. by destruct (ps !! pid). Qed.

Lemma mark_page_relation_id (e : StudyRecordAPIResponse.PageStudyRecordDTO)
    (p : CoursewarePage) :
  page_relation_id (mark_page e p) = page_relation_id p.
Proof. unfold mark_page. by case_match. Qed.

Lemma course_page_mark_pages (tb ch sec : Z)
    (e : StudyRecordAPIResponse.PageStudyRecordDTO) (course : ModelCourse)
    (tb' ch' sec' pid : Z) :
  course_page (with_pages tb ch sec (mark_pages e) course) tb' ch' sec' pid =
  (if decide (tb' = tb ∧ ch' = ch ∧ sec' = sec) then mark_page e else λ p, p)
    <$> course_page course tb' ch' sec' pid.
Proof.
  rewrite course_page_with_pages. case_decide as Hloc.
  - destruct Hloc as (-> & -> & ->). unfold course_page, textbook_page, chapter_page.
    destruct (textbooks course !! tb) as [t|]; simpl; [|done].
    destruct (chapters t !! ch) as [c|]; simpl; [|done].
    destruct (sections c !! sec) as [s|]; simpl; [|done].
    apply mark_pages_lookup.
  - by destruct (course_page course tb' ch' sec' pid).
Qed.

Lemma course_page_mark_all (tb ch sec : Z)
    (es : list StudyRecordAPIResponse.PageStudyRecordDTO) (course : ModelCourse)
    (tb' ch' sec' pid : Z) :
  course_page
    (foldl (λ c e, with_pages tb ch sec (mark_pages e) c) course es) tb' ch' sec' pid =
  (if decide (tb' = tb ∧ ch' = ch ∧ sec' = sec)
   then λ p, foldl (λ p e, mark_page e p) p es else λ p, p)
    <$> course_page course tb' ch' sec' pid.
Proof.
  revert course. induction es as [|e es IH]; intros course; simpl.
  - case_decide; by destruct (course_page course tb' ch' sec' pid).
  - rewrite IH, course_page_mark_pages.
    case_decide; by destruct (course_page course tb' ch' sec' pid).
Qed.

(** What the entries of a record do to one page: nothing when none carries
    its relation id, otherwise the flag of the last one that does. *)
Lemma mark_all_unmatched (es : list StudyRecordAPIResponse.PageStudyRecordDTO)
    (p : CoursewarePage) :
  Forall (λ e, StudyRecordAPIResponse.pageid e ≠ page_relation_id p) es →
  foldl (λ p e, mark_page e p) p es = p.
Proof.
  induction 1 as [|e es He _ IH]; simpl; [done|].
  unfold mark_page at 2. by rewrite (proj2 (Z.eqb_neq _ _)) by done.
Qed.

Lemma mark_all_only_flag (es : list StudyRecordAPIResponse.PageStudyRecordDTO)
    (p : CoursewarePage) :
  ∃ b, foldl (λ p e, mark_page e p) p es = set_is_complete b p.
Proof.
  revert p. induction es as [|e es IH]; intros p; simpl.
  - exists (is_complete p). by destruct p.
  - destruct (IH (mark_page e p)) as [b ->]. exists b.
    unfold mark_page. by case_match.
Qed.

Lemma mark_all_last (es1 es2 : list StudyRecordAPIResponse.PageStudyRecordDTO)
    (e : StudyRecordAPIResponse.PageStudyRecordDTO) (p : CoursewarePage) :
  StudyRecordAPIResponse.pageid e = page_relation_id p →
  Forall (λ e', StudyRecordAPIResponse.pageid e' ≠ page_relation_id p) es2 →
  is_complete (foldl (λ p e, mark_page e p) p (es1 ++ e :: es2)) =
  py_bool (StudyRecordAPIResponse.complete e).
Proof.
  intros He Hes2. rewrite foldl_app; simpl.
  destruct (mark_all_only_flag es1 p) as [b ->].
  rewrite mark_all_unmatched.
  - unfold mark_page; simpl. by rewrite He, Z.eqb_refl.
  - by rewrite mark_page_relation_id.
Qed.

Lemma parse_study_record_info_found (tb : Z) (info : StudyRecordAPIResponse.t)
    (course : ModelCourse) (lg : list LogLine)
    (t : ModelTextbook) (c : CoursewareChapter) (s : CoursewareSection) :
  textbooks course !! tb = Some t →
  chapters t !! StudyRecordAPIResponse.node_id info = Some c →
  sections c !! StudyRecordAPIResponse.item_id info = Some s →
  parse_study_record_info tb info (course, lg) =
  (inr true,
   (foldl (λ c e, with_pages tb (StudyRecordAPIResponse.node_id info)
                    (StudyRecordAPIResponse.item_id info) (mark_pages e) c)
      course (StudyRecordAPIResponse.pageStudyRecordDTOList info),
    (lg ++ [{| level := DEBUG; text := "[MANAGER][DATA] parse study record"; args := [] |}])
       ++ [{| level := DEBUG; text := "[MANAGER][DATA] study record parsed"; args := [] |}])).
Proof.
  intros Ht Hc Hs. unfold parse_study_record_info.
  rewrite eff_bind_run; simpl. unfold try_except.
  rewrite eff_bind_run; simpl. unfold getitem. rewrite Ht.
  rewrite eff_bind_run; simpl. rewrite Hc.
  rewrite eff_bind_run; simpl. rewrite Hs.
  rewrite eff_bind_run; simpl.
  rewrite eff_bind_run, for_each_modify. done.
Qed.

Lemma parse_study_record_info_missing (tb : Z) (info : StudyRecordAPIResponse.t)
    (course : ModelCourse) (lg : list LogLine) :
  (t ← textbooks course !! tb;
   c ← chapters t !! StudyRecordAPIResponse.node_id info;
   sections c !! StudyRecordAPIResponse.item_id info) = None →
  parse_study_record_info tb info (course, lg) =
  (inr false,
   (course,
    (lg ++ [{| level := DEBUG; text := "[MANAGER][DATA] parse study record"; args := [] |}])
       ++ [{| level := ERROR; text := "[MANAGER][DATA] error while parsing study record";
              args := [] |}])).
Proof.
  intros Hnone. unfold parse_study_record_info.
  rewrite eff_bind_run; simpl. unfold try_except.
  rewrite eff_bind_run; simpl. unfold getitem.
  destruct (textbooks course !! tb) as [t|]; simpl in *; [|done].
  rewrite eff_bind_run; simpl.
  destruct (chapters t !! _) as [c|]; simpl in *; [|done].
  rewrite eff_bind_run; simpl.
  by destruct (sections c !! _) as [s|]; simpl in *.
Qed.

Example parse_study_record_info_sample :
  let info := sample_study_record 100 1000 [sample_record_entry 502 1; sample_record_entry 2 0] in
  ∃ course' lg,
    parse_study_record_info 10 info (sample_course, []) = (inr true, (course', lg)) ∧
    course_page course' 10 100 1000 2 = Some (set_is_complete true sample_document_page) ∧
    course_page course' 10 100 1000 1 = Some sample_video_page ∧
    course_page course' 10 100 1001 3 = Some sample_question_page.
Proof. eexists _, _. split; [reflexivity|]. repeat split; vm_compute; reflexivity. Qed.

(** The claim C1 as it is written fails when the relation id of a page occurs
    twice in the record: page 1 of section 1000 has relation id 501, the
    record lists 501 with flag 1 and then with flag 0, and the page ends up
    not complete. *)
Lemma parse_study_record_info_duplicate_entry :
  let info := sample_study_record 100 1000 [sample_record_entry 501 1; sample_record_entry 501 0] in
  (∃ e, e ∈ StudyRecordAPIResponse.pageStudyRecordDTOList info ∧
        StudyRecordAPIResponse.pageid e = page_relation_id sample_video_page ∧
        StudyRecordAPIResponse.complete e = 1) ∧
  course_page sample_course 10 100 1000 1 = Some sample_video_page ∧
  ∃ course' lg,
    parse_study_record_info 10 info (sample_course, []) = (inr true, (course', lg)) ∧
    is_complete <$> course_page course' 10 100 1000 1 = Some false.
Proof.
  split; [|split].
  - exists (sample_record_entry 501 1). split; [apply list_elem_of_here|done].
  - reflexivity.
  - eexists _, _. split; [reflexivity|]. vm_compute. reflexivity.
Qed.

(** C1 (amended).  When the record's chapter and section are in the tree,
    [parse_study_record_info] returns [True] and changes nothing but
    [is_complete] flags of pages of that section.  A page of the section is
    matched by its [page_relation_id] alone: it takes the flag ([bool] of
    [complete], so [True] for 1) of the last entry of the record whose
    [pageid] is its relation id, and it is unchanged when no entry carries
    its relation id, whatever its [page_id].  Pages elsewhere in the tree
    are unchanged and no page is added. *)
Theorem parse_study_record_info_sets_is_complete
    (tb : Z) (info : StudyRecordAPIResponse.t) (course : ModelCourse) (lg : list LogLine)
    (t : ModelTextbook) (c : CoursewareChapter) (s : CoursewareSection) :
  textbooks course !! tb = Some t →
  chapters t !! StudyRecordAPIResponse.node_id info = Some c →
  sections c !! StudyRecordAPIResponse.item_id info = Some s →
  ∃ course' lg',
    parse_study_record_info tb info (course, lg) = (inr true, (course', lg')) ∧
    (∀ pid p, pages s !! pid = Some p →
       ∃ p',
         course_page course' tb (StudyRecordAPIResponse.node_id info)
           (StudyRecordAPIResponse.item_id info) pid = Some p' ∧
         p' = set_is_complete (is_complete p') p ∧
         (∀ es1 e es2,
            StudyRecordAPIResponse.pageStudyRecordDTOList info = es1 ++ e :: es2 →
            StudyRecordAPIResponse.pageid e = page_relation_id p →
            Forall (λ e', StudyRecordAPIResponse.pageid e' ≠ page_relation_id p) es2 →
            is_complete p' = py_bool (StudyRecordAPIResponse.complete e)) ∧
         (Forall (λ e, StudyRecordAPIResponse.pageid e ≠ page_relation_id p)
            (StudyRecordAPIResponse.pageStudyRecordDTOList info) → p' = p)) ∧
    (∀ tb' ch' sec' pid,
       ¬ (tb' = tb ∧ ch' = StudyRecordAPIResponse.node_id info
          ∧ sec' = StudyRecordAPIResponse.item_id info) →
       course_page course' tb' ch' sec' pid = course_page course tb' ch' sec' pid) ∧
    (∀ tb' ch' sec' pid,
       course_page course tb' ch' sec' pid = None →
       course_page course' tb' ch' sec' pid = None).
Proof.
  intros Ht Hc Hs. eexists _, _.
  split; [by apply (parse_study_record_info_found _ _ _ _ t c s)|].
  split; [|split].
  - intros pid p Hp.
    assert (Hat : course_page course tb (StudyRecordAPIResponse.node_id info)
                    (StudyRecordAPIResponse.item_id info) pid = Some p).
    { unfold course_page, textbook_page, chapter_page. rewrite Ht; simpl.
      rewrite Hc; simpl. by rewrite Hs. }
    eexists. split.
    { rewrite course_page_mark_all, Hat, decide_True by done. reflexivity. }
    split; [|split].
    + destruct (mark_all_only_flag
        (StudyRecordAPIResponse.pageStudyRecordDTOList info) p) as [b ->]. done.
    + intros es1 e es2 -> He Hes2. by apply mark_all_last.
    + apply mark_all_unmatched.
  - intros tb' ch' sec' pid Hloc.
    rewrite course_page_mark_all, decide_False by done.
    by destruct (course_page course tb' ch' sec' pid).
  - intros tb' ch' sec' pid Hnone. by rewrite course_page_mark_all, Hnone.
Qed.

Lemma parse_study_record_info_sets_is_complete_witness :
  let info := sample_study_record 100 1000 [sample_record_entry 502 1] in
  textbooks sample_course !! 10 = Some sample_textbook ∧
  chapters sample_textbook !! StudyRecordAPIResponse.node_id info = Some sample_chapter ∧
  sections sample_chapter !! StudyRecordAPIResponse.item_id info = Some sample_section_1000 ∧
  ∃ course' lg', parse_study_record_info 10 info (sample_course, []) = (inr true, (course', lg')).
Proof.
  intros info. split; [reflexivity|]. split; [reflexivity|]. split; [reflexivity|].
  destruct (parse_study_record_info_sets_is_complete 10 info sample_course []
              sample_textbook sample_chapter sample_section_1000)
    as (course' & lg' & Hrun & _); [reflexivity..|].
  by exists course', lg'.
Defined.

(** ** Chapter details *)

Lemma for_each_preserves {σ A} (I : σ → Prop) (body : A → Eff σ ()) (xs : list A) :
  (∀ x w, I (w.1) → I ((body x w).2.1)) →
  ∀ w, I (w.1) → I ((for_each xs body w).2.1).
Proof.
  intros Hbody. induction xs as [|x xs IH]; intros w Hw; simpl; [done|].
  rewrite eff_bind_run. specialize (Hbody x w Hw).
  destruct (body x w) as [[e|[]] w']; simpl in *; [done|]. by apply IH.
Qed.

Lemma float_int_raises (x : float) (e : Exn) :
  float_int x = inl e → e = OverflowError ∨ e = ValueError.
Proof. destruct x; simpl; intros [= <-]; auto. Qed.

Lemma questions_from_raises (question_infos : list ChapterInfoAPIResponse.QuestionDTO)
    (e : Exn) :
  questions_from question_infos = inl e →
  (e = OverflowError ∨ e = ValueError) ∧
  ∃ question_info, question_info ∈ question_infos ∧
                   float_int (ChapterInfoAPIResponse.score question_info) = inl e.
Proof.
  induction question_infos as [|q qs IH]; simpl; [done|].
  destruct (float_int (ChapterInfoAPIResponse.score q)) as [e'|n] eqn:Hq.
  - intros [= ->]. split; [by eapply float_int_raises|]. exists q. split; [left|done].
  - destruct (questions_from qs) as [e'|l]; [|done].
    intros [= ->]. destruct (IH eq_refl) as (He & q' & Hin & Hq').
    split; [done|]. exists q'. split; [by right|done].
Qed.

Lemma questions_from_finite (question_infos : list ChapterInfoAPIResponse.QuestionDTO) :
  Forall (λ question_info, ∃ x, ChapterInfoAPIResponse.score question_info = Finite x)
    question_infos →
  ∃ questions, questions_from question_infos = inr questions.
Proof.
  induction 1 as [|q qs [x Hx] _ [l IH]]; simpl; [by eexists|].
  rewrite Hx, IH. simpl. by eexists.
Qed.

Lemma classified_kind (ct : Z) (e : ChapterInfoAPIResponse.BasePageDTO) (k : ElementKind) :
  classification_table ct (ChapterInfoAPIResponse.type e) = Some k →
  match element_of e with
  | inr element =>
      classified ct e = Some element ∧ failure ct e = None ∧ element_kind element = k
  | inl x =>
      classified ct e = None ∧ failure ct e = Some x ∧ k = QuestionList ∧
      (x = OverflowError ∨ x = ValueError)
  end.
Proof.
  unfold classified, failure. intros Hk. rewrite Hk.
  unfold classification_table in Hk.
  destruct e as [c|v l|c qs|c]; simpl in *.
  - split_and!; [done..|].
    repeat (rewrite ?andb_false_r, ?andb_true_r in Hk; simpl in Hk; try case_match);
      congruence.
  - split_and!; [done..|].
    repeat (rewrite ?andb_false_r, ?andb_true_r in Hk; simpl in Hk; try case_match);
      congruence.
  - assert (k = QuestionList) as ->.
    { repeat (rewrite ?andb_false_r, ?andb_true_r in Hk; simpl in Hk; try case_match);
        congruence. }
    destruct (questions_from qs) as [x|questions] eqn:Hqs; [|done].
    split_and!; [done..|]. by destruct (questions_from_raises qs x Hqs).
  - split_and!; [done..|].
    repeat (rewrite ?andb_false_r, ?andb_true_r in Hk; simpl in Hk; try case_match);
      congruence.
Qed.

Lemma failure_question_scores (ct : Z) (e : ChapterInfoAPIResponse.BasePageDTO) (x : Exn) :
  failure ct e = Some x →
  ct = 7 ∧
  ∃ c question_infos question_info,
    e = ChapterInfoAPIResponse.QuestionPageDTO c question_infos ∧
    question_info ∈ question_infos ∧
    float_int (ChapterInfoAPIResponse.score question_info) = inl x.
Proof.
  unfold failure, classification_table.
  destruct e as [c|v l|c qs|c]; simpl;
    try (by repeat case_match).
  destruct (Z.eqb_spec ct 7) as [->|Hct]; cycle 1.
  { rewrite !andb_false_r; simpl. by repeat case_match. }
  simpl. destruct (questions_from qs) as [x'|questions] eqn:Hqs; [|done].
  intros [= ->]. split; [done|].
  destruct (questions_from_raises qs x Hqs) as (_ & q & Hin & Hq).
  by exists c, qs, q.
Qed.

Lemma questions_loop_run {σ} (question_infos : list ChapterInfoAPIResponse.QuestionDTO)
    (acc : list Question) (w : σ * list LogLine) :
  fold_each question_infos acc
    (λ questions question_info,
       question ← ElementQuestion_Question_of question_info;
       mret (questions ++ [question])) w =
  match questions_from question_infos with
  | inr questions => (inr (acc ++ questions), w)
  | inl e => (inl e, w)
  end.
Proof.
  revert acc. induction question_infos as [|q qs IH]; intros acc.
  - simpl. by rewrite app_nil_r.
  - cbn [fold_each questions_from]. rewrite eff_bind_run.
    unfold ElementQuestion_Question_of at 1. rewrite !eff_bind_run.
    destruct (ChapterInfoAPIResponse.score q) as [x|sign|]; simpl; [|done..].
    rewrite IH. destruct (questions_from qs) as [e|questions]; [done|].
    by rewrite <- app_assoc.
Qed.

Lemma remote_type_codes (e : ChapterInfoAPIResponse.BasePageDTO) :
  ChapterInfoAPIResponse.type e ∈ [4; 6; 10; 12].
Proof. destruct e; simpl; set_solver. Qed.

Lemma parse_element_run (tb ch sec pid ct : Z)
    (e : ChapterInfoAPIResponse.BasePageDTO) (course : ModelCourse) (lg : list LogLine) :
  parse_element tb ch sec pid ct e (course, lg) =
  match failure ct e with
  | Some x => (inl x, (course, lg))
  | None =>
      (inr (),
       match classified ct e with
       | Some el =>
           (with_pages tb ch sec (alter (λ p, set_elements (elements p ++ [el]) p) pid)
              course, lg)
       | None => (course, lg ++ dropped_lines ct [e])
       end)
  end.
Proof.
  unfold parse_element, failure, classified, classification_table, dropped_lines,
    classification_table; simpl.
  destruct (Z.eqb_spec ct 5) as [->|H5]; simpl.
  { destruct e; simpl; try reflexivity;
      rewrite eff_bind_run; simpl; unfold logger; simpl; by rewrite <- app_assoc. }
  destruct (Z.eqb_spec ct 6) as [->|H6]; simpl.
  { destruct e; simpl; by rewrite ?app_nil_r. }
  destruct (Z.eqb_spec ct 7) as [->|H7]; simpl.
  { destruct e as [c|v l|c qs|c]; simpl; rewrite ?app_nil_r; try done.
    rewrite eff_bind_run, questions_loop_run.
    by destruct (questions_from qs). }
  by rewrite app_nil_r.
Qed.

Lemma course_page_alter_page (tb ch sec pid : Z) (g : CoursewarePage → CoursewarePage)
    (course : ModelCourse) (tb' ch' sec' pid' : Z) :
  course_page (with_pages tb ch sec (alter g pid) course) tb' ch' sec' pid' =
  (if decide (tb' = tb ∧ ch' = ch ∧ sec' = sec ∧ pid' = pid) then g else λ p, p)
    <$> course_page course tb' ch' sec' pid'.
Proof.
  rewrite course_page_with_pages. case_decide as Hloc.
  - destruct Hloc as (-> & -> & ->). unfold course_page, textbook_page, chapter_page.
    destruct (textbooks course !! tb) as [t|]; simpl; [|done].
    destruct (chapters t !! ch) as [c|]; simpl; [|done].
    destruct (sections c !! sec) as [s|]; simpl; [|done].
    rewrite lookup_alter. destruct (decide (pid = pid')) as [<-|Hpid].
    + by rewrite decide_True.
    + rewrite decide_False by (intros (?&?&?&?); congruence).
      by destruct (pages s !! pid').
  - rewrite decide_False by (intros (?&?&?&?); auto).
    by destruct (course_page course tb' ch' sec' pid').
Qed.

Lemma dropped_lines_cons (ct : Z) (e : ChapterInfoAPIResponse.BasePageDTO)
    (es : list ChapterInfoAPIResponse.BasePageDTO) :
  dropped_lines ct (e :: es) = dropped_lines ct [e] ++ dropped_lines ct es.
Proof. unfold dropped_lines; simpl. by rewrite app_nil_r. Qed.

Lemma set_elements_same (p : CoursewarePage) : set_elements (elements p ++ []) p = p.
Proof. destruct p. unfold set_elements; simpl. by rewrite app_nil_r. Qed.

Lemma for_each_parse_element (tb ch sec pid ct : Z)
    (es : list ChapterInfoAPIResponse.BasePageDTO) (course : ModelCourse)
    (lg : list LogLine) :
  Forall (λ e, failure ct e = None) es →
  ∃ course',
    for_each es (parse_element tb ch sec pid ct) (course, lg) =
      (inr (), (course', lg ++ dropped_lines ct es)) ∧
    ∀ tb' ch' sec' pid',
      course_page course' tb' ch' sec' pid' =
      (if decide (tb' = tb ∧ ch' = ch ∧ sec' = sec ∧ pid' = pid)
       then λ p, set_elements (elements p ++ omap (classified ct) es) p
       else λ p, p) <$> course_page course tb' ch' sec' pid'.
Proof.
  intros Hes. revert course lg.
  induction Hes as [|e es He _ IH]; intros course lg.
  - exists course. split; [by rewrite app_nil_r|].
    intros tb' ch' sec' pid'. case_decide;
      destruct (course_page course tb' ch' sec' pid') as [p|]; simpl;
      by rewrite ?set_elements_same.
  - simpl for_each.
    rewrite (dropped_lines_cons ct e es), eff_bind_run, parse_element_run, He.
    destruct (classified ct e) as [el|] eqn:Hcl; cbv beta iota.
    + destruct (IH (with_pages tb ch sec
                      (alter (λ p, set_elements (elements p ++ [el]) p) pid) course) lg)
        as (course' & Hrun & Hpages).
      exists course'. split.
      { rewrite Hrun. assert (dropped_lines ct [e] = []) as ->; [|done].
        unfold dropped_lines, classified in *; simpl.
        by destruct (classification_table ct _). }
      intros tb' ch' sec' pid'. rewrite Hpages, course_page_alter_page.
      simpl. rewrite Hcl.
      case_decide; destruct (course_page course tb' ch' sec' pid') as [p|]; simpl;
        [|done..]. unfold set_elements; simpl. by rewrite <- app_assoc.
    + destruct (IH course (lg ++ dropped_lines ct [e])) as (course' & Hrun & Hpages).
      exists course'. split; [by rewrite Hrun, app_assoc|].
      intros tb' ch' sec' pid'. rewrite Hpages. simpl. by rewrite Hcl.
Qed.

Lemma dropped_lines_app (ct : Z) (es1 es2 : list ChapterInfoAPIResponse.BasePageDTO) :
  dropped_lines ct (es1 ++ es2) = dropped_lines ct es1 ++ dropped_lines ct es2.
Proof. unfold dropped_lines. by rewrite flat_map_app. Qed.

Lemma for_each_parse_element_raises (tb ch sec pid ct : Z)
    (es1 es2 : list ChapterInfoAPIResponse.BasePageDTO)
    (e : ChapterInfoAPIResponse.BasePageDTO) (x : Exn) (course : ModelCourse)
    (lg : list LogLine) :
  Forall (λ e, failure ct e = None) es1 →
  failure ct e = Some x →
  ∃ course',
    for_each (es1 ++ e :: es2) (parse_element tb ch sec pid ct) (course, lg) =
      (inl x, (course', lg ++ dropped_lines ct es1)) ∧
    ∀ tb' ch' sec' pid',
      course_page course' tb' ch' sec' pid' =
      (if decide (tb' = tb ∧ ch' = ch ∧ sec' = sec ∧ pid' = pid)
       then λ p, set_elements (elements p ++ omap (classified ct) es1) p
       else λ p, p) <$> course_page course tb' ch' sec' pid'.
Proof.
  intros Hes1 He.
  destruct (for_each_parse_element tb ch sec pid ct es1 course lg Hes1)
    as (course' & Hrun & Hpages).
  exists course'. split; [|exact Hpages].
  rewrite for_each_app, Hrun. cbn [for_each].
  by rewrite eff_bind_run, parse_element_run, He.
Qed.

Lemma parse_page_run (tb ch sec : Z) (page_info : ChapterInfoAPIResponse.WholePageDTO)
    (w : ModelCourse * list LogLine) :
  parse_page tb ch sec page_info w =
  match course_page w.1 tb ch sec (ChapterInfoAPIResponse.id page_info) with
  | None => (inl (KeyError (ChapterInfoAPIResponse.id page_info)), w)
  | Some _ =>
      for_each (ChapterInfoAPIResponse.coursepageDTOList page_info)
        (parse_element tb ch sec (ChapterInfoAPIResponse.id page_info)
           (ChapterInfoAPIResponse.contentType page_info)) w
  end.
Proof.
  unfold parse_page. rewrite eff_bind_run; simpl.
  by destruct (course_page w.1 tb ch sec _).
Qed.

Example parse_chapter_info_sample :
  ∃ course' lg,
    parse_chapter_info 10 sample_chapter_info (sample_course, []) = (inr true, (course', lg)) ∧
    elements <$> course_page course' 10 100 1000 1 =
      Some [ElementVideo 71 600; ElementVideo 72 300] ∧
    elements <$> course_page course' 10 100 1000 2 =
      Some [ElementDocumen "d1"; ElementContent "c1"; ElementDocumen "d2"] ∧
    filter (λ l, level l = WARNING) lg =
      [{| level := WARNING; text := "unknown element type"; args := [4] |}].
Proof.
  eexists _, _. split; [reflexivity|]. repeat split; vm_compute; reflexivity.
Qed.

(** The claim C7 as it is written fails for the log: on a video page
    ([contentType] 6) a text element (remote type 12) is a mismatched pair;
    it is dropped, and nothing at all is logged. *)
Lemma parse_page_drops_silently :
  classification_table 6
    (ChapterInfoAPIResponse.type (ChapterInfoAPIResponse.ContentPageDTO "stray text")) = None ∧
  parse_page 10 100 1000
    (sample_whole_page 1 6 [ChapterInfoAPIResponse.ContentPageDTO "stray text"])
    (sample_course, []) = (inr (), (sample_course, [])).
Proof. split; vm_compute; reflexivity. Qed.

(** C7 (amended).  For a page of the chapter detail that the tree has,
    the merge appends to the page's element list exactly the elements that
    the table classifies, in order, each as the variant the table names:
    content type 5 with remote type 10 gives a document, 5 with 12 a text
    element, 6 with 4 a video, 7 with 6 a question list.  Every other pair
    is dropped, not stored, and dropping is not a fatal error.  A warning is
    logged for a dropped element only on pages of content type 5; on other
    pages it is dropped without a log line.  The element union of the
    response admits the remote type codes 4, 6, 10 and 12 only, so on a page
    of content type 5 the dropped elements are videos and question lists.

    The one fatal error on such a page is a question list (pair 7 and 6)
    with a score that [int] does not convert, an infinity or NaN: the merge
    of the page then stops with [OverflowError] or [ValueError] at that
    element, keeping what it stored for the elements before it. *)
Theorem parse_page_classifies
    (tb ch sec : Z) (page_info : ChapterInfoAPIResponse.WholePageDTO)
    (course : ModelCourse) (lg : list LogLine) (p : CoursewarePage) :
  course_page course tb ch sec (ChapterInfoAPIResponse.id page_info) = Some p →
  (Forall (λ e, failure (ChapterInfoAPIResponse.contentType page_info) e = None)
     (ChapterInfoAPIResponse.coursepageDTOList page_info) →
   ∃ course',
     parse_page tb ch sec page_info (course, lg) =
       (inr (),
        (course',
         lg ++ dropped_lines (ChapterInfoAPIResponse.contentType page_info)
                 (ChapterInfoAPIResponse.coursepageDTOList page_info))) ∧
     course_page course' tb ch sec (ChapterInfoAPIResponse.id page_info) =
       Some (set_elements
               (elements p ++
                omap (classified (ChapterInfoAPIResponse.contentType page_info))
                  (ChapterInfoAPIResponse.coursepageDTOList page_info)) p) ∧
     (∀ tb' ch' sec' pid',
        ¬ (tb' = tb ∧ ch' = ch ∧ sec' = sec ∧ pid' = ChapterInfoAPIResponse.id page_info) →
        course_page course' tb' ch' sec' pid' = course_page course tb' ch' sec' pid')) ∧
  (∀ es1 e es2 x,
     ChapterInfoAPIResponse.coursepageDTOList page_info = es1 ++ e :: es2 →
     Forall (λ e, failure (ChapterInfoAPIResponse.contentType page_info) e = None) es1 →
     failure (ChapterInfoAPIResponse.contentType page_info) e = Some x →
     ∃ course',
       parse_page tb ch sec page_info (course, lg) =
         (inl x,
          (course',
           lg ++ dropped_lines (ChapterInfoAPIResponse.contentType page_info) es1)) ∧
       course_page course' tb ch sec (ChapterInfoAPIResponse.id page_info) =
         Some (set_elements
                 (elements p ++
                  omap (classified (ChapterInfoAPIResponse.contentType page_info)) es1) p) ∧
       (∀ tb' ch' sec' pid',
          ¬ (tb' = tb ∧ ch' = ch ∧ sec' = sec
             ∧ pid' = ChapterInfoAPIResponse.id page_info) →
          course_page course' tb' ch' sec' pid' = course_page course tb' ch' sec' pid')) ∧
  (∀ ct e k,
     classification_table ct (ChapterInfoAPIResponse.type e) = Some k →
     match element_of e with
     | inr element =>
         classified ct e = Some element ∧ failure ct e = None ∧ element_kind element = k
     | inl x =>
         classified ct e = None ∧ failure ct e = Some x ∧ k = QuestionList ∧
         (x = OverflowError ∨ x = ValueError)
     end) ∧
  (∀ ct e,
     classification_table ct (ChapterInfoAPIResponse.type e) = None →
     classified ct e = None ∧ failure ct e = None ∧
     dropped_lines ct [e] = if ct =? 5 then unknown_element_lines e else []) ∧
  (∀ ct e x,
     failure ct e = Some x →
     ct = 7 ∧
     ∃ c question_infos question_info,
       e = ChapterInfoAPIResponse.QuestionPageDTO c question_infos ∧
       question_info ∈ question_infos ∧
       float_int (ChapterInfoAPIResponse.score question_info) = inl x) ∧
  (∀ c question_infos,
     Forall (λ question_info, ∃ x, ChapterInfoAPIResponse.score question_info = Finite x)
       question_infos →
     ∀ ct, failure ct (ChapterInfoAPIResponse.QuestionPageDTO c question_infos) = None) ∧
  (∀ e, ChapterInfoAPIResponse.type e ∈ [4; 6; 10; 12]).
Proof.
  intros Hp. split; [|split; [|split; [|split; [|split; [|split]]]]].
  - intros Hes.
    destruct (for_each_parse_element tb ch sec (ChapterInfoAPIResponse.id page_info)
                (ChapterInfoAPIResponse.contentType page_info)
                (ChapterInfoAPIResponse.coursepageDTOList page_info) course lg Hes)
      as (course' & Hrun & Hpages).
    exists course'. split; [|split].
    + rewrite parse_page_run; simpl. by rewrite Hp.
    + by rewrite Hpages, Hp, decide_True.
    + intros tb' ch' sec' pid' Hne. rewrite Hpages, decide_False by done.
      by destruct (course_page course tb' ch' sec' pid').
  - intros es1 e es2 x Hes Hes1 He.
    destruct (for_each_parse_element_raises tb ch sec (ChapterInfoAPIResponse.id page_info)
                (ChapterInfoAPIResponse.contentType page_info) es1 es2 e x course lg
                Hes1 He) as (course' & Hrun & Hpages).
    exists course'. split; [|split].
    + rewrite parse_page_run; simpl. by rewrite Hp, Hes.
    + by rewrite Hpages, Hp, decide_True.
    + intros tb' ch' sec' pid' Hne. rewrite Hpages, decide_False by done.
      by destruct (course_page course tb' ch' sec' pid').
  - apply classified_kind.
  - intros ct e Hnone. unfold dropped_lines, classified, failure; simpl.
    rewrite Hnone. by rewrite app_nil_r.
  - apply failure_question_scores.
  - intros c question_infos Hfinite ct. unfold failure; simpl.
    destruct (classification_table ct 6); [|done].
    by destruct (questions_from_finite question_infos Hfinite) as [questions ->].
  - apply remote_type_codes.
Qed.

Lemma parse_page_classifies_witness :
  course_page sample_course 10 100 1000 2 = Some sample_document_page ∧
  ∃ course',
    parse_page 10 100 1000
      (sample_whole_page 2 5
         [ChapterInfoAPIResponse.VideoPageDTO 73 10; ChapterInfoAPIResponse.DocumentPageDTO "d2"])
      (sample_course, []) =
      (inr (),
       (course',
        [ {| level := WARNING; text := "unknown element type"; args := [4] |};
          {| level := DEBUG; text := "element_info"; args := [] |} ])) ∧
    elements <$> course_page course' 10 100 1000 2 =
      Some [ElementDocumen "d1"; ElementContent "c1"; ElementDocumen "d2"].
Proof.
  split; [reflexivity|].
  destruct (parse_page_classifies 10 100 1000
              (sample_whole_page 2 5
                 [ChapterInfoAPIResponse.VideoPageDTO 73 10;
                  ChapterInfoAPIResponse.DocumentPageDTO "d2"])
              sample_course [] sample_document_page)
    as [Hok _]; [reflexivity|].
  destruct Hok as (course' & Hrun & Hpage & _); [by repeat constructor|].
  exists course'. split; [exact Hrun|].
  change (elements <$> course_page course' 10 100 1000
            (ChapterInfoAPIResponse.id
               (sample_whole_page 2 5
                  [ChapterInfoAPIResponse.VideoPageDTO 73 10;
                   ChapterInfoAPIResponse.DocumentPageDTO "d2"])) =
          Some [ElementDocumen "d1"; ElementContent "c1"; ElementDocumen "d2"]).
  rewrite Hpage. reflexivity.
Defined.

(** ** Identifiers that the tree does not have *)

Lemma try_except_returns {σ A} (body : Eff σ A) (handler : Exn → Eff σ A)
    (w : σ * list LogLine) :
  (∀ e w', ∃ a w'', handler e w' = (inr a, w'')) →
  ∃ a w', try_except body handler w = (inr a, w').
Proof.
  intros Hh. unfold try_except. destruct (body w) as [[e|a] w']; eauto.
Qed.

Lemma parse_study_record_info_returns (tb : Z) (info : StudyRecordAPIResponse.t)
    (w : ModelCourse * list LogLine) :
  ∃ b w', parse_study_record_info tb info w = (inr b, w').
Proof.
  unfold parse_study_record_info. rewrite eff_bind_run; simpl.
  apply try_except_returns. intros e w'. by eexists _, _.
Qed.

Lemma parse_chapter_info_returns (tb : Z) (info : ChapterInfoAPIResponse.t)
    (w : ModelCourse * list LogLine) :
  ∃ b w', parse_chapter_info tb info w = (inr b, w').
Proof.
  unfold parse_chapter_info. rewrite eff_bind_run; simpl.
  apply try_except_returns. intros e w'. by eexists _, _.
Qed.

Lemma parse_chapter_info_missing (tb : Z) (info : ChapterInfoAPIResponse.t)
    (course : ModelCourse) (lg : list LogLine) :
  (t ← textbooks course !! tb; chapters t !! ChapterInfoAPIResponse.chapterid info) = None →
  parse_chapter_info tb info (course, lg) =
  (inr false,
   (course,
    (lg ++ [{| level := DEBUG; text := "[MANAGER][DATA] parse chapter info"; args := [] |}])
       ++ [{| level := ERROR; text := "[MANAGER][DATA] error while parsing chapter info";
              args := [] |}])).
Proof.
  intros Hnone. unfold parse_chapter_info.
  rewrite eff_bind_run; simpl. unfold try_except.
  rewrite eff_bind_run; simpl. unfold getitem.
  destruct (textbooks course !! tb) as [t|]; simpl in *; [|done].
  rewrite eff_bind_run; simpl.
  by destruct (chapters t !! _) as [c|]; simpl in *.
Qed.

Lemma parse_chapter_info_found (tb : Z) (info : ChapterInfoAPIResponse.t)
    (course : ModelCourse) (lg : list LogLine) (t : ModelTextbook) (c : CoursewareChapter) :
  textbooks course !! tb = Some t →
  chapters t !! ChapterInfoAPIResponse.chapterid info = Some c →
  parse_chapter_info tb info (course, lg) =
  match for_each (ChapterInfoAPIResponse.wholepageItemDTOList info)
          (parse_section tb (ChapterInfoAPIResponse.chapterid info) (sections c))
          (course, lg ++ [{| level := DEBUG; text := "[MANAGER][DATA] parse chapter info";
                             args := [] |}]) with
  | (inr _, (course', lg')) =>
      (inr true,
       (course', lg' ++ [{| level := DEBUG; text := "[MANAGER][DATA] chapter info parsed";
                            args := [] |}]))
  | (inl _, (course', lg')) =>
      (inr false,
       (course', lg' ++ [{| level := ERROR;
                            text := "[MANAGER][DATA] error while parsing chapter info";
                            args := [] |}]))
  end.
Proof.
  intros Ht Hc. unfold parse_chapter_info.
  rewrite eff_bind_run; simpl. unfold try_except.
  rewrite eff_bind_run; simpl. unfold getitem. rewrite Ht.
  rewrite eff_bind_run; simpl. rewrite Hc.
  rewrite eff_bind_run; simpl.
  rewrite eff_bind_run.
  destruct (for_each _ _ _) as [[e|[]] [course' lg']]; reflexivity.
Qed.

Lemma for_each_skip {σ A} (body : A → Eff σ ()) (xs ys : list A) (x : A)
    (w : σ * list LogLine) :
  (∀ w', body x w' = (inr (), w')) →
  for_each (xs ++ x :: ys) body w = for_each (xs ++ ys) body w.
Proof.
  intros Hx. rewrite !for_each_app.
  destruct (for_each xs body w) as [[e|[]] w']; [done|].
  simpl. by rewrite eff_bind_run, Hx.
Qed.

(** The merge only rewrites pages that exist: a page that the tree lacks is
    still lacking afterwards. *)
Lemma parse_element_absent (tb ch sec pid ct : Z)
    (e : ChapterInfoAPIResponse.BasePageDTO) (tb0 ch0 sec0 pid0 : Z)
    (w : ModelCourse * list LogLine) :
  course_page w.1 tb0 ch0 sec0 pid0 = None →
  course_page (parse_element tb ch sec pid ct e w).2.1 tb0 ch0 sec0 pid0 = None.
Proof.
  destruct w as [course lg]; simpl. intros Hnone. rewrite parse_element_run.
  destruct (failure ct e); [done|].
  destruct (classified ct e); simpl; [|done].
  by rewrite course_page_alter_page, Hnone.
Qed.

Lemma parse_page_absent (tb ch sec : Z) (pg : ChapterInfoAPIResponse.WholePageDTO)
    (tb0 ch0 sec0 pid0 : Z) (w : ModelCourse * list LogLine) :
  course_page w.1 tb0 ch0 sec0 pid0 = None →
  course_page (parse_page tb ch sec pg w).2.1 tb0 ch0 sec0 pid0 = None.
Proof.
  intros Hnone. rewrite parse_page_run.
  destruct (course_page w.1 tb ch sec _); [|done].
  apply (for_each_preserves (λ c, course_page c tb0 ch0 sec0 pid0 = None)); [|done].
  intros e w'. apply parse_element_absent.
Qed.

Lemma parse_section_absent (tb ch : Z) (ss : gmap Z CoursewareSection)
    (item : ChapterInfoAPIResponse.ItemDTO)
    (tb0 ch0 sec0 pid0 : Z) (w : ModelCourse * list LogLine) :
  course_page w.1 tb0 ch0 sec0 pid0 = None →
  course_page (parse_section tb ch ss item w).2.1 tb0 ch0 sec0 pid0 = None.
Proof.
  intros Hnone. unfold parse_section. case_decide; [|done].
  apply (for_each_preserves (λ c, course_page c tb0 ch0 sec0 pid0 = None)); [|done].
  intros pg w'. apply parse_page_absent.
Qed.

Lemma for_each_raises {σ A} (body : A → Eff σ ()) (xs ys : list A) (x : A)
    (I : σ → Prop) (w : σ * list LogLine) :
  (∀ y w', I w'.1 → I (body y w').2.1) →
  (∀ w', I w'.1 → ∃ e w'', body x w' = (inl e, w'')) →
  I w.1 →
  ∃ e w', for_each (xs ++ x :: ys) body w = (inl e, w').
Proof.
  intros Hpres Hx Hw. rewrite for_each_app.
  pose proof (for_each_preserves I body xs Hpres w Hw) as Hxs.
  destruct (for_each xs body w) as [[e|[]] w']; simpl in *; [by eexists _, _|].
  rewrite eff_bind_run. destruct (Hx w' Hxs) as (e & w'' & ->). by eexists _, _.
Qed.

Lemma parse_chapter_info_missing_page (tb : Z) (info : ChapterInfoAPIResponse.t)
    (course : ModelCourse) (lg : list LogLine) (t : ModelTextbook) (c : CoursewareChapter)
    (items1 items2 : list ChapterInfoAPIResponse.ItemDTO)
    (item : ChapterInfoAPIResponse.ItemDTO)
    (pages1 pages2 : list ChapterInfoAPIResponse.WholePageDTO)
    (pg : ChapterInfoAPIResponse.WholePageDTO) :
  textbooks course !! tb = Some t →
  chapters t !! ChapterInfoAPIResponse.chapterid info = Some c →
  ChapterInfoAPIResponse.wholepageItemDTOList info = items1 ++ item :: items2 →
  is_Some (sections c !! ChapterInfoAPIResponse.itemid item) →
  ChapterInfoAPIResponse.wholepageDTOList item = pages1 ++ pg :: pages2 →
  course_page course tb (ChapterInfoAPIResponse.chapterid info)
    (ChapterInfoAPIResponse.itemid item) (ChapterInfoAPIResponse.id pg) = None →
  ∃ course' lg',
    parse_chapter_info tb info (course, lg) =
    (inr false,
     (course', lg' ++ [{| level := ERROR;
                          text := "[MANAGER][DATA] error while parsing chapter info";
                          args := [] |}])).
Proof.
  intros Ht Hc Hitems Hsec Hpages Hnone.
  rewrite (parse_chapter_info_found _ _ _ _ t c Ht Hc), Hitems.
  set (I := λ c' : ModelCourse,
    course_page c' tb (ChapterInfoAPIResponse.chapterid info)
      (ChapterInfoAPIResponse.itemid item) (ChapterInfoAPIResponse.id pg) = None).
  match goal with |- context [for_each _ ?body ?w] =>
    destruct (for_each_raises body items1 items2 item I w) as (e & [course' lg'] & ->)
  end.
  - intros item' w'. apply parse_section_absent.
  - intros w' Hw'. unfold parse_section. rewrite decide_True by done. rewrite Hpages.
    apply (for_each_raises _ pages1 pages2 pg I); [|intros w'' Hw''|done].
    + intros pg' w''. apply parse_page_absent.
    + rewrite parse_page_run. unfold I in Hw''. rewrite Hw''. by eexists _, _.
  - done.
  - by eexists _, _.
Qed.

Lemma parse_chapter_info_skips_section (tb : Z) (info1 info2 : ChapterInfoAPIResponse.t)
    (w : ModelCourse * list LogLine)
    (items1 items2 : list ChapterInfoAPIResponse.ItemDTO)
    (item : ChapterInfoAPIResponse.ItemDTO) :
  ChapterInfoAPIResponse.chapterid info1 = ChapterInfoAPIResponse.chapterid info2 →
  ChapterInfoAPIResponse.wholepageItemDTOList info1 = items1 ++ item :: items2 →
  ChapterInfoAPIResponse.wholepageItemDTOList info2 = items1 ++ items2 →
  (∀ t c, textbooks w.1 !! tb = Some t →
          chapters t !! ChapterInfoAPIResponse.chapterid info1 = Some c →
          sections c !! ChapterInfoAPIResponse.itemid item = None) →
  parse_chapter_info tb info1 w = parse_chapter_info tb info2 w.
Proof.
  destruct w as [course lg]; simpl. intros Hid H1 H2 Habsent.
  destruct (textbooks course !! tb) as [t|] eqn:Ht; cycle 1.
  { rewrite !parse_chapter_info_missing; [done|by rewrite Ht..]. }
  destruct (chapters t !! ChapterInfoAPIResponse.chapterid info1) as [c|] eqn:Hc; cycle 1.
  { rewrite !parse_chapter_info_missing; [done|rewrite Ht; simpl; congruence..]. }
  rewrite (parse_chapter_info_found tb info1 _ _ t c Ht Hc).
  rewrite (parse_chapter_info_found tb info2 _ _ t c Ht) by congruence.
  rewrite H1, H2, <- Hid. rewrite for_each_skip; [done|].
  intros w'. unfold parse_section. rewrite decide_False; [done|].
  rewrite (Habsent t c eq_refl Hc). by intros [? ?].
Qed.

Lemma with_pages_id (tb ch sec : Z)
    (f : gmap Z CoursewarePage → gmap Z CoursewarePage) (course : ModelCourse) :
  (∀ t c s, textbooks course !! tb = Some t → chapters t !! ch = Some c →
            sections c !! sec = Some s → f (pages s) = pages s) →
  with_pages tb ch sec f course = course.
Proof.
  intros Hf. unfold with_pages. destruct course as [? ? ? ? ts]; simpl in *.
  unfold set_textbooks; simpl. f_equal. apply alter_id. intros t Ht.
  destruct t as [? ? ? ? cs]; unfold set_chapters; simpl. f_equal.
  apply alter_id. intros c Hc.
  destruct c as [? ? ss]; unfold set_sections; simpl. f_equal.
  apply alter_id. intros s Hs. specialize (Hf _ _ _ Ht Hc Hs).
  destruct s as [? ? ps]; unfold set_pages; simpl in *. by f_equal.
Qed.

Lemma mark_all_relation_id (es : list StudyRecordAPIResponse.PageStudyRecordDTO)
    (p : CoursewarePage) :
  page_relation_id (foldl (λ p e, mark_page e p) p es) = page_relation_id p.
Proof. by destruct (mark_all_only_flag es p) as [b ->]. Qed.

Lemma parse_study_record_info_skips_entry (tb : Z)
    (info1 info2 : StudyRecordAPIResponse.t) (w : ModelCourse * list LogLine)
    (es1 es2 : list StudyRecordAPIResponse.PageStudyRecordDTO)
    (e : StudyRecordAPIResponse.PageStudyRecordDTO) :
  StudyRecordAPIResponse.node_id info1 = StudyRecordAPIResponse.node_id info2 →
  StudyRecordAPIResponse.item_id info1 = StudyRecordAPIResponse.item_id info2 →
  StudyRecordAPIResponse.pageStudyRecordDTOList info1 = es1 ++ e :: es2 →
  StudyRecordAPIResponse.pageStudyRecordDTOList info2 = es1 ++ es2 →
  (∀ pid p, course_page w.1 tb (StudyRecordAPIResponse.node_id info1)
              (StudyRecordAPIResponse.item_id info1) pid = Some p →
            page_relation_id p ≠ StudyRecordAPIResponse.pageid e) →
  parse_study_record_info tb info1 w = parse_study_record_info tb info2 w.
Proof.
  destruct w as [course lg]; simpl. intros Hnode Hitem H1 H2 Hunmatched.
  destruct (t ← textbooks course !! tb;
            c ← chapters t !! StudyRecordAPIResponse.node_id info1;
            sections c !! StudyRecordAPIResponse.item_id info1) as [s|] eqn:Hloc; cycle 1.
  { rewrite !parse_study_record_info_missing;
      [done|by rewrite <- ?Hnode, <- ?Hitem..]. }
  apply bind_Some in Hloc as (t & Ht & Hloc). apply bind_Some in Hloc as (c & Hc & Hs).
  rewrite (parse_study_record_info_found tb info1 _ _ t c s) by done.
  rewrite (parse_study_record_info_found tb info2 _ _ t c s) by congruence.
  rewrite H1, H2, <- Hnode, <- Hitem, !foldl_app. simpl.
  rewrite with_pages_id; [done|].
  intros t1 c1 s1 Ht1 Hc1 Hs1. apply map_eq; intros pid.
  rewrite mark_pages_lookup. destruct (pages s1 !! pid) as [p1|] eqn:Hp1; simpl; [|done].
  f_equal. unfold mark_page.
  assert (Hat : course_page
    (foldl (λ c e, with_pages tb (StudyRecordAPIResponse.node_id info1)
                     (StudyRecordAPIResponse.item_id info1) (mark_pages e) c) course es1)
    tb (StudyRecordAPIResponse.node_id info1) (StudyRecordAPIResponse.item_id info1) pid
    = Some p1).
  { unfold course_page, textbook_page, chapter_page. rewrite Ht1; simpl.
    rewrite Hc1; simpl. by rewrite Hs1. }
  rewrite course_page_mark_all, decide_True in Hat by done.
  destruct (course_page course tb _ _ pid) as [p|] eqn:Hp; simpl in Hat; [|done].
  injection Hat as <-. rewrite mark_all_relation_id.
  by rewrite (proj2 (Z.eqb_neq _ _)) by eauto.
Qed.

(** ** The study-record batch *)

Lemma course_section_with_pages (tb ch sec : Z)
    (f : gmap Z CoursewarePage → gmap Z CoursewarePage) (course : ModelCourse)
    (tb' ch' sec' : Z) :
  course_section course tb' ch' sec' = None →
  course_section (with_pages tb ch sec f course) tb' ch' sec' = None.
Proof.
  unfold course_section, with_pages; simpl. rewrite lookup_alter.
  destruct (decide (tb = tb')) as [<-|Htb]; [|done].
  destruct (textbooks course !! tb) as [t|]; simpl; [|done].
  rewrite lookup_alter. destruct (decide (ch = ch')) as [<-|Hch]; [|done].
  destruct (chapters t !! ch) as [c|]; simpl; [|done].
  rewrite lookup_alter. destruct (decide (sec = sec')) as [<-|Hsec]; [|done].
  by destruct (sections c !! sec).
Qed.

Lemma parse_study_record_info_shape (tb : Z) (info : StudyRecordAPIResponse.t)
    (course : ModelCourse) :
  ∃ b course' lines,
    (∀ lg, parse_study_record_info tb info (course, lg) = (inr b, (course', lg ++ lines))) ∧
    (∀ tb0 ch0 sec0, course_section course tb0 ch0 sec0 = None →
                     course_section course' tb0 ch0 sec0 = None).
Proof.
  destruct (course_section course tb (StudyRecordAPIResponse.node_id info)
              (StudyRecordAPIResponse.item_id info)) as [s|] eqn:Hloc.
  - unfold course_section in Hloc.
    apply bind_Some in Hloc as (t & Ht & Hloc). apply bind_Some in Hloc as (c & Hc & Hs).
    eexists true, _, _. split.
    + intros lg. rewrite (parse_study_record_info_found tb info _ _ t c s) by done.
      by rewrite <- app_assoc.
    + intros tb0 ch0 sec0.
      generalize (StudyRecordAPIResponse.pageStudyRecordDTOList info). intros es.
      clear Ht. revert course.
      induction es as [|e es IH]; intros course Hnone; simpl; [done|].
      apply IH. by apply course_section_with_pages.
  - eexists false, course, _. split; [|done].
    intros lg. rewrite parse_study_record_info_missing by done. by rewrite <- app_assoc.
Qed.

Lemma refresh_section_shape (tb : Z) (f : bool * option StudyRecordAPIResponse.t)
    (course : ModelCourse) :
  ∃ course' lines,
    (∀ lg, refresh_section tb f (course, lg) = (inr (), (course', lg ++ lines))) ∧
    (∀ tb0 ch0 sec0, course_section course tb0 ch0 sec0 = None →
                     course_section course' tb0 ch0 sec0 = None).
Proof.
  destruct f as [[|] [info|]]; simpl.
  - destruct (parse_study_record_info_shape tb info course)
      as (b & course' & lines & Hrun & Hkeys).
    exists course', lines. split; [|done].
    intros lg. by rewrite eff_bind_run, Hrun.
  - exists course, []. split; [|done]. intros lg. by rewrite app_nil_r.
  - by exists course, [{| level := WARNING;
                          text := "fetching the study record failed, skipped"; args := [] |}].
  - by exists course, [{| level := WARNING;
                          text := "fetching the study record failed, skipped"; args := [] |}].
Qed.

Lemma refresh_sections_shape (tb : Z) (fs : list (bool * option StudyRecordAPIResponse.t))
    (course : ModelCourse) :
  ∃ lines,
    (∀ lg, refresh_sections tb fs (course, lg) =
           (inr (), (foldl (λ c f, (refresh_section tb f (c, [])).2.1) course fs,
                     lg ++ lines))) ∧
    (∀ tb0 ch0 sec0, course_section course tb0 ch0 sec0 = None →
       course_section (foldl (λ c f, (refresh_section tb f (c, [])).2.1) course fs)
         tb0 ch0 sec0 = None).
Proof.
  unfold refresh_sections. revert course.
  induction fs as [|f fs IH]; intros course; simpl.
  - exists []. split; [|done]. intros lg. by rewrite app_nil_r.
  - destruct (refresh_section_shape tb f course) as (course1 & lines1 & Hrun1 & Hkeys1).
    rewrite (Hrun1 []); simpl.
    destruct (IH course1) as (lines & Hrun & Hkeys).
    exists (lines1 ++ lines). split.
    + intros lg. by rewrite eff_bind_run, Hrun1, Hrun, app_assoc.
    + intros tb0 ch0 sec0 Hnone. by apply Hkeys, Hkeys1.
Qed.

Lemma refresh_sections_skips_missing (tb : Z)
    (fs1 fs2 : list (bool * option StudyRecordAPIResponse.t))
    (bad : StudyRecordAPIResponse.t) (course : ModelCourse) (lg : list LogLine) :
  course_section course tb (StudyRecordAPIResponse.node_id bad)
    (StudyRecordAPIResponse.item_id bad) = None →
  ∃ lg1 lg2 course',
    refresh_sections tb (fs1 ++ (true, Some bad) :: fs2) (course, lg) = (inr (), (course', lg1)) ∧
    refresh_sections tb (fs1 ++ fs2) (course, lg) = (inr (), (course', lg2)).
Proof.
  intros Hbad.
  destruct (refresh_sections_shape tb (fs1 ++ (true, Some bad) :: fs2) course)
    as (lines1 & Hrun1 & _).
  destruct (refresh_sections_shape tb (fs1 ++ fs2) course) as (lines2 & Hrun2 & _).
  eexists _, _, _. split; [apply Hrun1|]. rewrite Hrun2. do 2 f_equal.
  rewrite !foldl_app. simpl. f_equal.
  destruct (refresh_sections_shape tb fs1 course) as (_ & _ & Hkeys).
  specialize (Hkeys _ _ _ Hbad).
  rewrite eff_bind_run, parse_study_record_info_missing by done. done.
Qed.

(** The claim C8 as it is written fails for a page: a study-record entry
    whose [pageid] is the relation id of no page of the section is passed
    over, but nothing reports it and the operation returns [True]. *)
Lemma parse_study_record_info_unmatched_entry :
  map_Forall (λ _ p, page_relation_id p ≠ 999) (pages sample_section_1000) ∧
  ∃ lg,
    parse_study_record_info 10
      (sample_study_record 100 1000 [sample_record_entry 999 1]) (sample_course, []) =
      (inr true, (sample_course, lg)) ∧
    Forall (λ l, level l = DEBUG) lg.
Proof.
  split.
  - apply (bool_decide_unpack _). vm_compute. exact I.
  - eexists. split; [vm_compute; reflexivity|].
    repeat constructor.
Qed.

(** C8 (amended).  Neither [parse_study_record_info] nor
    [parse_chapter_info] raises: each returns a [bool].  A study record whose
    textbook, chapter or section is not in the tree, and a chapter detail
    whose textbook or chapter is not in the tree, log an error, leave the
    tree as it is and return [False]; a chapter detail that names a page
    missing from a section that the tree has also logs an error and returns
    [False].  A section of a chapter detail that the tree does not have and
    a study-record entry that matches no page of the section are passed
    over without a failure value: the outcome is that of the same response
    without the entry.  In the study-record batch, a record for a missing
    chapter or section leaves the tree as the batch without it would: the
    records after it are still applied. *)
Theorem missing_identifiers_are_not_fatal :
  (∀ tb info w, ∃ b w', parse_study_record_info tb info w = (inr b, w')) ∧
  (∀ tb info w, ∃ b w', parse_chapter_info tb info w = (inr b, w')) ∧
  (∀ tb info course lg,
     course_section course tb (StudyRecordAPIResponse.node_id info)
       (StudyRecordAPIResponse.item_id info) = None →
     parse_study_record_info tb info (course, lg) =
     (inr false,
      (course,
       (lg ++ [{| level := DEBUG; text := "[MANAGER][DATA] parse study record";
                  args := [] |}])
          ++ [{| level := ERROR; text := "[MANAGER][DATA] error while parsing study record";
                 args := [] |}]))) ∧
  (∀ tb info course lg,
     (t ← textbooks course !! tb;
      chapters t !! ChapterInfoAPIResponse.chapterid info) = None →
     parse_chapter_info tb info (course, lg) =
     (inr false,
      (course,
       (lg ++ [{| level := DEBUG; text := "[MANAGER][DATA] parse chapter info";
                  args := [] |}])
          ++ [{| level := ERROR; text := "[MANAGER][DATA] error while parsing chapter info";
                 args := [] |}]))) ∧
  (∀ tb info course lg t c items1 item items2 pages1 pg pages2,
     textbooks course !! tb = Some t →
     chapters t !! ChapterInfoAPIResponse.chapterid info = Some c →
     ChapterInfoAPIResponse.wholepageItemDTOList info = items1 ++ item :: items2 →
     is_Some (sections c !! ChapterInfoAPIResponse.itemid item) →
     ChapterInfoAPIResponse.wholepageDTOList item = pages1 ++ pg :: pages2 →
     course_page course tb (ChapterInfoAPIResponse.chapterid info)
       (ChapterInfoAPIResponse.itemid item) (ChapterInfoAPIResponse.id pg) = None →
     ∃ course' lg',
       parse_chapter_info tb info (course, lg) =
       (inr false,
        (course', lg' ++ [{| level := ERROR;
                             text := "[MANAGER][DATA] error while parsing chapter info";
                             args := [] |}]))) ∧
  (∀ tb info1 info2 w items1 item items2,
     ChapterInfoAPIResponse.chapterid info1 = ChapterInfoAPIResponse.chapterid info2 →
     ChapterInfoAPIResponse.wholepageItemDTOList info1 = items1 ++ item :: items2 →
     ChapterInfoAPIResponse.wholepageItemDTOList info2 = items1 ++ items2 →
     (∀ t c, textbooks w.1 !! tb = Some t →
             chapters t !! ChapterInfoAPIResponse.chapterid info1 = Some c →
             sections c !! ChapterInfoAPIResponse.itemid item = None) →
     parse_chapter_info tb info1 w = parse_chapter_info tb info2 w) ∧
  (∀ tb info1 info2 w es1 e es2,
     StudyRecordAPIResponse.node_id info1 = StudyRecordAPIResponse.node_id info2 →
     StudyRecordAPIResponse.item_id info1 = StudyRecordAPIResponse.item_id info2 →
     StudyRecordAPIResponse.pageStudyRecordDTOList info1 = es1 ++ e :: es2 →
     StudyRecordAPIResponse.pageStudyRecordDTOList info2 = es1 ++ es2 →
     (∀ pid p, course_page w.1 tb (StudyRecordAPIResponse.node_id info1)
                 (StudyRecordAPIResponse.item_id info1) pid = Some p →
               page_relation_id p ≠ StudyRecordAPIResponse.pageid e) →
     parse_study_record_info tb info1 w = parse_study_record_info tb info2 w) ∧
  (∀ tb fs1 bad fs2 course lg,
     course_section course tb (StudyRecordAPIResponse.node_id bad)
       (StudyRecordAPIResponse.item_id bad) = None →
     ∃ lg1 lg2 course',
       refresh_sections tb (fs1 ++ (true, Some bad) :: fs2) (course, lg) =
         (inr (), (course', lg1)) ∧
       refresh_sections tb (fs1 ++ fs2) (course, lg) = (inr (), (course', lg2))).
Proof.
  split; [exact parse_study_record_info_returns|].
  split; [exact parse_chapter_info_returns|].
  split; [exact parse_study_record_info_missing|].
  split; [exact parse_chapter_info_missing|].
  split.
  { intros tb info course lg t c items1 item items2 pages1 pg pages2.
    apply parse_chapter_info_missing_page. }
  split.
  { intros tb info1 info2 w items1 item items2.
    apply parse_chapter_info_skips_section. }
  split.
  { intros tb info1 info2 w es1 e es2. apply parse_study_record_info_skips_entry. }
  intros tb fs1 bad fs2 course lg. apply refresh_sections_skips_missing.
Qed.

(** On the sample tree: a record for chapter 404 in the middle of a batch is
    reported, and the record after it still marks page 2 of section 1000. *)
Lemma missing_identifiers_are_not_fatal_witness :
  let bad := sample_study_record 404 1000 [sample_record_entry 502 1] in
  let good := sample_study_record 100 1000 [sample_record_entry 502 1] in
  course_section sample_course 10 (StudyRecordAPIResponse.node_id bad)
    (StudyRecordAPIResponse.item_id bad) = None ∧
  (∃ lg', parse_study_record_info 10 bad (sample_course, []) =
          (inr false, (sample_course, lg'))) ∧
  ∃ lg1 lg2 course',
    refresh_sections 10 ([] ++ (true, Some bad) :: [(true, Some good)]) (sample_course, []) =
      (inr (), (course', lg1)) ∧
    refresh_sections 10 ([] ++ [(true, Some good)]) (sample_course, []) =
      (inr (), (course', lg2)).
Proof.
  intros bad good.
  destruct missing_identifiers_are_not_fatal
    as (_ & _ & Hmissing & _ & _ & _ & _ & Hbatch).
  split; [reflexivity|]. split.
  - eexists. apply (Hmissing 10 bad sample_course []). reflexivity.
  - apply (Hbatch 10 [] bad [(true, Some good)] sample_course []). reflexivity.
Defined.
(** ** Walking a dictionary in the order of its keys *)

Lemma dict_items_nil {A} (d : gmap Z A) : dict_items [] d = map_to_list d.
Proof.
  unfold dict_items. simpl.
  induction (map_to_list d) as [|item l IH]; [done|].
  rewrite filter_cons_True by apply not_elem_of_nil. by rewrite IH.
Qed.

Lemma elem_of_dict_items {A} (keys : list Z) (d : gmap Z A) (k : Z) (v : A) :
  (k, v) ∈ dict_items keys d ↔ d !! k = Some v.
Proof.
  unfold dict_items. rewrite elem_of_app, list_elem_of_omap, list_elem_of_filter.
  rewrite elem_of_map_to_list. simpl. split.
  - intros [(k' & _ & Hk)|[_ Hd]]; [|done].
    destruct (d !! k') as [v'|] eqn:Hd; [|done]. by injection Hk as -> ->.
  - intros Hd. destruct (decide (k ∈ keys)) as [Hin|Hout]; [left|by right].
    exists k. rewrite elem_of_remove_dups, Hd. done.
Qed.

Lemma NoDup_dict_items {A} (keys : list Z) (d : gmap Z A) : NoDup (dict_items keys d).
Proof.
  unfold dict_items. apply NoDup_app. split; [|split].
  - pose proof (NoDup_remove_dups keys) as Hnd.
    induction Hnd as [|k l Hk _ IH]; [constructor|]. simpl.
    destruct (d !! k) as [v|]; [|exact IH]. simpl. constructor; [|exact IH].
    rewrite list_elem_of_omap. intros (k' & Hk' & Heq).
    destruct (d !! k'); [|done]. injection Heq as -> _. done.
  - intros [k v]. rewrite list_elem_of_omap, list_elem_of_filter. simpl.
    intros (k' & Hk' & Heq) [Hout _]. apply Hout.
    destruct (d !! k'); [|done]. injection Heq as -> _.
    by apply elem_of_remove_dups.
  - apply NoDup_filter, NoDup_map_to_list.
Qed.

(** Whatever the keys, the walk meets every entry exactly once. *)
Lemma dict_items_Permutation {A} (keys : list Z) (d : gmap Z A) :
  dict_items keys d ≡ₚ map_to_list d.
Proof.
  apply NoDup_Permutation; [apply NoDup_dict_items|apply NoDup_map_to_list|].
  intros [k v]. by rewrite elem_of_dict_items, elem_of_map_to_list.
Qed.

Lemma dict_items_singleton {A} (keys : list Z) (k : Z) (v : A) :
  dict_items keys {[ k := v ]} = [(k, v)].
Proof.
  apply Permutation_singleton_r.
  by rewrite dict_items_Permutation, map_to_list_singleton.
Qed.

(** With the keys of the dictionary, each once, the walk is in their
    order. *)
Lemma dict_items_keys {A} (keys : list Z) (d : gmap Z A) :
  NoDup keys → (∀ k, k ∈ keys ↔ is_Some (d !! k)) →
  fst <$> dict_items keys d = keys.
Proof.
  intros Hnd Hkeys. unfold dict_items.
  assert (Hrest : filter (λ item : Z * A, item.1 ∉ keys) (map_to_list d) = []).
  { assert (Hall : ∀ item, item ∈ map_to_list d → item.1 ∈ keys).
    { intros [k v] Hitem. apply Hkeys. exists v. by apply elem_of_map_to_list. }
    induction (map_to_list d) as [|item l IH]; [done|].
    rewrite filter_cons_False.
    - apply IH. intros item' Hitem'. apply Hall. by right.
    - intros Hout. apply Hout, Hall. left. }
  rewrite Hrest, app_nil_r.
  assert (Hsome : ∀ k, k ∈ keys → is_Some (d !! k)) by (intros k; apply Hkeys).
  clear Hkeys Hrest.
  induction Hnd as [|k l Hk Hnd IH]; [done|]. simpl.
  destruct (decide_rel elem_of k l) as [Hin|_]; [done|]. simpl.
  destruct (Hsome k) as [v ->]; [left|]. simpl.
  f_equal. apply IH. intros k' Hk'. apply Hsome. by right.
Qed.
(** ** Floats: rounding *)

Lemma py_round_ge (n : Z) (y : Q) : (inject_Z n <= y)%Q → n ≤ py_round y.
Proof.
  intros H. assert (Hf : n ≤ Qfloor y).
  { rewrite <- (Qfloor_Z n). by apply Qfloor_resp_le. }
  unfold py_round.
  destruct (y - inject_Z (Qfloor y) ?= 1 # 2)%Q; [destruct (Z.even _)|..]; lia.
Qed.

Lemma py_round_le (n : Z) (y : Q) : (y <= inject_Z n)%Q → py_round y ≤ n.
Proof.
  intros H. pose proof (Qfloor_le y) as Hf.
  assert (Hfn : Qfloor y ≤ n).
  { rewrite Zle_Qle. lra. }
  assert (Hlt : (inject_Z (Qfloor y) < y)%Q → Qfloor y + 1 ≤ n).
  { intros Hy. assert (Qfloor y < n); [|lia]. rewrite Zlt_Qlt. lra. }
  unfold py_round.
  destruct (y - inject_Z (Qfloor y) ?= 1 # 2)%Q eqn:Hc.
  - apply Qeq_alt in Hc. destruct (Z.even _); [lia|]. apply Hlt. lra.
  - lia.
  - apply Qgt_alt in Hc. apply Hlt. lra.
Qed.

Lemma py_round_error (y : Q) :
  (y - (1 # 2) <= inject_Z (py_round y))%Q ∧ (inject_Z (py_round y) <= y + (1 # 2))%Q.
Proof.
  pose proof (Qfloor_le y) as Hf. pose proof (Qlt_floor y) as Hc.
  rewrite inject_Z_plus in Hc. change (inject_Z 1) with 1%Q in Hc.
  unfold py_round.
  destruct (y - inject_Z (Qfloor y) ?= 1 # 2)%Q eqn:Hcmp.
  - apply Qeq_alt in Hcmp. destruct (Z.even _);
      rewrite ?inject_Z_plus; change (inject_Z 1) with 1%Q; split; lra.
  - apply Qlt_alt in Hcmp. split; lra.
  - apply Qgt_alt in Hcmp. rewrite inject_Z_plus. change (inject_Z 1) with 1%Q. split; lra.
Qed.

Lemma pow2_pos (e : Z) : (0 < 2 ^ e)%Q.
Proof. by apply Qpower_0_lt. Qed.

Lemma pow2_plus (n m : Z) : (2 ^ (n + m) == 2 ^ n * 2 ^ m)%Q.
Proof. by apply Qpower_plus. Qed.

Lemma pow2_inject (n : Z) : 0 ≤ n → (2 ^ n == inject_Z (2 ^ n))%Q.
Proof. intros Hn. by rewrite Zpower_Qpower. Qed.

Lemma pow2_le (n m : Z) : n ≤ m → (2 ^ n <= 2 ^ m)%Q.
Proof. intros H. by apply Qpower_le_compat_l. Qed.

Lemma ilog2_le (x : Q) : (0 < x)%Q → (2 ^ ilog2 x <= x)%Q.
Proof.
  intros Hx. unfold ilog2.
  destruct (Qle_bool _ x) eqn:Hle; [by apply Qle_bool_iff|]. clear Hle.
  destruct x as [n d]. simpl.
  assert (Hn : 0 < n) by (unfold Qlt in Hx; simpl in Hx; lia).
  pose proof (Z.log2_spec n Hn) as [Hlo _].
  pose proof (Z.log2_spec (Z.pos d) ltac:(lia)) as [_ Hhi].
  pose proof (Z.log2_nonneg n). pose proof (Z.log2_nonneg (Z.pos d)).
  set (a := Z.log2 n) in *. set (b := Z.log2 (Z.pos d)) in *.
  assert (Hsplit : (2 ^ (a - b - 1) * 2 ^ (b + 1) == 2 ^ a)%Q).
  { rewrite <- pow2_plus. by replace (a - b - 1 + (b + 1)) with a by lia. }
  assert (Hd : (inject_Z (Z.pos d) <= 2 ^ (b + 1))%Q).
  { rewrite pow2_inject by lia. rewrite <- Zle_Qle. lia. }
  assert (Hn' : (2 ^ a <= inject_Z n)%Q).
  { rewrite pow2_inject by lia. by rewrite <- Zle_Qle. }
  pose proof (pow2_pos (a - b - 1)) as Hpos.
  assert (Hmul : (2 ^ (a - b - 1) * inject_Z (Z.pos d) <= inject_Z n)%Q).
  { eapply Qle_trans; [|exact Hn']. rewrite <- Hsplit.
    apply Qmult_le_l; [exact Hpos|exact Hd]. }
  assert (Hx' : (n # d == inject_Z n / inject_Z (Z.pos d))%Q).
  { rewrite Qmake_Qdiv. reflexivity. }
  rewrite Hx'. apply Qle_shift_div_l; [reflexivity|exact Hmul].
Qed.

(** The spacing [2^q] of the floats around [x] is at most [2^(p - 53)] when
    [|x| < 2^p]. *)
Lemma binary64_spacing (x : Q) (p : Z) :
  ¬ (x == 0)%Q → (Qabs x < 2 ^ p)%Q → -1021 ≤ p →
  Z.max (ilog2 (Qabs x) - 52) (-1074) ≤ p - 53.
Proof.
  intros Hx Hp Hmin.
  assert (Hpos : (0 < Qabs x)%Q).
  { destruct (Qlt_le_dec 0 (Qabs x)) as [H|H]; [done|].
    exfalso. apply Hx. pose proof (Qabs_nonneg x).
    assert (Qabs x == 0)%Q as Habs by lra.
    revert Habs. apply Qabs_case; intros; lra. }
  pose proof (ilog2_le _ Hpos) as Hlog.
  assert (ilog2 (Qabs x) < p); [|lia].
  apply (Qpower_lt_compat_l_inv 2); [|reflexivity].
  eapply Qle_lt_trans; [exact Hlog|exact Hp].
Qed.

(** What [binary64] computes for [x <> 0], with the spacing named. *)
Lemma binary64_unfold (x : Q) :
  ¬ (x == 0)%Q →
  let q := Z.max (ilog2 (Qabs x) - 52) (-1074) in
  (binary64 x == inject_Z (py_round (x / 2 ^ q)) * 2 ^ q)%Q.
Proof.
  intros Hx q. unfold binary64.
  destruct (Qeq_bool x 0) eqn:Hz; [by apply Qeq_bool_iff in Hz|].
  apply Qred_correct.
Qed.

Lemma binary64_zero (x : Q) : (x == 0)%Q → binary64 x = 0%Q.
Proof. intros Hx. unfold binary64. by rewrite (proj2 (Qeq_bool_iff x 0) Hx). Qed.

(** Rounding is the identity on the integers below [2^53] and monotone
    with respect to them. *)
Lemma binary64_between (A B : Z) (x : Q) :
  Z.abs A < 2 ^ 53 → Z.abs B < 2 ^ 53 →
  (inject_Z A <= x)%Q → (x <= inject_Z B)%Q →
  (inject_Z A <= binary64 x)%Q ∧ (binary64 x <= inject_Z B)%Q.
Proof.
  intros HA HB HAx HxB.
  destruct (Qeq_dec x 0) as [H0|H0].
  { rewrite (binary64_zero x H0). split; lra. }
  assert (Hp : (Qabs x < 2 ^ 53)%Q).
  { rewrite (pow2_inject 53) by lia.
    assert (inject_Z (- 2 ^ 53) < inject_Z A)%Q by (rewrite <- Zlt_Qlt; lia).
    assert (inject_Z B < inject_Z (2 ^ 53))%Q by (rewrite <- Zlt_Qlt; lia).
    rewrite inject_Z_opp in *.
    apply Qabs_case; intros; lra. }
  pose proof (binary64_spacing x 53 H0 Hp ltac:(lia)) as Hq.
  rewrite (binary64_unfold x H0). cbv zeta.
  set (q := Z.max (ilog2 (Qabs x) - 52) (-1074)) in *.
  assert (Hinv : (2 ^ q * 2 ^ (- q) == 1)%Q).
  { rewrite <- pow2_plus. by replace (q + - q) with 0 by lia. }
  rewrite (pow2_inject (- q)) in Hinv by lia.
  pose proof (pow2_pos q) as Hpos.
  assert (Hk : (0 < inject_Z (2 ^ (- q)))%Q).
  { rewrite <- (pow2_inject (- q)) by lia. apply pow2_pos. }
  assert (Hy : (x / 2 ^ q == x * inject_Z (2 ^ (- q)))%Q).
  { field_simplify_eq; [|lra]. rewrite <- (Qmult_1_r x) at 1.
    rewrite <- Hinv. ring. }
  assert (Hscale : ∀ n : Z, (inject_Z n == inject_Z (n * 2 ^ (- q)) * 2 ^ q)%Q).
  { intros n. rewrite inject_Z_mult, <- Qmult_assoc, (Qmult_comm _ (2 ^ q)), Hinv. ring. }
  split.
  - rewrite (Hscale A). apply Qmult_le_compat_r; [|lra].
    rewrite <- Zle_Qle. apply py_round_ge.
    rewrite Hy, inject_Z_mult. apply Qmult_le_compat_r; lra.
  - rewrite (Hscale B). apply Qmult_le_compat_r; [|lra].
    rewrite <- Zle_Qle. apply py_round_le.
    rewrite Hy, inject_Z_mult. apply Qmult_le_compat_r; lra.
Qed.

(** The rounding error is at most half the spacing. *)
Lemma binary64_error (x : Q) (p : Z) :
  (Qabs x < 2 ^ p)%Q → -1021 ≤ p →
  (x - 2 ^ (p - 54) <= binary64 x)%Q ∧ (binary64 x <= x + 2 ^ (p - 54))%Q.
Proof.
  intros Hp Hmin. pose proof (pow2_pos (p - 54)) as Hhalf.
  destruct (Qeq_dec x 0) as [H0|H0].
  { rewrite (binary64_zero x H0). split; lra. }
  pose proof (binary64_spacing x p H0 Hp Hmin) as Hq.
  rewrite (binary64_unfold x H0). cbv zeta.
  set (q := Z.max (ilog2 (Qabs x) - 52) (-1074)) in *.
  pose proof (pow2_pos q) as Hpos.
  pose proof (py_round_error (x / 2 ^ q)) as [Hlo Hhi].
  assert (Hx : (x == x / 2 ^ q * 2 ^ q)%Q) by (field; lra).
  assert (Hsp : ((1 # 2) * 2 ^ q <= 2 ^ (p - 54))%Q).
  { replace (p - 54) with (-1 + (p - 53)) by lia. rewrite pow2_plus.
    assert (Hinv : (2 ^ (-1) == 1 # 2)%Q) by reflexivity. rewrite Hinv.
    apply Qmult_le_l; [reflexivity|]. by apply pow2_le. }
  assert (Hlo' : ((x / 2 ^ q - (1 # 2)) * 2 ^ q
                  <= inject_Z (py_round (x / 2 ^ q)) * 2 ^ q)%Q).
  { apply Qmult_le_compat_r; lra. }
  assert (Hhi' : (inject_Z (py_round (x / 2 ^ q)) * 2 ^ q
                  <= (x / 2 ^ q + (1 # 2)) * 2 ^ q)%Q).
  { apply Qmult_le_compat_r; lra. }
  set (r := (inject_Z (py_round (x / 2 ^ q)) * 2 ^ q)%Q) in *.
  set (y := (x / 2 ^ q)%Q) in *.
  assert (Hd1 : ((y - (1 # 2)) * 2 ^ q == y * 2 ^ q - (1 # 2) * 2 ^ q)%Q) by ring.
  assert (Hd2 : ((y + (1 # 2)) * 2 ^ q == y * 2 ^ q + (1 # 2) * 2 ^ q)%Q) by ring.
  split; lra.
Qed.

Lemma binary64_reduced (x : Q) : Qred (binary64 x) = binary64 x.
Proof.
  unfold binary64. destruct (Qeq_bool x 0); [reflexivity|].
  apply Qred_complete, Qred_correct.
Qed.

Lemma binary64_inject_Z (n : Z) : Z.abs n < 2 ^ 53 → binary64 (inject_Z n) = inject_Z n.
Proof.
  intros Hn.
  destruct (binary64_between n n (inject_Z n) Hn Hn) as [Hlo Hhi]; [lra..|].
  rewrite <- binary64_reduced.
  transitivity (Qred (inject_Z n)); [apply Qred_complete; lra|].
  unfold inject_Z, Qred. simpl.
  pose proof (Z.ggcd_correct_divisors n 1) as Hg. pose proof (Z.ggcd_gcd n 1) as Hgcd.
  rewrite Z.gcd_1_r in Hgcd.
  destruct (Z.ggcd n 1) as [g [a b]]. simpl in *. subst g.
  destruct Hg as [Ha Hb]. f_equal; [lia|].
  apply Pos2Z.inj. rewrite Z2Pos.id; lia.
Qed.

(** ** Floats: operations that stay finite *)

Lemma float_round_finite (A B : Z) (x : Q) :
  Z.abs A < 2 ^ 53 → Z.abs B < 2 ^ 53 →
  (inject_Z A <= x)%Q → (x <= inject_Z B)%Q →
  float_round x = Finite (binary64 x).
Proof.
  intros HA HB HAx HxB.
  destruct (binary64_between A B x HA HB HAx HxB) as [Hlo Hhi].
  unfold float_round.
  destruct (Qle_bool _ _) eqn:Hbig; [|reflexivity].
  apply Qle_bool_iff in Hbig. exfalso.
  assert (H53 : (2 ^ 53 <= 2 ^ 1024)%Q) by (apply pow2_le; lia).
  rewrite (pow2_inject 53) in H53 by lia.
  assert (inject_Z (- 2 ^ 53) < inject_Z A)%Q by (rewrite <- Zlt_Qlt; lia).
  assert (inject_Z B < inject_Z (2 ^ 53))%Q by (rewrite <- Zlt_Qlt; lia).
  rewrite inject_Z_opp in *.
  revert Hbig. apply Qabs_case; intros; lra.
Qed.

Lemma float_of_int_run {σ} (n : Z) (w : σ * list LogLine) :
  Z.abs n < 2 ^ 53 → float_of_int n w = (inr (Finite (inject_Z n)), w).
Proof.
  intros Hn. unfold float_of_int.
  rewrite (float_round_finite n n) by (lia || lra).
  by rewrite binary64_inject_Z.
Qed.

(** ** Building the report *)

Example build_video_section :
  let section := {| section_id := 1000; section_name := "s";
                    pages := {[ 1 := sample_video_page ]} |} in
  (build_sync_study_record_request [1] 1700000000 section sample_user default_study_time
     false (sample_ambient (2 ^ 50) (4003 # 4), [])).1 =
  inr (Some
    {| SyncStudyRecordAPIRequest.itemid := 1000;
       SyncStudyRecordAPIRequest.autoSave := 1;
       SyncStudyRecordAPIRequest.complete := 1;
       SyncStudyRecordAPIRequest.studyStartTime := 1700000000;
       SyncStudyRecordAPIRequest.userName := "user";
       SyncStudyRecordAPIRequest.score := 100;
       SyncStudyRecordAPIRequest.pageStudyRecordDTOList :=
         [{| PageStudyRecordDTO.pageid := 501;
             PageStudyRecordDTO.complete := 1;
             PageStudyRecordDTO.studyTime := 600;
             PageStudyRecordDTO.score := 100;
             PageStudyRecordDTO.answerTime := 1;
             PageStudyRecordDTO.submitTimes := 0;
             PageStudyRecordDTO.coursepageId := None;
             PageStudyRecordDTO.questions := [];
             PageStudyRecordDTO.videos :=
               [{| VideoDTO.videoid := 71;
                   VideoDTO.current := Finite (2389 # 4);
                   VideoDTO.status := 1;
                   VideoDTO.recordTime := Finite (2389 # 4);
                   VideoDTO.time := Finite 600;
                   VideoDTO.startEndTimeList :=
                     [{| StartEndTime.startTime := 1000;
                         StartEndTime.endTime := 1598 |}] |}] |}] |}).
Proof. vm_compute. reflexivity. Qed.

Lemma fold_each_cons {σ A B} (body : B → A → Eff σ B) (x : A) (xs : list A) (acc : B)
    (w : σ * list LogLine) :
  fold_each (x :: xs) acc body w =
  match body acc x w with
  | (inr acc', w') => fold_each xs acc' body w'
  | (inl e, w') => (inl e, w')
  end.
Proof. reflexivity. Qed.

Lemma build_page_first (cfg : StudyTime.t) (pid : Z) (p : CoursewarePage)
    (amb : Ambient) (lg : list LogLine) :
  build_page cfg true pid p (amb, lg) =
  (inr (Some (first_pass_record p)),
   (amb, lg ++ [{| level := INFO; text := "[page] processing"; args := [pid] |}])).
Proof. reflexivity. Qed.

Lemma fold_each_first_pass (cfg : StudyTime.t) (items : list (Z * CoursewarePage))
    (acc : list PageStudyRecordDTO.t) (amb : Ambient) (lg : list LogLine) :
  fold_each items acc
    (λ page_study_record_dto_list item,
       dto ← build_page cfg true item.1 item.2;
       mret (match dto with
             | Some dto => page_study_record_dto_list ++ [dto]
             | None => page_study_record_dto_list
             end)) (amb, lg) =
  (inr (acc ++ (first_pass_record ∘ snd <$> items)),
   (amb, lg ++ ((λ item, {| level := INFO; text := "[page] processing";
                            args := [item.1] |}) <$> items))).
Proof.
  revert acc lg. induction items as [|[pid p] items IH]; intros acc lg.
  - simpl. by rewrite !app_nil_r.
  - rewrite fold_each_cons, eff_bind_run, build_page_first. cbv beta iota.
    rewrite eff_ret_run, IH. rewrite !fmap_cons. simpl. by rewrite <- !app_assoc.
Qed.

Lemma build_first_pass_run (page_keys : list Z)
    (study_start_time : Z) (section_info : CoursewareSection)
    (user_info : CourseAPIUserInfoAPIResponse.t) (cfg : StudyTime.t)
    (amb : Ambient) (lg : list LogLine) :
  ∃ lg',
    build_sync_study_record_request page_keys study_start_time section_info user_info cfg
      true (amb, lg) =
    (inr (Some
       {| SyncStudyRecordAPIRequest.itemid := section_id section_info;
          SyncStudyRecordAPIRequest.autoSave := 1;
          SyncStudyRecordAPIRequest.complete := 1;
          SyncStudyRecordAPIRequest.studyStartTime := study_start_time;
          SyncStudyRecordAPIRequest.userName := CourseAPIUserInfoAPIResponse.name user_info;
          SyncStudyRecordAPIRequest.score := 100;
          SyncStudyRecordAPIRequest.pageStudyRecordDTOList :=
            first_pass_record ∘ snd <$> dict_items page_keys (pages section_info) |}),
     (amb, lg')).
Proof.
  eexists. unfold build_sync_study_record_request.
  rewrite eff_bind_run; simpl. unfold try_except.
  rewrite eff_bind_run, fold_each_first_pass. reflexivity.
Qed.

(** C9.  A report built with [is_first = True] is always built; it holds one
    record per page of the section, whatever the page's content type, in
    the order in which the page dictionary is walked, and every record has
    [studyTime = 0], score 0 and no video or question entries.  No
    simulation runs: the random source and the clock are left untouched. *)
Theorem first_pass_reports_zero (page_keys : list Z)
    (study_start_time : Z) (section_info : CoursewareSection)
    (user_info : CourseAPIUserInfoAPIResponse.t) (cfg : StudyTime.t)
    (amb : Ambient) (lg : list LogLine) :
  ∃ req lg',
    build_sync_study_record_request page_keys study_start_time section_info user_info cfg
      true (amb, lg) = (inr (Some req), (amb, lg')) ∧
    SyncStudyRecordAPIRequest.itemid req = section_id section_info ∧
    SyncStudyRecordAPIRequest.studyStartTime req = study_start_time ∧
    SyncStudyRecordAPIRequest.pageStudyRecordDTOList req =
      (first_pass_record ∘ snd <$> dict_items page_keys (pages section_info)) ∧
    SyncStudyRecordAPIRequest.pageStudyRecordDTOList req ≡ₚ
      (first_pass_record ∘ snd <$> map_to_list (pages section_info)) ∧
    Forall (λ dto, PageStudyRecordDTO.studyTime dto = 0 ∧
                   PageStudyRecordDTO.score dto = 0 ∧
                   PageStudyRecordDTO.videos dto = [] ∧
                   PageStudyRecordDTO.questions dto = [])
      (SyncStudyRecordAPIRequest.pageStudyRecordDTOList req) ∧
    (∀ pid p, pages section_info !! pid = Some p →
              first_pass_record p ∈ SyncStudyRecordAPIRequest.pageStudyRecordDTOList req).
Proof.
  destruct (build_first_pass_run page_keys study_start_time section_info user_info cfg
              amb lg) as [lg' Hrun].
  eexists _, lg'. split; [exact Hrun|].
  simpl. repeat split.
  - by rewrite dict_items_Permutation.
  - apply Forall_fmap, Forall_true. by intros [pid p].
  - intros pid p Hp. apply list_elem_of_fmap. exists (pid, p).
    split; [done|]. by apply elem_of_dict_items.
Qed.

(** A page of an unknown content type is reported on the first pass and
    left out of the report on the second. *)
Example first_pass_unknown_type :
  let odd_page := {| page_id := 5; page_relation_id := 505; page_name := "odd";
                     page_content_type := 8; is_complete := false; elements := [] |} in
  let section := {| section_id := 1000; section_name := "s";
                    pages := {[ 5 := odd_page ]} |} in
  (∃ req,
     (build_sync_study_record_request [5] 17 section sample_user default_study_time true
        (sample_ambient 0 0, [])).1 = inr (Some req) ∧
     SyncStudyRecordAPIRequest.pageStudyRecordDTOList req = [first_pass_record odd_page]) ∧
  (∃ req,
     (build_sync_study_record_request [5] 17 section sample_user default_study_time false
        (sample_ambient 0 0, [])).1 = inr (Some req) ∧
     SyncStudyRecordAPIRequest.pageStudyRecordDTOList req = []).
Proof. split; eexists; (split; [vm_compute; reflexivity|reflexivity]). Qed.

(** ** Document and text pages *)

Lemma randint_run (a b : Z) (amb : Ambient) (lg : list LogLine) :
  a ≤ b →
  randint a b (amb, lg) =
  (inr (a + rng amb (rng_pos amb) `mod` (b - a + 1)), (next_draw amb, lg)).
Proof. intros Hab. unfold randint; simpl. by rewrite (proj2 (Z.leb_le a b)). Qed.

Lemma randint_range (a b r : Z) : a ≤ b → a ≤ a + r `mod` (b - a + 1) ≤ b.
Proof. intros Hab. pose proof (Z.mod_pos_bound r (b - a + 1)). lia. Qed.

Lemma randint_raises (a b : Z) (w : Ambient * list LogLine) :
  b < a → randint a b w = (inl ValueError, w).
Proof. intros Hab. unfold randint. by rewrite (proj2 (Z.leb_gt a b)). Qed.

(** The claim C3 as it is written fails for a long page: with 21 elements
    and the default bounds 180 and 360 the duration is capped at 3600, below
    [minT * n = 3780]. *)
Lemma document_page_duration_capped :
  ∃ dto w,
    build_page default_study_time false 4 long_document_page (sample_ambient 0 0, []) =
      (inr (Some dto), w) ∧
    PageStudyRecordDTO.studyTime dto = 3600 ∧
    ¬ (MinMaxTime.min (StudyTime.document default_study_time)
         * Z.of_nat (length (elements long_document_page))
       ≤ PageStudyRecordDTO.studyTime dto).
Proof.
  eexists _, _. split; [vm_compute; reflexivity|]. split; [reflexivity|].
  vm_compute. intros H. by apply H.
Qed.

(** C3 (amended).  On the second pass, for a page of content type 5 with
    [n] elements and bounds [minT <= maxT] in its bucket ([document] when
    some element is a document, [content] otherwise), the report is built
    from one draw [t] with [minT <= t <= maxT]; the page's [studyTime] is
    [min(t * n, 3600)], which lies between [min(minT * n, 3600)] and
    [min(maxT * n, 3600)], and its score is 100. *)
Theorem document_page_duration
    (cfg : StudyTime.t) (pid : Z) (p : CoursewarePage) (amb : Ambient) (lg : list LogLine) :
  page_content_type p = 5 →
  MinMaxTime.min (page_bucket cfg p) ≤ MinMaxTime.max (page_bucket cfg p) →
  ∃ dto t lg',
    build_page cfg false pid p (amb, lg) = (inr (Some dto), (next_draw amb, lg')) ∧
    MinMaxTime.min (page_bucket cfg p) ≤ t ≤ MinMaxTime.max (page_bucket cfg p) ∧
    PageStudyRecordDTO.studyTime dto = Z.min (t * Z.of_nat (length (elements p))) 3600 ∧
    Z.min (MinMaxTime.min (page_bucket cfg p) * Z.of_nat (length (elements p))) 3600
      ≤ PageStudyRecordDTO.studyTime dto
      ≤ Z.min (MinMaxTime.max (page_bucket cfg p) * Z.of_nat (length (elements p))) 3600 ∧
    PageStudyRecordDTO.score dto = 100.
Proof.
  intros Hct Hrange.
  set (a := MinMaxTime.min (page_bucket cfg p)) in *.
  set (b := MinMaxTime.max (page_bucket cfg p)) in *.
  set (t := a + rng amb (rng_pos amb) `mod` (b - a + 1)).
  assert (Ht : a ≤ t ≤ b) by by apply randint_range.
  assert (Hbuild : ∃ dto lg',
    build_page cfg false pid p (amb, lg) = (inr (Some dto), (next_draw amb, lg')) ∧
    PageStudyRecordDTO.studyTime dto = Z.min (t * Z.of_nat (length (elements p))) 3600 ∧
    PageStudyRecordDTO.score dto = 100).
  { unfold build_page. rewrite eff_bind_run; simpl. rewrite eff_bind_run.
    unfold simulate_page. rewrite Hct; simpl.
    subst a b t. unfold page_bucket in *.
    destruct (existsb isinstance_ElementDocumen (elements p));
      rewrite eff_bind_run, randint_run by done; simpl;
      eexists _, _; (split; [reflexivity|]); by simpl. }
  destruct Hbuild as (dto & lg' & Hrun & Htime & Hscore).
  exists dto, t, lg'.
  split; [exact Hrun|]. split; [exact Ht|]. split; [exact Htime|].
  split; [|exact Hscore]. rewrite Htime.
  split; apply Z.min_le_compat_r, Z.mul_le_mono_nonneg_r; lia.
Qed.

Lemma document_page_duration_witness :
  page_content_type sample_document_page = 5 ∧
  MinMaxTime.min (page_bucket default_study_time sample_document_page)
    ≤ MinMaxTime.max (page_bucket default_study_time sample_document_page) ∧
  ∃ dto t lg',
    build_page default_study_time false 2 sample_document_page (sample_ambient 7 0, []) =
      (inr (Some dto), (next_draw (sample_ambient 7 0), lg')) ∧
    180 ≤ t ≤ 360 ∧
    360 ≤ PageStudyRecordDTO.studyTime dto ≤ 720 ∧
    PageStudyRecordDTO.score dto = 100.
Proof.
  split; [reflexivity|]. split; [by vm_compute|].
  destruct (document_page_duration default_study_time 2 sample_document_page
              (sample_ambient 7 0) [])
    as (dto & t & lg' & Hrun & Ht & _ & Hbounds & Hscore); [reflexivity|by vm_compute|].
  exists dto, t, lg'. split; [exact Hrun|]. split; [exact Ht|]. split; [exact Hbounds|].
  exact Hscore.
Defined.

(** ** Video pages *)

Lemma random_unit_range (k : Z) : (0 <= random_unit k)%Q ∧ (random_unit k < 1)%Q.
Proof.
  unfold random_unit, Qle, Qlt; simpl.
  assert (Hpow : Z.pos (2 ^ 53) = 2 ^ 53) by reflexivity.
  pose proof (Z.mod_pos_bound k (2 ^ 53) ltac:(lia)) as [Hlo Hhi].
  rewrite Hpow. split; lia.
Qed.

Lemma uniform_2_8_range (k : Z) : (2 <= uniform_2_8 k)%Q ∧ (uniform_2_8 k <= 8)%Q.
Proof.
  unfold uniform_2_8. pose proof (random_unit_range k) as [Hlo Hhi].
  destruct (binary64_between 0 6 (6 * random_unit k)) as [H0 H6];
    [reflexivity|reflexivity|change (inject_Z 0) with 0%Q; lra
    |change (inject_Z 6) with 6%Q; lra|].
  change (inject_Z 0) with 0%Q in H0. change (inject_Z 6) with 6%Q in H6.
  apply (binary64_between 2 8); [reflexivity|reflexivity|..].
  - change (inject_Z 2) with 2%Q. lra.
  - change (inject_Z 8) with 8%Q. lra.
Qed.

Lemma uniform_run (amb : Ambient) (lg : list LogLine) :
  uniform 2 8 (amb, lg) =
  (inr (Finite (uniform_2_8 (rng amb (rng_pos amb)))), (next_draw amb, lg)).
Proof.
  unfold uniform_2_8.
  pose proof (random_unit_range (rng amb (rng_pos amb))) as [Hlo Hhi].
  set (r := random_unit (rng amb (rng_pos amb))) in *.
  assert (Hmul : float_round (inject_Z (8 - 2) * r) = Finite (binary64 (6 * r))).
  { apply (float_round_finite 0 6); [reflexivity|reflexivity|..].
    - change (inject_Z 0) with 0%Q. change (inject_Z (8 - 2)) with 6%Q. lra.
    - change (inject_Z 6) with 6%Q. change (inject_Z (8 - 2)) with 6%Q. lra. }
  assert (Hadd : float_round (inject_Z 2 + binary64 (6 * r)) =
                 Finite (binary64 (2 + binary64 (6 * r)))).
  { destruct (binary64_between 0 6 (6 * r)) as [H0 H6]; [reflexivity|reflexivity|..].
    - change (inject_Z 0) with 0%Q. lra.
    - change (inject_Z 6) with 6%Q. lra.
    - change (inject_Z 0) with 0%Q in H0. change (inject_Z 6) with 6%Q in H6.
      apply (float_round_finite 2 8); [reflexivity|reflexivity|..].
      + change (inject_Z 2) with 2%Q. lra.
      + change (inject_Z 2) with 2%Q. change (inject_Z 8) with 8%Q. lra. }
  unfold uniform. rewrite eff_bind_run. unfold random. cbn [fst snd]. fold r.
  rewrite eff_bind_run, float_of_int_run by reflexivity.
  rewrite eff_bind_run, float_of_int_run by reflexivity.
  rewrite eff_ret_run. unfold float_mul. rewrite Hmul.
  unfold float_add. rewrite Hadd. reflexivity.
Qed.

Lemma exact_bound (n : Z) : Z.abs n ≤ 2 ^ 51 →
  (inject_Z (- 2 ^ 51) <= inject_Z n)%Q ∧ (inject_Z n <= inject_Z (2 ^ 51))%Q.
Proof. intros Hn. rewrite <- !Zle_Qle. lia. Qed.

(** The watch time of a video whose length a float holds exactly. *)
Lemma watch_time_range (L k : Z) :
  Z.abs L ≤ 2 ^ 51 →
  (inject_Z L - 8 <= watch_time L k)%Q ∧ (watch_time L k <= inject_Z L - 2)%Q.
Proof.
  intros HL. pose proof (uniform_2_8_range k) as [Hlo Hhi].
  destruct (binary64_between (L - 8) (L - 2) (inject_Z L - uniform_2_8 k)) as [H1 H2].
  - lia.
  - lia.
  - unfold Z.sub. rewrite inject_Z_plus, inject_Z_opp. change (inject_Z 8) with 8%Q. lra.
  - unfold Z.sub. rewrite inject_Z_plus, inject_Z_opp. change (inject_Z 2) with 2%Q. lra.
  - unfold Z.sub in H1, H2. rewrite inject_Z_plus, inject_Z_opp in H1, H2.
    change (inject_Z 8) with 8%Q in H1. change (inject_Z 2) with 2%Q in H2.
    unfold watch_time. split; lra.
Qed.

Lemma clock_reading_range (c : Q) :
  (0 <= c)%Q → (c <= inject_Z (2 ^ 51))%Q →
  (0 <= binary64 c)%Q ∧ (binary64 c <= inject_Z (2 ^ 51))%Q.
Proof.
  intros Hlo Hhi. apply (binary64_between 0 (2 ^ 51)); [reflexivity|reflexivity|..]; done.
Qed.

(** The sum of a clock reading and a watch time, both within [2^51], stays
    below [2^53]: it is a finite float, within half a second of the exact
    sum. *)
Lemma end_time_range (L k : Z) (now : Q) :
  Z.abs L ≤ 2 ^ 51 → (0 <= now)%Q → (now <= inject_Z (2 ^ 51))%Q →
  (inject_Z (- 2 ^ 52) <= now + watch_time L k)%Q ∧
  (now + watch_time L k <= inject_Z (2 ^ 52))%Q.
Proof.
  intros HL Hlo Hhi. pose proof (watch_time_range L k HL) as [H1 H2].
  pose proof (exact_bound L HL) as [H3 H4].
  assert (H51 : (inject_Z (2 ^ 52) == inject_Z (2 ^ 51) + inject_Z (2 ^ 51))%Q)
    by reflexivity.
  assert (H8 : (8 <= inject_Z (2 ^ 51))%Q) by (by vm_compute).
  rewrite inject_Z_opp in *.
  set (M := inject_Z (2 ^ 51)) in *. set (M' := inject_Z (2 ^ 52)) in *.
  split; lra.
Qed.

Lemma build_video_run (acc : Z * list VideoDTO.t) (video_id video_length : Z)
    (amb : Ambient) (lg : list LogLine) :
  Z.abs video_length ≤ 2 ^ 51 →
  (0 <= clock amb (clock_pos amb))%Q →
  (clock amb (clock_pos amb) <= inject_Z (2 ^ 51))%Q →
  build_video acc (ElementVideo video_id video_length) (amb, lg) =
  (inr (acc.1 + video_length,
        acc.2 ++
        [video_record (video_id, video_length) (clock amb (clock_pos amb))
           (rng amb (rng_pos amb))]),
   (next_draw (next_tick amb),
    lg ++ [{| level := INFO; text := "[video] study seconds";
              args := [video_id; video_length] |}])).
Proof.
  intros HL Hlo Hhi.
  destruct (clock_reading_range _ Hlo Hhi) as [Hnow0 Hnow1].
  destruct (end_time_range video_length (rng amb (rng_pos amb)) _ HL Hnow0 Hnow1)
    as [Hend0 Hend1].
  unfold build_video. rewrite eff_bind_run. cbn [logger fst snd].
  rewrite eff_bind_run. unfold time_time. cbn [fst snd clock clock_pos next_tick].
  rewrite (float_round_finite 0 (2 ^ 51)) by (done || reflexivity).
  rewrite eff_bind_run.
  change (rng_pos amb) with (rng_pos (next_tick amb)).
  change (rng amb) with (rng (next_tick amb)).
  rewrite uniform_run.
  rewrite eff_bind_run, float_of_int_run by lia.
  unfold float_sub, float_opp, float_add, int_of_float.
  pose proof (watch_time_range video_length (rng amb (rng_pos amb)) HL) as [Hw0 Hw1].
  pose proof (exact_bound video_length HL) as [HL0 HL1].
  change (rng_pos (next_tick amb)) with (rng_pos amb).
  change (rng (next_tick amb)) with (rng amb).
  assert (Hwatch :
    float_round (inject_Z video_length + - uniform_2_8 (rng amb (rng_pos amb))) =
    Finite (watch_time video_length (rng amb (rng_pos amb)))).
  { pose proof (uniform_2_8_range (rng amb (rng_pos amb))) as [Hu0 Hu1].
    rewrite (float_round_finite (- 2 ^ 52) (2 ^ 52));
      [reflexivity|reflexivity|reflexivity|..].
    - assert (H51 : (inject_Z (- 2 ^ 52) == inject_Z (- 2 ^ 51) + inject_Z (- 2 ^ 51))%Q)
        by reflexivity.
      assert (H8 : (inject_Z (- 2 ^ 51) <= - 8)%Q) by (by vm_compute). lra.
    - assert (H51 : (inject_Z (2 ^ 52) == inject_Z (2 ^ 51) + inject_Z (2 ^ 51))%Q)
        by reflexivity.
      assert (H8 : (0 <= inject_Z (2 ^ 51))%Q) by (by vm_compute). lra. }
  rewrite Hwatch. rewrite eff_bind_run, eff_ret_run.
  rewrite (float_round_finite (- 2 ^ 52) (2 ^ 52)) by (done || reflexivity).
  rewrite eff_bind_run, eff_ret_run. rewrite eff_ret_run.
  reflexivity.
Qed.

Lemma after_videos_zero (amb : Ambient) : after_videos 0 amb = amb.
Proof. destruct amb. unfold after_videos. simpl. by rewrite !Nat.add_0_r. Qed.

Lemma after_videos_succ (n : nat) (amb : Ambient) :
  after_videos n (next_draw (next_tick amb)) = after_videos (S n) amb.
Proof. unfold after_videos. simpl. f_equal; lia. Qed.

Lemma imap_shift {A B} (F : nat → nat → A → B) (a b : nat) (x : A) (l : list A) :
  imap (λ i x, F (a + i)%nat (b + i)%nat x) (x :: l) =
  F a b x :: imap (λ i x, F (S a + i)%nat (S b + i)%nat x) l.
Proof.
  rewrite imap_cons, !Nat.add_0_r. apply (f_equal (cons (F a b x))).
  apply imap_ext. intros i y _. unfold compose. by rewrite !Nat.add_succ_r.
Qed.

Lemma video_records_cons (amb : Ambient) (video : Z * Z) (videos : list (Z * Z)) :
  video_records amb (video :: videos) =
  video_record video (clock amb (clock_pos amb)) (rng amb (rng_pos amb))
  :: video_records (next_draw (next_tick amb)) videos.
Proof.
  exact (imap_shift (λ i j video, video_record video (clock amb i) (rng amb j))
           (clock_pos amb) (rng_pos amb) video videos).
Qed.

Lemma videos_of_video (video_id video_length : Z) (es : list Element) :
  videos_of (ElementVideo video_id video_length :: es) =
  (video_id, video_length) :: videos_of es.
Proof. reflexivity. Qed.

Lemma fold_each_build_video (es : list Element) (acc : Z * list VideoDTO.t)
    (amb : Ambient) (lg : list LogLine) :
  Forall (λ video, Z.abs video.2 ≤ 2 ^ 51) (videos_of es) →
  (∀ i, (0 <= clock amb i)%Q ∧ (clock amb i <= inject_Z (2 ^ 51))%Q) →
  ∃ lg',
    fold_each es acc build_video (amb, lg) =
      (inr (acc.1 + foldr Z.add 0 (snd <$> videos_of es),
            acc.2 ++ video_records amb (videos_of es)),
       (after_videos (length (videos_of es)) amb, lg')).
Proof.
  revert acc amb lg. induction es as [|element es IH]; intros acc amb lg Hlen Hclock.
  - exists lg. simpl. rewrite eff_ret_run, Z.add_0_r, after_videos_zero.
    unfold video_records. simpl. rewrite app_nil_r. by destruct acc.
  - rewrite fold_each_cons.
    destruct element as [c|d|video_id video_length|qs];
      try (simpl build_video; rewrite eff_ret_run; by apply IH).
    rewrite videos_of_video in Hlen. apply Forall_cons in Hlen as [HL Hlen].
    rewrite build_video_run by (done || apply Hclock).
    match goal with |- context [fold_each es ?acc' build_video (?amb1, ?lg1)] =>
      destruct (IH acc' amb1 lg1 Hlen Hclock) as (lg' & Hrun)
    end.
    exists lg'. rewrite Hrun, videos_of_video, video_records_cons.
    rewrite fmap_cons. cbn [foldr length fst snd].
    by rewrite after_videos_succ, <- app_assoc, Z.add_assoc.
Qed.

Lemma py_int_nonneg (x : Q) : (0 <= x)%Q → py_int x = Qfloor x.
Proof.
  intros Hx. unfold py_int. by rewrite (proj2 (Qle_bool_iff 0 x)).
Qed.

Lemma py_int_range (x : Q) :
  (x - 1 < inject_Z (py_int x))%Q ∧ (inject_Z (py_int x) < x + 1)%Q.
Proof.
  pose proof (Qfloor_le x). pose proof (Qlt_floor x) as Hf.
  pose proof (Qle_ceiling x). pose proof (Qceiling_lt x) as Hc.
  rewrite inject_Z_plus in Hf. unfold Z.sub in Hc. rewrite inject_Z_plus, inject_Z_opp in Hc.
  change (inject_Z 1) with 1%Q in *.
  unfold py_int. destruct (Qle_bool 0 x); split; lra.
Qed.

(** The span of the timestamps of a video record against its watch time. *)
Lemma timestamp_span (L k : Z) (c : Q) :
  Z.abs L ≤ 2 ^ 51 → (0 <= c)%Q → (c <= inject_Z (2 ^ 51))%Q →
  let now := binary64 c in
  let w := watch_time L k in
  let span := py_int (binary64 (now + w)) - py_int now in
  (w - (3 # 2) < inject_Z span)%Q ∧ (inject_Z span < w + (5 # 2))%Q ∧
  ((0 <= now + w)%Q → (inject_Z span < w + (3 # 2))%Q).
Proof.
  intros HL Hlo Hhi now w span.
  destruct (clock_reading_range c Hlo Hhi) as [Hnow0 Hnow1]. fold now in Hnow0, Hnow1.
  destruct (end_time_range L k now HL Hnow0 Hnow1) as [Hend0 Hend1]. fold w in Hend0, Hend1.
  assert (Hp : (Qabs (now + w) < 2 ^ 53)%Q).
  { rewrite (pow2_inject 53) by lia.
    assert (H52 : (inject_Z (2 ^ 52) < inject_Z (2 ^ 53))%Q) by (by vm_compute).
    rewrite inject_Z_opp in Hend0. apply Qabs_case; intros; lra. }
  destruct (binary64_error (now + w) 53 Hp ltac:(lia)) as [He0 He1].
  assert (Hhalf : (2 ^ (53 - 54) == 1 # 2)%Q) by reflexivity.
  rewrite Hhalf in He0, He1.
  pose proof (py_int_range (binary64 (now + w))) as [Hs0 Hs1].
  pose proof (Qfloor_le now) as Hf0. pose proof (Qlt_floor now) as Hf1.
  rewrite inject_Z_plus in Hf1. change (inject_Z 1) with 1%Q in Hf1.
  subst span. rewrite (py_int_nonneg now Hnow0).
  unfold Z.sub. rewrite inject_Z_plus, inject_Z_opp.
  split; [lra|]. split; [lra|].
  intros Hsum.
  destruct (binary64_between 0 (2 ^ 52) (now + w)) as [Hb0 _];
    [reflexivity|reflexivity|done|done|].
  rewrite (py_int_nonneg _ Hb0).
  pose proof (Qfloor_le (binary64 (now + w))). lra.
Qed.

(** The claim C4 as it is written fails for the timestamps: both are
    truncated separately.  With the clock at 1000.75 and a watch time of
    597.25 for a video of length 600, the span is 1598 - 1000 = 598 while
    [round(597.25)] is 597. *)
Lemma video_span_not_rounded :
  ∃ dto v span w,
    build_page default_study_time false 1 sample_video_page
      (sample_ambient (2 ^ 50) (4003 # 4), []) = (inr (Some dto), w) ∧
    PageStudyRecordDTO.videos dto = [v] ∧
    VideoDTO.startEndTimeList v = [span] ∧
    VideoDTO.current v = Finite (2389 # 4) ∧
    StartEndTime.endTime span - StartEndTime.startTime span = 598 ∧
    py_round (2389 # 4) = 597.
Proof.
  eexists _, _, _, _. split; [vm_compute; reflexivity|].
  split; [reflexivity|]. split; [reflexivity|].
  split; [|split]; vm_compute; reflexivity.
Qed.

(** The sum of the clock reading and the watch time is rounded to a float
    before it is truncated.  With the clock at [2^31 - 2^-22] and a watch
    time of exactly 100 for a video of length 102, the exact sum lies half
    way between two floats and is rounded up to [2^31 + 100]: the span is
    101, a full second more than the watch time. *)
Example video_span_float_rounding :
  let c := (inject_Z (2 ^ 31) - 2 ^ (-22))%Q in
  binary64 c = Qred c ∧
  watch_time 102 0 = 100%Q ∧
  py_int (c + 100) = 2 ^ 31 + 99 ∧
  VideoDTO.startEndTimeList (video_record (71, 102) c 0) =
    [{| StartEndTime.startTime := 2 ^ 31 - 1; StartEndTime.endTime := 2 ^ 31 + 100 |}].
Proof. repeat split; vm_compute; reflexivity. Qed.

(** A video length beyond [2^53] is not always a float: for a length of
    [2^60 + 1] the float is [2^60] and so is the watch time, which is above
    [L - 2]. *)
Example watch_time_long_video :
  watch_time (2 ^ 60 + 1) 0 = inject_Z (2 ^ 60) ∧
  ¬ (watch_time (2 ^ 60 + 1) 0 <= inject_Z (2 ^ 60 + 1) - 2)%Q.
Proof. split; [vm_compute; reflexivity|]. vm_compute. intros H. by apply H. Qed.

(** A video length that no float holds: the subtraction raises
    [OverflowError] and the request is not built. *)
Example build_video_overflow :
  let page := {| page_id := 1; page_relation_id := 501; page_name := "video";
                 page_content_type := 6; is_complete := false;
                 elements := [ElementVideo 71 (2 ^ 1024)] |} in
  let section := {| section_id := 1000; section_name := "s"; pages := {[ 1 := page ]} |} in
  (∃ w, build_page default_study_time false 1 page (sample_ambient 0 0, []) =
          (inl OverflowError, w)) ∧
  (build_sync_study_record_request [1] 1700000000 section sample_user default_study_time
     false (sample_ambient 0 0, [])).1 = inr None.
Proof. split; [eexists|]; vm_compute; reflexivity. Qed.

(** C4 (amended).  On the second pass a page of content type 6 whose video
    lengths are at most [2^51] in magnitude, built while the clock reads
    between 0 and [2^51] seconds, gets score 100, a [studyTime] that is the
    sum of the [video_length] of its videos, and one video record per video,
    in order; the [i]-th video takes the [i]-th clock reading and the
    [i]-th draw from where the page starts.  The record of a video of length
    [L] has [time = L] and [current = recordTime = w] for the watch time
    [w], the float [L - uniform(2, 8)], with [L - 8 <= w <= L - 2].  Its
    timestamps are [int(now)] and [int(now + w)] for the float [now] that
    the clock returns, the sum being rounded to a float: the span
    [endTime - startTime] is more than [w - 3/2] and less than [w + 5/2],
    and less than [w + 3/2] when [now + w] is not negative.  It is not
    always [round(w)]. *)
Theorem video_page_report
    (cfg : StudyTime.t) (pid : Z) (p : CoursewarePage) (amb : Ambient) (lg : list LogLine) :
  page_content_type p = 6 →
  Forall (λ video, Z.abs video.2 ≤ 2 ^ 51) (videos_of (elements p)) →
  (∀ i, (0 <= clock amb i)%Q ∧ (clock amb i <= inject_Z (2 ^ 51))%Q) →
  ∃ dto lg',
    build_page cfg false pid p (amb, lg) =
      (inr (Some dto), (after_videos (length (videos_of (elements p))) amb, lg')) ∧
    PageStudyRecordDTO.score dto = 100 ∧
    PageStudyRecordDTO.studyTime dto = foldr Z.add 0 (snd <$> videos_of (elements p)) ∧
    PageStudyRecordDTO.videos dto = video_records amb (videos_of (elements p)) ∧
    (∀ video c k,
       Z.abs video.2 ≤ 2 ^ 51 → (0 <= c)%Q → (c <= inject_Z (2 ^ 51))%Q →
       let now := binary64 c in
       let w := watch_time video.2 k in
       let span := py_int (binary64 (now + w)) - py_int now in
       (inject_Z video.2 - 8 <= w)%Q ∧ (w <= inject_Z video.2 - 2)%Q ∧
       VideoDTO.videoid (video_record video c k) = video.1 ∧
       VideoDTO.time (video_record video c k) = Finite (inject_Z video.2) ∧
       VideoDTO.current (video_record video c k) = Finite w ∧
       VideoDTO.recordTime (video_record video c k) = Finite w ∧
       VideoDTO.startEndTimeList (video_record video c k) =
         [{| StartEndTime.startTime := py_int now;
             StartEndTime.endTime := py_int (binary64 (now + w)) |}] ∧
       (w - (3 # 2) < inject_Z span)%Q ∧ (inject_Z span < w + (5 # 2))%Q ∧
       ((0 <= now + w)%Q → (inject_Z span < w + (3 # 2))%Q)).
Proof.
  intros Hct Hlen Hclock.
  destruct (fold_each_build_video (elements p) (0, []) amb
              (lg ++ [{| level := INFO; text := "[page] processing"; args := [pid] |}])
              Hlen Hclock) as (lg' & Hrun).
  eexists _, lg'. split.
  { unfold build_page. rewrite eff_bind_run; simpl. rewrite eff_bind_run.
    unfold simulate_page. rewrite Hct; simpl.
    rewrite eff_bind_run, Hrun. reflexivity. }
  simpl. split; [done|]. split; [done|]. split; [done|].
  intros video c k HL Hlo Hhi.
  destruct (watch_time_range video.2 k HL) as [Hw0 Hw1].
  destruct (timestamp_span video.2 k c HL Hlo Hhi) as (Hs0 & Hs1 & Hs2).
  cbv zeta. repeat split; assumption.
Qed.

Lemma video_page_report_witness :
  page_content_type sample_video_page = 6 ∧
  Forall (λ video, Z.abs video.2 ≤ 2 ^ 51) (videos_of (elements sample_video_page)) ∧
  (∀ i, (0 <= clock (sample_ambient (2 ^ 50) (4003 # 4)) i)%Q ∧
        (clock (sample_ambient (2 ^ 50) (4003 # 4)) i <= inject_Z (2 ^ 51))%Q) ∧
  ∃ dto lg',
    build_page default_study_time false 1 sample_video_page
      (sample_ambient (2 ^ 50) (4003 # 4), []) =
      (inr (Some dto), (after_videos 1 (sample_ambient (2 ^ 50) (4003 # 4)), lg')) ∧
    PageStudyRecordDTO.score dto = 100 ∧
    PageStudyRecordDTO.studyTime dto = 600 ∧
    PageStudyRecordDTO.videos dto = [video_record (71, 600) (4003 # 4) (2 ^ 50)].
Proof.
  assert (Hlen : Forall (λ video : Z * Z, Z.abs video.2 ≤ 2 ^ 51)
                   (videos_of (elements sample_video_page))).
  { repeat constructor. simpl. lia. }
  assert (Hclock : ∀ i : nat,
            (0 <= clock (sample_ambient (2 ^ 50) (4003 # 4)) i)%Q ∧
            (clock (sample_ambient (2 ^ 50) (4003 # 4)) i <= inject_Z (2 ^ 51))%Q).
  { intros i. split; vm_compute; discriminate. }
  split; [reflexivity|]. split; [exact Hlen|]. split; [exact Hclock|].
  destruct (video_page_report default_study_time 1 sample_video_page
              (sample_ambient (2 ^ 50) (4003 # 4)) [] eq_refl Hlen Hclock)
    as (dto & lg' & Hrun & Hscore & Htime & Hvideos & _).
  exists dto, lg'. split; [exact Hrun|]. split; [exact Hscore|].
  split; [exact Htime|exact Hvideos].
Defined.

(** ** From the page loop to the request

    For a section with a single page, the request holds exactly the record
    that the body of the page loop builds for it. *)
Lemma build_sync_study_record_request_single (page_keys : list Z)
    (study_start_time : Z) (section_info : CoursewareSection)
    (user_info : CourseAPIUserInfoAPIResponse.t) (cfg : StudyTime.t) (is_first : bool)
    (pid : Z) (p : CoursewarePage) (dto : PageStudyRecordDTO.t)
    (amb amb' : Ambient) (lg lg' : list LogLine) :
  pages section_info = {[ pid := p ]} →
  build_page cfg is_first pid p
    (amb, lg ++ [{| level := DEBUG;
                    text := "[MANAGER][DATA] build sync study record request";
                    args := [] |}]) = (inr (Some dto), (amb', lg')) →
  build_sync_study_record_request page_keys study_start_time section_info user_info cfg
    is_first (amb, lg) =
  (inr (Some
     {| SyncStudyRecordAPIRequest.itemid := section_id section_info;
        SyncStudyRecordAPIRequest.autoSave := 1;
        SyncStudyRecordAPIRequest.complete := 1;
        SyncStudyRecordAPIRequest.studyStartTime := study_start_time;
        SyncStudyRecordAPIRequest.userName := CourseAPIUserInfoAPIResponse.name user_info;
        SyncStudyRecordAPIRequest.score := 100;
        SyncStudyRecordAPIRequest.pageStudyRecordDTOList := [dto] |}),
   (amb', lg')).
Proof.
  intros Hpages Hpage. unfold build_sync_study_record_request.
  rewrite eff_bind_run; simpl. unfold try_except.
  rewrite eff_bind_run, Hpages, dict_items_singleton, fold_each_cons.
  rewrite eff_bind_run; simpl. rewrite Hpage. reflexivity.
Qed.

(** ** The retry loop of the HTTP client *)

Example get_dead_net :
  ∃ lg, get "u" 0 true (dead_net, []) =
        (inr None,
         ({| transport := transport dead_net; sent := 4;
             wire := [Sent GET "u" true; Slept (1 # 2); Sent GET "u" false; Slept (1 # 2);
                      Sent GET "u" false; Slept (1 # 2); Sent GET "u" false] |}, lg)).
Proof. eexists. vm_compute. reflexivity. Qed.


Lemma get_retry (url : string) (retry : Z) (fr : bool) (net : Net) (lg : list LogLine) :
  transport net (sent net) = TransportError →
  retry < 3 →
  get url retry fr (net, lg) =
  get url (retry + 1) false
    ({| transport := transport net; sent := S (sent net);
        wire := (wire net ++ [Sent GET url fr]) ++ [Slept (1 # 2)] |},
     ((lg ++ [{| level := DEBUG; text := "[HTTP][GET]"; args := [] |}])
         ++ [{| level := ERROR; text := "[HTTP][GET] network error"; args := [] |}])
         ++ [{| level := INFO; text := "[HTTP][GET] retrying"; args := [] |}]).
Proof.
  intros Hfail Hretry. rewrite (get_equation_1 url retry fr).
  rewrite eff_bind_run; simpl. rewrite eff_bind_run; simpl. rewrite Hfail.
  rewrite eff_bind_run; simpl.
  destruct (decide (retry >= 3)) as [?|_]; [lia|].
  rewrite eff_bind_run; simpl. rewrite eff_bind_run; simpl. reflexivity.
Qed.

Lemma get_give_up (url : string) (retry : Z) (fr : bool) (net : Net) (lg : list LogLine) :
  transport net (sent net) = TransportError →
  3 ≤ retry →
  get url retry fr (net, lg) =
  (inr None,
   ({| transport := transport net; sent := S (sent net);
       wire := wire net ++ [Sent GET url fr] |},
    ((lg ++ [{| level := DEBUG; text := "[HTTP][GET]"; args := [] |}])
        ++ [{| level := ERROR; text := "[HTTP][GET] network error"; args := [] |}])
        ++ [{| level := ERROR; text := "[HTTP][GET] too many retries"; args := [] |}])).
Proof.
  intros Hfail Hretry. rewrite (get_equation_1 url retry fr).
  rewrite eff_bind_run; simpl. rewrite eff_bind_run; simpl. rewrite Hfail.
  rewrite eff_bind_run; simpl.
  destruct (decide (retry >= 3)) as [_|?]; [|lia].
  rewrite eff_bind_run; simpl. reflexivity.
Qed.

Lemma attempts_from_retry (retry : Z) :
  retry < 3 → attempts_from retry = S (attempts_from (retry + 1)).
Proof. unfold attempts_from. lia. Qed.

Lemma attempts_from_give_up (retry : Z) : 3 ≤ retry → attempts_from retry = 1%nat.
Proof. unfold attempts_from. lia. Qed.

Lemma get_exhausts (url : string) (retry : Z) (fr : bool) (net : Net) (lg : list LogLine) :
  (∀ i, (i < attempts_from retry)%nat → transport net (sent net + i) = TransportError) →
  ∃ lg',
    get url retry fr (net, lg) =
    (inr None,
     ({| transport := transport net; sent := sent net + attempts_from retry;
         wire := wire net ++ Sent GET url fr :: retried GET url (attempts_from retry - 1) |},
      lg')).
Proof.
  remember (Z.to_nat (3 - retry)) as n eqn:Hn.
  revert retry fr net lg Hn. induction n as [|n IH]; intros retry fr net lg Hn Hfail.
  - assert (Hretry : 3 ≤ retry) by lia.
    rewrite (attempts_from_give_up retry Hretry) in *.
    eexists. rewrite get_give_up; [|by rewrite <- (Hfail 0%nat), Nat.add_0_r by lia|done].
    simpl. by rewrite Nat.add_1_r.
  - assert (Hretry : retry < 3) by lia.
    rewrite (attempts_from_retry retry Hretry) in *.
    rewrite get_retry; [|by rewrite <- (Hfail 0%nat), Nat.add_0_r by lia|done].
    destruct (IH (retry + 1) false
      {| transport := transport net; sent := S (sent net);
         wire := (wire net ++ [Sent GET url fr]) ++ [Slept (1 # 2)] |}
      (((lg ++ [{| level := DEBUG; text := "[HTTP][GET]"; args := [] |}])
          ++ [{| level := ERROR; text := "[HTTP][GET] network error"; args := [] |}])
          ++ [{| level := INFO; text := "[HTTP][GET] retrying"; args := [] |}]))
      as [lg' Hrun]; [lia| |].
    { simpl. intros i Hi. rewrite <- (Hfail (S i)) by lia. f_equal. lia. }
    exists lg'. rewrite Hrun. simpl. do 3 f_equal.
    + lia.
    + rewrite Nat.sub_0_r. destruct (attempts_from (retry + 1)) as [|k] eqn:Hk.
      { unfold attempts_from in Hk. lia. }
      unfold retried; simpl. rewrite Nat.sub_0_r.
      by rewrite <- !app_assoc.
Qed.

Lemma get_returns (url : string) (retry : Z) (fr : bool) (w : Net * list LogLine) :
  ∃ o w', get url retry fr w = (inr o, w').
Proof.
  remember (Z.to_nat (3 - retry)) as n eqn:Hn.
  revert retry fr w Hn. induction n as [|n IH]; intros retry fr w Hn;
    rewrite get_equation_1;
    rewrite eff_bind_run; simpl; rewrite eff_bind_run; simpl;
    destruct (transport w.1 (sent w.1)); try (by eexists _, _);
    rewrite eff_bind_run; simpl;
    (destruct (decide (retry >= 3)) as [?|?]; [by eexists _, _|]).
  - lia.
  - rewrite eff_bind_run; simpl. rewrite eff_bind_run; simpl. apply IH. lia.
Qed.

Lemma post_retry (url : string) (retry : Z) (fr : bool) (net : Net) (lg : list LogLine) :
  transport net (sent net) = TransportError →
  retry < 3 →
  post url retry fr (net, lg) =
  post url (retry + 1) false
    ({| transport := transport net; sent := S (sent net);
        wire := (wire net ++ [Sent POST url fr]) ++ [Slept (1 # 2)] |},
     ((lg ++ [{| level := DEBUG; text := "[HTTP][POST]"; args := [] |}])
         ++ [{| level := ERROR; text := "[HTTP][POST] network error"; args := [] |}])
         ++ [{| level := INFO; text := "[HTTP][POST] retrying"; args := [] |}]).
Proof.
  intros Hfail Hretry. rewrite (post_equation_1 url retry fr).
  rewrite eff_bind_run; simpl. rewrite eff_bind_run; simpl. rewrite Hfail.
  rewrite eff_bind_run; simpl.
  destruct (decide (retry >= 3)) as [?|_]; [lia|].
  rewrite eff_bind_run; simpl. rewrite eff_bind_run; simpl. reflexivity.
Qed.

Lemma post_give_up (url : string) (retry : Z) (fr : bool) (net : Net) (lg : list LogLine) :
  transport net (sent net) = TransportError →
  3 ≤ retry →
  post url retry fr (net, lg) =
  (inr None,
   ({| transport := transport net; sent := S (sent net);
       wire := wire net ++ [Sent POST url fr] |},
    ((lg ++ [{| level := DEBUG; text := "[HTTP][POST]"; args := [] |}])
        ++ [{| level := ERROR; text := "[HTTP][POST] network error"; args := [] |}])
        ++ [{| level := ERROR; text := "[HTTP][POST] too many retries"; args := [] |}])).
Proof.
  intros Hfail Hretry. rewrite (post_equation_1 url retry fr).
  rewrite eff_bind_run; simpl. rewrite eff_bind_run; simpl. rewrite Hfail.
  rewrite eff_bind_run; simpl.
  destruct (decide (retry >= 3)) as [_|?]; [|lia].
  rewrite eff_bind_run; simpl. reflexivity.
Qed.


Lemma post_exhausts (url : string) (retry : Z) (fr : bool) (net : Net) (lg : list LogLine) :
  (∀ i, (i < attempts_from retry)%nat → transport net (sent net + i) = TransportError) →
  ∃ lg',
    post url retry fr (net, lg) =
    (inr None,
     ({| transport := transport net; sent := sent net + attempts_from retry;
         wire := wire net ++ Sent POST url fr :: retried POST url (attempts_from retry - 1) |},
      lg')).
Proof.
  remember (Z.to_nat (3 - retry)) as n eqn:Hn.
  revert retry fr net lg Hn. induction n as [|n IH]; intros retry fr net lg Hn Hfail.
  - assert (Hretry : 3 ≤ retry) by lia.
    rewrite (attempts_from_give_up retry Hretry) in *.
    eexists. rewrite post_give_up; [|by rewrite <- (Hfail 0%nat), Nat.add_0_r by lia|done].
    simpl. by rewrite Nat.add_1_r.
  - assert (Hretry : retry < 3) by lia.
    rewrite (attempts_from_retry retry Hretry) in *.
    rewrite post_retry; [|by rewrite <- (Hfail 0%nat), Nat.add_0_r by lia|done].
    destruct (IH (retry + 1) false
      {| transport := transport net; sent := S (sent net);
         wire := (wire net ++ [Sent POST url fr]) ++ [Slept (1 # 2)] |}
      (((lg ++ [{| level := DEBUG; text := "[HTTP][POST]"; args := [] |}])
          ++ [{| level := ERROR; text := "[HTTP][POST] network error"; args := [] |}])
          ++ [{| level := INFO; text := "[HTTP][POST] retrying"; args := [] |}]))
      as [lg' Hrun]; [lia| |].
    { simpl. intros i Hi. rewrite <- (Hfail (S i)) by lia. f_equal. lia. }
    exists lg'. rewrite Hrun. simpl. do 3 f_equal.
    + lia.
    + rewrite Nat.sub_0_r. destruct (attempts_from (retry + 1)) as [|k] eqn:Hk.
      { unfold attempts_from in Hk. lia. }
      unfold retried; simpl. rewrite Nat.sub_0_r.
      by rewrite <- !app_assoc.
Qed.

Lemma post_returns (url : string) (retry : Z) (fr : bool) (w : Net * list LogLine) :
  ∃ o w', post url retry fr w = (inr o, w').
Proof.
  remember (Z.to_nat (3 - retry)) as n eqn:Hn.
  revert retry fr w Hn. induction n as [|n IH]; intros retry fr w Hn;
    rewrite post_equation_1;
    rewrite eff_bind_run; simpl; rewrite eff_bind_run; simpl;
    destruct (transport w.1 (sent w.1)); try (by eexists _, _);
    rewrite eff_bind_run; simpl;
    (destruct (decide (retry >= 3)) as [?|?]; [by eexists _, _|]).
  - lia.
  - rewrite eff_bind_run; simpl. rewrite eff_bind_run; simpl. apply IH. lia.
Qed.

(** The claim C2 as it is written fails for a call that is not started with
    [retry = 0].  Started with [retry = 2], as the version check does, a call
    on a dead network gives up after one retry, two requests in all.
    Started with [retry = -1], a call whose first four requests fail in a row
    retries a fourth time and returns the answer to its fifth request. *)
Lemma get_started_at_other_retry :
  (∀ i, transport dead_net i = TransportError) ∧
  (∃ lg, get "proxy" 2 false (dead_net, []) =
         (inr None,
          ({| transport := transport dead_net; sent := 2;
              wire := [Sent GET "proxy" false; Slept (1 # 2); Sent GET "proxy" false] |},
           lg))) ∧
  (∀ i, (i < 4)%nat → transport flaky_net i = TransportError) ∧
  (∃ w, get "u" (-1) false (flaky_net, []) =
        (inr (Some {| status_code := 200; body := "ok" |}), w) ∧
        sent w.1 = 5%nat).
Proof.
  split; [done|]. split; [eexists; vm_compute; reflexivity|]. split.
  - intros i Hi. unfold flaky_net; simpl. by rewrite (proj2 (Nat.ltb_lt i 4)).
  - eexists. split; vm_compute; reflexivity.
Qed.

(** C2 (amended).  [get] and [post] never raise: they return a response or
    [None].  A call started with [retry = r] whose requests all fail at the
    transport level sends [max(1, 4 - r)] requests, sleeps 0.5 s before each
    one after the first, and returns [None]; with the default [retry = 0]
    this is 4 requests, 3 retries. *)
Theorem http_retry_exhaustion :
  (∀ url retry fr net lg,
     (∀ i, (i < attempts_from retry)%nat → transport net (sent net + i) = TransportError) →
     ∃ lg',
       get url retry fr (net, lg) =
       (inr None,
        ({| transport := transport net; sent := sent net + attempts_from retry;
            wire := wire net ++ Sent GET url fr :: retried GET url (attempts_from retry - 1) |},
         lg'))) ∧
  (∀ url retry fr net lg,
     (∀ i, (i < attempts_from retry)%nat → transport net (sent net + i) = TransportError) →
     ∃ lg',
       post url retry fr (net, lg) =
       (inr None,
        ({| transport := transport net; sent := sent net + attempts_from retry;
            wire := wire net ++ Sent POST url fr :: retried POST url (attempts_from retry - 1) |},
         lg'))) ∧
  attempts_from 0 = 4%nat ∧
  (∀ method url,
     retried method url (attempts_from 0 - 1) =
     [Slept (1 # 2); Sent method url false; Slept (1 # 2); Sent method url false;
      Slept (1 # 2); Sent method url false]) ∧
  (∀ url retry fr w, ∃ o w', get url retry fr w = (inr o, w')) ∧
  (∀ url retry fr w, ∃ o w', post url retry fr w = (inr o, w')).
Proof.
  split; [exact get_exhausts|]. split; [exact post_exhausts|].
  split; [reflexivity|]. split; [reflexivity|].
  split; [exact get_returns|exact post_returns].
Qed.

Lemma http_retry_exhaustion_witness :
  (∀ i, (i < attempts_from 0)%nat → transport dead_net (sent dead_net + i) = TransportError) ∧
  ∃ lg',
    post "sync" 0 true (dead_net, []) =
    (inr None,
     ({| transport := transport dead_net; sent := sent dead_net + attempts_from 0;
         wire := wire dead_net ++ Sent POST "sync" true
                   :: retried POST "sync" (attempts_from 0 - 1) |}, lg')).
Proof.
  split; [done|].
  apply (proj1 (proj2 http_retry_exhaustion) "sync" 0 true dead_net []). done.
Defined.

(** ** The report loop of the orchestrator *)

Lemma build_sync_study_record_request_returns (page_keys : list Z)
    (study_start_time : Z) (section_info : CoursewareSection)
    (user_info : CourseAPIUserInfoAPIResponse.t) (cfg : StudyTime.t) (is_first : bool)
    (w : Ambient * list LogLine) :
  ∃ o w', build_sync_study_record_request page_keys study_start_time section_info user_info
            cfg is_first w = (inr o, w').
Proof.
  unfold build_sync_study_record_request. rewrite eff_bind_run; simpl.
  apply try_except_returns. intros e w'. by eexists _, _.
Qed.



Lemma lift_ambient_run {A} (m : Eff Ambient A) (world : World) (lg : list LogLine) :
  lift_ambient m (world, lg) =
  ((m (ambient world, lg)).1,
   ({| ambient := (m (ambient world, lg)).2.1;
       initialize_results := initialize_results world;
       sync_results := sync_results world; sync_calls := sync_calls world;
       watch_results := watch_results world; events := events world |},
    (m (ambient world, lg)).2.2)).
Proof. reflexivity. Qed.


Lemma rejected_reports_cons (req : SyncStudyRecordAPIRequest.t)
    (reqs : list SyncStudyRecordAPIRequest.t) :
  reqs ≠ [] →
  rejected_reports (req :: reqs) = Synced req :: Paused 1 :: rejected_reports reqs.
Proof. by destruct reqs. Qed.






(** What the report loop puts on record, in full: reports with a pause of
    one second after each rejected one.  The loop ends on a report, or on
    the pause that follows a rejected report when the next request fails to
    build, or at once when the first request fails to build. *)
Lemma submit_loop_shape (page_keys : list Z) (config : Config) (study_start_time : Z)
    (section_info : CoursewareSection) (user_info : CourseAPIUserInfoAPIResponse.t)
    (is_first : bool) (retry : Z) (world : World) (lg : list LogLine) :
  ∃ reqs tail world' lg',
    submit_loop page_keys config study_start_time section_info user_info is_first retry
      (world, lg) = (inr (), (world', lg')) ∧
    events world' = events world ++ rejected_reports reqs ++ tail ∧
    (tail = [] ∨ tail = [Paused 1] ∧ reqs ≠ [] ∧
                 sync_results world (sync_calls world + (length reqs - 1)) = false) ∧
    (length reqs ≤ attempts_from retry)%nat ∧
    sync_calls world' = (sync_calls world + length reqs)%nat ∧
    sync_results world' = sync_results world ∧
    (∀ i, (S i < length reqs)%nat → sync_results world (sync_calls world + i) = false).
Proof.
  remember (Z.to_nat (3 - retry)) as n eqn:Hn.
  revert retry world lg Hn. induction n as [|n IH]; intros retry world lg Hn.
  all: rewrite submit_loop_equation_1; rewrite eff_bind_run, lift_ambient_run.
  all: destruct (build_sync_study_record_request_returns page_keys study_start_time
                section_info user_info (study_time config) is_first (ambient world, lg))
      as ([req|] & [amb' lg'] & ->); cbn [fst snd].
  all: try (exists [], []; eexists _, _; split; [reflexivity|]; simpl;
            rewrite app_nil_r, Nat.add_0_r;
            repeat split; [by left|lia|intros i Hi; lia]).
  all: rewrite eff_bind_run; simpl; rewrite eff_bind_run; simpl.
  all: destruct (decide (retry >= 3)) as [Hge|Hlt]; try lia.
  all: try (exists [req], []; eexists _, _; split; [reflexivity|]; simpl;
            repeat split; [by left|unfold attempts_from; lia|lia|intros i Hi; lia]).
  destruct (sync_results world (sync_calls world)) eqn:Hfirst; simpl.
  - exists [req], []; eexists _, _; split; [reflexivity|]; simpl.
    repeat split; [by left|unfold attempts_from; lia|lia|intros i Hi; lia].
  - rewrite eff_bind_run; simpl. rewrite eff_bind_run; simpl.
    match goal with |- context [submit_loop _ _ _ _ _ _ (retry + 1) (?w1, ?lg1)] =>
      destruct (IH (retry + 1) w1 lg1 ltac:(lia))
        as (reqs & tail & world' & lg'' & Hrun & Hev & Htail & Hlen & Hcalls & Hres & Hrej)
    end.
    simpl in Hev, Htail, Hcalls, Hres, Hrej.
    rewrite (attempts_from_retry retry) by lia.
    destruct reqs as [|req' reqs].
    + exists [req], [Paused 1], world', lg''.
      split; [exact Hrun|]. split.
      { rewrite Hev. destruct Htail as [->|(_ & Hne & _)]; [|done].
        simpl. by rewrite <- !app_assoc. }
      split. { right. split; [done|]. split; [done|]. simpl.
               by rewrite Nat.add_0_r. }
      simpl in *. split; [lia|]. split; [lia|]. split; [done|]. intros i Hi. lia.
    + exists (req :: req' :: reqs), tail, world', lg''.
      split; [exact Hrun|]. split.
      { rewrite Hev, (rejected_reports_cons req (req' :: reqs)) by done.
        by rewrite <- !app_assoc. }
      split.
      { destruct Htail as [->|(-> & _ & Hlast)]; [by left|right].
        split; [done|]. split; [done|]. rewrite <- Hlast. f_equal. simpl. lia. }
      simpl in *. split; [lia|]. split; [lia|]. split; [done|].
      intros [|i] Hi.
      * by rewrite Nat.add_0_r.
      * rewrite <- (Hrej i) by lia. f_equal. lia.
Qed.
(** ** Building the tree from the textbook directory *)

Lemma with_chapters_compose (tb : Z)
    (f g : gmap Z CoursewareChapter → gmap Z CoursewareChapter) (course : ModelCourse) :
  with_chapters tb f (with_chapters tb g course) = with_chapters tb (f ∘ g) course.
Proof.
  unfold with_chapters, set_textbooks; simpl. f_equal.
  rewrite alter_alter_eq. by apply alter_ext.
Qed.

Lemma with_chapters_ext (tb : Z)
    (f g : gmap Z CoursewareChapter → gmap Z CoursewareChapter) (course : ModelCourse) :
  (∀ cs, f cs = g cs) → with_chapters tb f course = with_chapters tb g course.
Proof.
  intros Hfg. unfold with_chapters, set_textbooks. f_equal.
  apply alter_ext. intros t _. by rewrite Hfg.
Qed.

Lemma with_sections_insert (tb ch : Z)
    (f : gmap Z CoursewareSection → gmap Z CoursewareSection)
    (c : CoursewareChapter) (course : ModelCourse) :
  with_sections tb ch f (with_chapters tb (<[ch := c]>) course) =
  with_chapters tb (<[ch := set_sections (f (sections c)) c]>) course.
Proof.
  unfold with_sections. rewrite with_chapters_compose. apply with_chapters_ext.
  intros cs; simpl. by rewrite alter_insert_eq.
Qed.

Lemma with_pages_insert (tb ch sec : Z)
    (f : gmap Z CoursewarePage → gmap Z CoursewarePage)
    (s : CoursewareSection) (c : CoursewareChapter) (course : ModelCourse) :
  with_pages tb ch sec f (with_chapters tb (<[ch := set_sections (<[sec := s]> (sections c)) c]>) course) =
  with_chapters tb
    (<[ch := set_sections (<[sec := set_pages (f (pages s)) s]> (sections c)) c]>) course.
Proof.
  change (with_pages tb ch sec f) with
    (with_sections tb ch (alter (λ s, set_pages (f (pages s)) s) sec)).
  rewrite with_sections_insert. simpl. by rewrite alter_insert_eq.
Qed.

Lemma with_chapters_id (tb : Z) (course : ModelCourse) :
  with_chapters tb (λ cs, cs) course = course.
Proof.
  destruct course; unfold with_chapters, set_textbooks; simpl. f_equal.
  apply map_eq. intros k. rewrite lookup_alter. case_decide; [subst|done].
  by destruct (_ !! k) as [[]|].
Qed.

Lemma add_pages_run (tb ch sec : Z) (page_infos : list CoursePage.t)
    (s : CoursewareSection) (c : CoursewareChapter) (course : ModelCourse)
    (lg : list LogLine) :
  for_each page_infos (add_page tb ch sec)
    (with_chapters tb (<[ch := set_sections (<[sec := s]> (sections c)) c]>) course, lg) =
  (inr (),
   (with_chapters tb
      (<[ch := set_sections
                 (<[sec := set_pages
                             (listing CoursePage.id (λ _, false) new_page
                                (pages s) page_infos) s]> (sections c)) c]>) course,
    lg)).
Proof.
  unfold add_page. rewrite for_each_modify. do 2 f_equal.
  revert s. induction page_infos as [|page_info page_infos IH]; intros s; simpl.
  - by destruct s.
  - rewrite with_pages_insert, IH. done.
Qed.

Lemma add_section_run (tb ch : Z) (section_info : Item.t) :
  ∃ lines, ∀ (c : CoursewareChapter) (course : ModelCourse) (lg : list LogLine),
    add_section tb ch section_info (with_chapters tb (<[ch := c]>) course, lg) =
    (inr (),
     (with_chapters tb
        (<[ch := set_sections
                   (if py_bool (Item.hide section_info) then sections c
                    else <[Item.itemid section_info := built_section section_info]>
                           (sections c)) c]>) course,
      lg ++ lines)).
Proof.
  unfold add_section. destruct (py_bool (Item.hide section_info)).
  - eexists. intros c course lg. unfold logger; simpl. by destruct c.
  - exists []. intros c course lg. rewrite eff_bind_run.
    unfold modify_state at 1; cbv beta iota. cbn [fst snd].
    rewrite with_sections_insert, add_pages_run, app_nil_r. done.
Qed.

Lemma add_sections_run (tb ch : Z) (section_infos : list Item.t) :
  ∃ lines, ∀ (c : CoursewareChapter) (course : ModelCourse) (lg : list LogLine),
    for_each section_infos (add_section tb ch) (with_chapters tb (<[ch := c]>) course, lg) =
    (inr (),
     (with_chapters tb
        (<[ch := set_sections
                   (listing Item.itemid (λ section_info, py_bool (Item.hide section_info))
                      built_section (sections c) section_infos) c]>) course,
      lg ++ lines)).
Proof.
  induction section_infos as [|section_info section_infos [lines IH]].
  - exists []. intros c course lg. rewrite app_nil_r. simpl. by destruct c.
  - destruct (add_section_run tb ch section_info) as [lines0 H0].
    exists (lines0 ++ lines). intros c course lg.
    cbn [for_each]. rewrite eff_bind_run, H0, IH, app_assoc. done.
Qed.

Lemma add_chapter_run (tb : Z) (chapter_info : Chapter.t) :
  ∃ lines, ∀ (course : ModelCourse) (lg : list LogLine),
    add_chapter tb chapter_info (course, lg) =
    (inr (),
     (with_chapters tb
        (λ cs, if py_bool (Chapter.hide chapter_info) then cs
               else <[Chapter.nodeid chapter_info := built_chapter chapter_info]> cs) course,
      lg ++ lines)).
Proof.
  unfold add_chapter. destruct (py_bool (Chapter.hide chapter_info)).
  - eexists. intros course lg. unfold logger; simpl. by rewrite with_chapters_id.
  - destruct (add_sections_run tb (Chapter.nodeid chapter_info) (Chapter.items chapter_info))
      as [lines H]. exists lines. intros course lg. rewrite eff_bind_run.
    unfold modify_state at 1; cbv beta iota. cbn [fst snd]. rewrite H.
    reflexivity.
Qed.

Lemma add_chapters_run (tb : Z) (chapter_infos : list Chapter.t) :
  ∃ lines, ∀ (course : ModelCourse) (lg : list LogLine),
    for_each chapter_infos (add_chapter tb) (course, lg) =
    (inr (), (with_chapters tb (built_chapters chapter_infos) course, lg ++ lines)).
Proof.
  induction chapter_infos as [|chapter_info chapter_infos [lines IH]].
  - exists []. intros course lg. rewrite app_nil_r. simpl. by rewrite with_chapters_id.
  - destruct (add_chapter_run tb chapter_info) as [lines0 H0].
    exists (lines0 ++ lines). intros course lg.
    cbn [for_each]. rewrite eff_bind_run, H0, IH, app_assoc, with_chapters_compose. done.
Qed.

Lemma parse_textbook_info_run (textbook_info : TextbookInfoAPIResponse.t) :
  ∃ lines, ∀ (course : ModelCourse) (lg : list LogLine),
    is_Some (textbooks course !! TextbookInfoAPIResponse.courseid textbook_info) →
    parse_textbook_info textbook_info (course, lg) =
    (inr true,
     (with_chapters (TextbookInfoAPIResponse.courseid textbook_info)
        (built_chapters (TextbookInfoAPIResponse.chapters textbook_info)) course,
      lg ++ lines)).
Proof.
  destruct (add_chapters_run (TextbookInfoAPIResponse.courseid textbook_info)
              (TextbookInfoAPIResponse.chapters textbook_info)) as [lines H].
  eexists. intros course lg [t Ht].
  unfold parse_textbook_info. rewrite eff_bind_run. unfold logger at 1. cbv beta iota.
  cbn [fst snd]. unfold try_except. rewrite eff_bind_run. unfold get_state at 1.
  cbv beta iota. cbn [fst snd]. rewrite eff_bind_run. unfold getitem. rewrite Ht.
  rewrite eff_ret_run. rewrite eff_bind_run, H. rewrite eff_bind_run.
  unfold logger. cbv beta iota. cbn [fst snd]. rewrite eff_ret_run.
  rewrite <- !app_assoc. reflexivity.
Qed.



(** A dictionary filled from a list, where hidden entries are passed over
    and a later entry replaces an earlier one with the same key. *)
Section listing.
Context {A B : Type} (key : A → Z) (hidden : A → bool) (build : A → B).

Lemma listing_cons (x : A) (l : list A) (m : gmap Z B) :
  listing key hidden build m (x :: l) =
  listing key hidden build (if hidden x then m else <[key x := build x]> m) l.
Proof. reflexivity. Qed.

Lemma listing_app (l1 l2 : list A) (m : gmap Z B) :
  listing key hidden build m (l1 ++ l2) =
  listing key hidden build (listing key hidden build m l1) l2.
Proof. apply foldl_app. Qed.

Lemma listing_lookup_cases (l : list A) (k : Z) :
  ((∀ x, x ∈ l → key x = k → hidden x = true) ∧
   ∀ m, listing key hidden build m l !! k = m !! k) ∨
  (∃ x, x ∈ l ∧ hidden x = false ∧ key x = k ∧
        ∀ m, listing key hidden build m l !! k = Some (build x)).
Proof.
  induction l as [|x l IH].
  { left. split; [by intros x ?%elem_of_nil|done]. }
  destruct IH as [[Hl IH]|(y & Hy & Hh & Hk & IH)].
  - destruct (hidden x) eqn:Hx.
    + left. split.
      * intros y [->|Hy]%elem_of_cons; [done|by apply Hl].
      * intros m. by rewrite listing_cons, Hx, IH.
    + destruct (decide (key x = k)) as [Hk|Hk].
      * right. exists x. split_and!; [left|done..|].
        intros m. by rewrite listing_cons, Hx, IH, <- Hk, lookup_insert_eq.
      * left. split.
        -- intros y [->|Hy]%elem_of_cons; [done|by apply Hl].
        -- intros m. by rewrite listing_cons, Hx, IH, lookup_insert_ne.
  - right. exists y. split_and!; [by right|done..|].
    intros m. rewrite listing_cons. apply IH.
Qed.

Lemma listing_kept (l : list A) (m : gmap Z B) (k : Z) :
  (∀ x, x ∈ l → key x = k → hidden x = true) →
  listing key hidden build m l !! k = m !! k.
Proof.
  intros Hl. destruct (listing_lookup_cases l k) as [[_ H]|(x & Hx & Hh & Hk & _)]; [done|].
  specialize (Hl x Hx Hk). congruence.
Qed.

Lemma listing_last (l1 l2 : list A) (x : A) (m : gmap Z B) :
  hidden x = false →
  (∀ y, y ∈ l2 → key y = key x → hidden y = true) →
  listing key hidden build m (l1 ++ x :: l2) !! key x = Some (build x).
Proof.
  intros Hx Hl2. rewrite listing_app, listing_cons, Hx, listing_kept by done.
  apply lookup_insert_eq.
Qed.

Lemma listing_inv (l : list A) (m : gmap Z B) (k : Z) (v : B) :
  listing key hidden build m l !! k = Some v →
  ((∀ x, x ∈ l → key x = k → hidden x = true) ∧ m !! k = Some v) ∨
  ∃ x, x ∈ l ∧ hidden x = false ∧ key x = k ∧ v = build x.
Proof.
  destruct (listing_lookup_cases l k) as [[Hl H]|(x & Hx & Hh & Hk & H)]; rewrite H.
  - by left.
  - intros [= <-]. right. by exists x.
Qed.

Lemma listing_idem (l : list A) (m : gmap Z B) :
  listing key hidden build (listing key hidden build m l) l =
  listing key hidden build m l.
Proof.
  apply map_eq. intros k.
  destruct (listing_lookup_cases l k) as [[_ H]|(x & _ & _ & _ & H)]; by rewrite !H.
Qed.
End listing.

Lemma lookup_with_chapters_eq (tb : Z)
    (f : gmap Z CoursewareChapter → gmap Z CoursewareChapter) (course : ModelCourse) :
  textbooks (with_chapters tb f course) !! tb =
  (λ t, set_chapters (f (chapters t)) t) <$> textbooks course !! tb.
Proof. unfold with_chapters; simpl. apply lookup_alter_eq. Qed.

Lemma lookup_with_chapters_ne (tb tb' : Z)
    (f : gmap Z CoursewareChapter → gmap Z CoursewareChapter) (course : ModelCourse) :
  tb ≠ tb' → textbooks (with_chapters tb f course) !! tb' = textbooks course !! tb'.
Proof. intros. unfold with_chapters; simpl. by apply lookup_alter_ne. Qed.

Lemma built_pages_inv (page_infos : list CoursePage.t) (pid : Z) (p : CoursewarePage) :
  built_pages page_infos !! pid = Some p →
  ∃ page_info, page_info ∈ page_infos ∧ CoursePage.id page_info = pid ∧
               p = new_page page_info.
Proof.
  intros H. apply listing_inv in H.
  destruct H as [[_ H]|(x & ? & _ & ? & ?)]; [by rewrite lookup_empty in H|eauto].
Qed.

Lemma built_sections_inv (section_infos : list Item.t) (sid : Z) (s : CoursewareSection) :
  built_sections section_infos !! sid = Some s →
  ∃ section_info, section_info ∈ section_infos ∧
                  py_bool (Item.hide section_info) = false ∧
                  Item.itemid section_info = sid ∧ s = built_section section_info.
Proof.
  intros H. apply listing_inv in H.
  destruct H as [[_ H]|(x & ? & ? & ? & ?)]; [by rewrite lookup_empty in H|eauto].
Qed.

(** X1.  [parse_textbook_info] for a textbook that the course configuration
    does not hold returns [False] and does not raise: the configuration is
    left exactly as it was, and the only log lines are the opening DEBUG line
    and one ERROR line. *)
Theorem parse_textbook_info_unknown_textbook (textbook_info : TextbookInfoAPIResponse.t)
    (course : ModelCourse) (lg : list LogLine) :
  textbooks course !! TextbookInfoAPIResponse.courseid textbook_info = None →
  parse_textbook_info textbook_info (course, lg) =
  (inr false,
   (course,
    lg ++ [ {| level := DEBUG; text := "[MANAGER][DATA] parse textbook info"; args := [] |};
            {| level := ERROR; text := "[MANAGER][DATA] error while parsing textbook info";
               args := [] |} ])).
Proof.
  intros Ht. unfold parse_textbook_info. rewrite eff_bind_run. unfold logger at 1.
  cbv beta iota. cbn [fst snd]. unfold try_except. rewrite eff_bind_run.
  unfold get_state at 1. cbv beta iota. cbn [fst snd]. rewrite eff_bind_run.
  unfold getitem. rewrite Ht. unfold raise. cbv beta iota.
  rewrite eff_bind_run. unfold logger. cbv beta iota. cbn [fst snd]. rewrite eff_ret_run.
  by rewrite <- app_assoc.
Qed.

Lemma parse_textbook_info_unknown_textbook_witness :
  parse_textbook_info sample_directory (set_textbooks ∅ sample_course, []) =
  (inr false,
   (set_textbooks ∅ sample_course,
    [ {| level := DEBUG; text := "[MANAGER][DATA] parse textbook info"; args := [] |};
      {| level := ERROR; text := "[MANAGER][DATA] error while parsing textbook info";
         args := [] |} ])).
Proof.
  apply (parse_textbook_info_unknown_textbook sample_directory
           (set_textbooks ∅ sample_course) []).
  reflexivity.
Defined.

(** X2.  A successful [parse_textbook_info] only touches the textbook named
    by the directory: every other textbook is kept, and so is every chapter
    of that textbook which the directory does not list as visible (not listed
    at all, or listed only as hidden), with its sections, pages, completion
    flags and elements.  Nothing is ever removed from the chapter dictionary. *)
Theorem parse_textbook_info_keeps_unlisted (textbook_info : TextbookInfoAPIResponse.t)
    (course : ModelCourse) (lg : list LogLine) :
  let tb := TextbookInfoAPIResponse.courseid textbook_info in
  is_Some (textbooks course !! tb) →
  ∃ course' lg',
    parse_textbook_info textbook_info (course, lg) = (inr true, (course', lg')) ∧
    (∀ tb', tb' ≠ tb → textbooks course' !! tb' = textbooks course !! tb') ∧
    (∀ ch,
       (∀ chapter_info, chapter_info ∈ TextbookInfoAPIResponse.chapters textbook_info →
                        Chapter.nodeid chapter_info = ch →
                        py_bool (Chapter.hide chapter_info) = true) →
       (t ← textbooks course' !! tb; chapters t !! ch) =
       (t ← textbooks course !! tb; chapters t !! ch)).
Proof.
  cbv zeta. intros Ht. destruct (parse_textbook_info_run textbook_info) as [lines Hrun].
  eexists _, _. split; [by apply Hrun|]. split.
  - intros tb' Hne. by apply lookup_with_chapters_ne.
  - intros ch Hch. rewrite lookup_with_chapters_eq.
    destruct Ht as [t ->]. simpl.
    by apply listing_kept.
Qed.

(** X3.  After a successful [parse_textbook_info], a chapter that the
    directory lists as visible holds only what the directory gives it: every
    page found under it is a fresh page ([is_complete = False], no elements,
    stored under its own identifier) built from a page entry of a visible
    item of a visible listing of that chapter.  Hidden sections, and whatever
    the chapter held before, are gone. *)
Theorem parse_textbook_info_listed_pages (textbook_info : TextbookInfoAPIResponse.t)
    (course : ModelCourse) (lg : list LogLine) :
  let tb := TextbookInfoAPIResponse.courseid textbook_info in
  is_Some (textbooks course !! tb) →
  ∃ course' lg',
    parse_textbook_info textbook_info (course, lg) = (inr true, (course', lg')) ∧
    ∀ chapter_info,
      chapter_info ∈ TextbookInfoAPIResponse.chapters textbook_info →
      py_bool (Chapter.hide chapter_info) = false →
      ∀ sec pid p,
        course_page course' tb (Chapter.nodeid chapter_info) sec pid = Some p →
        is_complete p = false ∧ elements p = [] ∧ page_id p = pid ∧
        ∃ chapter_info' section_info page_info,
          chapter_info' ∈ TextbookInfoAPIResponse.chapters textbook_info ∧
          Chapter.nodeid chapter_info' = Chapter.nodeid chapter_info ∧
          py_bool (Chapter.hide chapter_info') = false ∧
          section_info ∈ Chapter.items chapter_info' ∧
          Item.itemid section_info = sec ∧
          py_bool (Item.hide section_info) = false ∧
          page_info ∈ Item.coursepages section_info ∧
          p = new_page page_info.
Proof.
  cbv zeta. intros Ht. destruct (parse_textbook_info_run textbook_info) as [lines Hrun].
  eexists _, _. split; [by apply Hrun|].
  intros chapter_info Hin Hvis sec pid p Hp.
  unfold course_page in Hp. rewrite lookup_with_chapters_eq in Hp.
  destruct Ht as [t Ht]. rewrite Ht in Hp. simpl in Hp.
  unfold textbook_page in Hp. simpl in Hp.
  destruct (built_chapters _ _ !! _) as [c|] eqn:Hc; [|done]. simpl in Hp.
  apply listing_inv in Hc.
  destruct Hc as [[Hc _]|(chapter_info' & Hin' & Hvis' & Hid' & ->)].
  { specialize (Hc chapter_info Hin eq_refl). congruence. }
  unfold chapter_page in Hp. simpl in Hp.
  destruct (built_sections _ !! sec) as [s|] eqn:Hs; [|done]. simpl in Hp.
  apply built_sections_inv in Hs as (section_info & Hsin & Hsvis & Hsid & ->).
  simpl in Hp. apply built_pages_inv in Hp as (page_info & Hpin & Hpid & ->).
  split_and!; [done..|]. exists chapter_info', section_info, page_info. done.
Qed.

Lemma parse_textbook_info_keeps_unlisted_witness :
  is_Some (textbooks sample_wide_course !! 10) ∧
  ∃ course' lg',
    parse_textbook_info sample_directory (sample_wide_course, []) =
      (inr true, (course', lg')) ∧
    textbooks course' !! 11 = Some sample_other_textbook ∧
    (t ← textbooks course' !! 10; chapters t !! 101) = Some (sample_kept_chapter 101) ∧
    (t ← textbooks course' !! 10; chapters t !! 102) = Some (sample_kept_chapter 102).
Proof.
  assert (Ht : is_Some (textbooks sample_wide_course !! 10)).
  { eexists. reflexivity. }
  split; [exact Ht|].
  destruct (parse_textbook_info_keeps_unlisted sample_directory sample_wide_course [] Ht)
    as (course' & lg' & Hrun & Hother & Hkept).
  exists course', lg'. split; [exact Hrun|]. split; [|split].
  - etrans; [apply (Hother 11); discriminate|reflexivity].
  - etrans; [apply (Hkept 101)|reflexivity].
    intros chapter_info Hin Hid. simpl in Hin.
    apply elem_of_cons in Hin as [->|Hin]; [discriminate Hid|].
    apply list_elem_of_singleton in Hin as ->. reflexivity.
  - etrans; [apply (Hkept 102)|reflexivity].
    intros chapter_info Hin Hid. simpl in Hin.
    apply elem_of_cons in Hin as [->|Hin]; [discriminate Hid|].
    apply list_elem_of_singleton in Hin as ->. discriminate Hid.
Defined.

Lemma parse_textbook_info_listed_pages_witness :
  ∃ course' lg',
    parse_textbook_info sample_directory (sample_course, []) = (inr true, (course', lg')) ∧
    ∀ p, course_page course' 10 100 1000 1 = Some p → is_complete p = false.
Proof.
  destruct (parse_textbook_info_listed_pages sample_directory sample_course [])
    as (course' & lg' & Hrun & Hpages); [by eexists|].
  exists course', lg'. split; [exact Hrun|]. intros p Hp.
  eapply (Hpages _ (list_elem_of_here _ _) eq_refl 1000 1 p Hp).
Defined.

(** X4.  [parse_textbook_info] files every page of the directory: the page
    entry that comes last for its identifier, in the last visible item for
    its section identifier, in the last visible listing of its chapter, is
    found after the call under these three identifiers, as a fresh page. *)
Theorem parse_textbook_info_lists_page (textbook_info : TextbookInfoAPIResponse.t)
    (course : ModelCourse) (lg : list LogLine)
    (chapter_info : Chapter.t) (section_info : Item.t) (page_info : CoursePage.t)
    (chapters1 chapters2 : list Chapter.t) (items1 items2 : list Item.t)
    (pages1 pages2 : list CoursePage.t) :
  let tb := TextbookInfoAPIResponse.courseid textbook_info in
  is_Some (textbooks course !! tb) →
  TextbookInfoAPIResponse.chapters textbook_info = chapters1 ++ chapter_info :: chapters2 →
  py_bool (Chapter.hide chapter_info) = false →
  (∀ y, y ∈ chapters2 → Chapter.nodeid y = Chapter.nodeid chapter_info →
        py_bool (Chapter.hide y) = true) →
  Chapter.items chapter_info = items1 ++ section_info :: items2 →
  py_bool (Item.hide section_info) = false →
  (∀ y, y ∈ items2 → Item.itemid y = Item.itemid section_info →
        py_bool (Item.hide y) = true) →
  Item.coursepages section_info = pages1 ++ page_info :: pages2 →
  (∀ y, y ∈ pages2 → CoursePage.id y ≠ CoursePage.id page_info) →
  ∃ course' lg',
    parse_textbook_info textbook_info (course, lg) = (inr true, (course', lg')) ∧
    course_page course' tb (Chapter.nodeid chapter_info) (Item.itemid section_info)
      (CoursePage.id page_info) = Some (new_page page_info).
Proof.
  cbv zeta. intros [t Ht] Hchs Hcv Hc2 His Hsv Hs2 Hps Hp2.
  destruct (parse_textbook_info_run textbook_info) as [lines Hrun].
  eexists _, _. split; [by apply Hrun|].
  unfold course_page. rewrite lookup_with_chapters_eq, Ht. simpl.
  unfold textbook_page. simpl. rewrite Hchs.
  unfold built_chapters. rewrite listing_last by done.
  simpl. unfold chapter_page. simpl. rewrite His.
  unfold built_sections. rewrite listing_last by done.
  simpl. rewrite Hps. unfold built_pages.
  apply listing_last; [done|].
  intros y Hy Hid. by destruct (Hp2 y Hy).
Qed.

Lemma parse_textbook_info_lists_page_witness :
  ∃ course' lg',
    parse_textbook_info sample_directory (sample_course, []) = (inr true, (course', lg')) ∧
    course_page course' 10 100 1000 2 = Some (new_page (sample_course_page 2 5)).
Proof.
  apply (parse_textbook_info_lists_page sample_directory sample_course []
           sample_chapter_listing sample_section_info (sample_course_page 2 5)
           [] [sample_hidden_chapter_listing] [] [sample_hidden_section_info]
           [sample_course_page 1 6] []).
  - by eexists.
  - reflexivity.
  - reflexivity.
  - intros y Hy Hid. apply list_elem_of_singleton in Hy as ->. reflexivity.
  - reflexivity.
  - reflexivity.
  - intros y Hy Hid. apply list_elem_of_singleton in Hy as ->. discriminate Hid.
  - reflexivity.
  - intros y Hy. by apply elem_of_nil in Hy.
Defined.

(** X5.  [parse_textbook_info] is idempotent on the configuration: parsing
    the same directory a second time succeeds again and leaves the tree that
    the first call produced. *)
Theorem parse_textbook_info_idempotent (textbook_info : TextbookInfoAPIResponse.t)
    (course : ModelCourse) (lg : list LogLine) :
  is_Some (textbooks course !! TextbookInfoAPIResponse.courseid textbook_info) →
  ∃ course' lg' lg'',
    parse_textbook_info textbook_info (course, lg) = (inr true, (course', lg')) ∧
    parse_textbook_info textbook_info (course', lg') = (inr true, (course', lg'')).
Proof.
  intros Ht. destruct (parse_textbook_info_run textbook_info) as [lines Hrun].
  eexists _, _, _. split; [by apply Hrun|].
  rewrite Hrun.
  - rewrite with_chapters_compose. do 2 f_equal.
    apply with_chapters_ext. intros cs. simpl.
    apply listing_idem.
  - rewrite lookup_with_chapters_eq. destruct Ht as [t ->]. by eexists.
Qed.

Lemma parse_textbook_info_idempotent_witness :
  ∃ course' lg' lg'',
    parse_textbook_info sample_directory (sample_course, []) = (inr true, (course', lg')) ∧
    parse_textbook_info sample_directory (course', lg') = (inr true, (course', lg'')).
Proof. apply (parse_textbook_info_idempotent sample_directory sample_course []). by eexists. Defined.

(** ** Chapter details: when the merge succeeds, and what it can change *)

Lemma for_each_succeeds {σ A} (I : σ → Prop) (body : A → Eff σ ()) (xs : list A)
    (w : σ * list LogLine) :
  (∀ x, x ∈ xs → ∀ w, I w.1 → ∃ w', body x w = (inr (), w') ∧ I w'.1) →
  I w.1 →
  ∃ w', for_each xs body w = (inr (), w') ∧ I w'.1.
Proof.
  revert w. induction xs as [|x xs IH]; intros w Hbody Hw.
  { by exists w. }
  destruct (Hbody x (list_elem_of_here _ _) w Hw) as (w1 & Hx & Hw1).
  destruct (IH w1) as (w2 & Hxs & Hw2); [|done|].
  { intros y Hy. apply Hbody. by right. }
  exists w2. split; [|done]. cbn [for_each]. by rewrite eff_bind_run, Hx.
Qed.

Lemma parse_page_succeeds (tb ch sec : Z) (pg : ChapterInfoAPIResponse.WholePageDTO)
    (course : ModelCourse) (lg : list LogLine) :
  is_Some (course_page course tb ch sec (ChapterInfoAPIResponse.id pg)) →
  Forall (λ e, failure (ChapterInfoAPIResponse.contentType pg) e = None)
    (ChapterInfoAPIResponse.coursepageDTOList pg) →
  ∃ course' lg',
    parse_page tb ch sec pg (course, lg) = (inr (), (course', lg')) ∧
    ∀ tb' ch' sec' pid',
      is_Some (course_page course tb' ch' sec' pid') →
      is_Some (course_page course' tb' ch' sec' pid').
Proof.
  intros [p Hp] Hes. rewrite parse_page_run. simpl. rewrite Hp.
  destruct (for_each_parse_element tb ch sec (ChapterInfoAPIResponse.id pg)
              (ChapterInfoAPIResponse.contentType pg)
              (ChapterInfoAPIResponse.coursepageDTOList pg) course lg Hes)
    as (course' & Hrun & Hlook).
  eexists _, _. split; [exact Hrun|].
  intros tb' ch' sec' pid' [q Hq]. rewrite Hlook, Hq. by eexists.
Qed.

Lemma parse_page_fails (tb ch sec : Z) (pg : ChapterInfoAPIResponse.WholePageDTO)
    (w : ModelCourse * list LogLine) :
  ¬ Forall (λ e, failure (ChapterInfoAPIResponse.contentType pg) e = None)
      (ChapterInfoAPIResponse.coursepageDTOList pg) →
  ∃ x w', parse_page tb ch sec pg w = (inl x, w').
Proof.
  intros Hbad. rewrite parse_page_run.
  destruct (course_page w.1 tb ch sec _); [|by eexists _, _].
  apply not_Forall_Exists in Hbad; [|intros e; apply _].
  apply Exists_exists in Hbad as (e & He & Hfail).
  destruct (failure (ChapterInfoAPIResponse.contentType pg) e) as [x|] eqn:Hx; [|done].
  apply list_elem_of_split in He as (es1 & es2 & ->).
  apply (for_each_raises _ es1 es2 e (λ _, True)); [done| |done].
  intros [course0 lg0] _. rewrite parse_element_run, Hx. by eexists _, _.
Qed.

Lemma parse_chapter_info_bad_score (tb : Z) (info : ChapterInfoAPIResponse.t)
    (course : ModelCourse) (lg : list LogLine) (t : ModelTextbook) (c : CoursewareChapter)
    (item : ChapterInfoAPIResponse.ItemDTO) (pg : ChapterInfoAPIResponse.WholePageDTO) :
  textbooks course !! tb = Some t →
  chapters t !! ChapterInfoAPIResponse.chapterid info = Some c →
  item ∈ ChapterInfoAPIResponse.wholepageItemDTOList info →
  is_Some (sections c !! ChapterInfoAPIResponse.itemid item) →
  pg ∈ ChapterInfoAPIResponse.wholepageDTOList item →
  ¬ Forall (λ e, failure (ChapterInfoAPIResponse.contentType pg) e = None)
      (ChapterInfoAPIResponse.coursepageDTOList pg) →
  ∃ course' lg', parse_chapter_info tb info (course, lg) = (inr false, (course', lg')).
Proof.
  intros Ht Hc Hitem Hsec Hpg Hbad.
  rewrite (parse_chapter_info_found _ _ _ _ t c Ht Hc).
  apply list_elem_of_split in Hitem as (items1 & items2 & ->).
  apply list_elem_of_split in Hpg as (pages1 & pages2 & Hpages).
  match goal with |- context [for_each _ ?body ?w] =>
    destruct (for_each_raises body items1 items2 item (λ _, True) w)
      as (e & [course' lg'] & ->)
  end; [done| |done|by eexists _, _].
  intros w' _. unfold parse_section. rewrite decide_True by done. rewrite Hpages.
  apply (for_each_raises _ pages1 pages2 pg (λ _, True)); [done| |done].
  intros w'' _. by apply parse_page_fails.
Qed.

(** A score that [int] does not convert: the detail of section 1001 lists
    page 3 with one question list whose second score is an infinity.  The
    merge of the chapter fails with [OverflowError] before anything is
    stored for the page, and [parse_chapter_info] returns [False]. *)
Example parse_chapter_info_infinite_score :
  let question_list :=
    ChapterInfoAPIResponse.QuestionPageDTO "quiz"
      [ {| ChapterInfoAPIResponse.questionid := 33;
           ChapterInfoAPIResponse.score := Finite 5;
           ChapterInfoAPIResponse.title := "q3" |};
        {| ChapterInfoAPIResponse.questionid := 34;
           ChapterInfoAPIResponse.score := Infinity false;
           ChapterInfoAPIResponse.title := "q4" |} ] in
  let info :=
    {| ChapterInfoAPIResponse.chapterid := 100;
       ChapterInfoAPIResponse.wholepageItemDTOList :=
         [ {| ChapterInfoAPIResponse.itemid := 1001;
              ChapterInfoAPIResponse.wholepageDTOList :=
                [sample_whole_page 3 7 [question_list]] |} ] |} in
  failure 7 question_list = Some OverflowError ∧
  parse_page 10 100 1001 (sample_whole_page 3 7 [question_list]) (sample_course, []) =
    (inl OverflowError, (sample_course, [])) ∧
  ∃ lg, parse_chapter_info 10 info (sample_course, []) = (inr false, (sample_course, lg)).
Proof. split; [reflexivity|]. split; [reflexivity|]. eexists. reflexivity. Qed.

(** X6.  [parse_chapter_info] returns [True] exactly when the textbook and
    the chapter are in the tree and, for every section of the response that
    the tree has, every page listed under it is in that section and no
    element of the page fails to be built (a question list with a score
    that is an infinity or NaN).  Sections that the tree does not have are
    passed over and do not count.  In every other case it returns [False]. *)
Theorem parse_chapter_info_succeeds_iff (tb : Z) (info : ChapterInfoAPIResponse.t)
    (course : ModelCourse) (lg : list LogLine) :
  (∃ course' lg', parse_chapter_info tb info (course, lg) = (inr true, (course', lg'))) ↔
  ∃ t c,
    textbooks course !! tb = Some t ∧
    chapters t !! ChapterInfoAPIResponse.chapterid info = Some c ∧
    ∀ item, item ∈ ChapterInfoAPIResponse.wholepageItemDTOList info →
      is_Some (sections c !! ChapterInfoAPIResponse.itemid item) →
      ∀ pg, pg ∈ ChapterInfoAPIResponse.wholepageDTOList item →
        is_Some (course_page course tb (ChapterInfoAPIResponse.chapterid info)
                   (ChapterInfoAPIResponse.itemid item) (ChapterInfoAPIResponse.id pg)) ∧
        Forall (λ e, failure (ChapterInfoAPIResponse.contentType pg) e = None)
          (ChapterInfoAPIResponse.coursepageDTOList pg).
Proof.
  split.
  - intros (course' & lg' & Hrun).
    destruct (textbooks course !! tb) as [t|] eqn:Ht; cycle 1.
    { rewrite parse_chapter_info_missing in Hrun by (by rewrite Ht). congruence. }
    destruct (chapters t !! ChapterInfoAPIResponse.chapterid info) as [c|] eqn:Hc; cycle 1.
    { rewrite parse_chapter_info_missing in Hrun by (by rewrite Ht; simpl). congruence. }
    exists t, c. split_and!; [done..|].
    intros item Hitem Hsec pg Hpg. split.
    + destruct (course_page course tb _ _ (ChapterInfoAPIResponse.id pg)) eqn:Hpage; [done|].
      apply list_elem_of_split in Hitem as (items1 & items2 & Hitems).
      apply list_elem_of_split in Hpg as (pages1 & pages2 & Hpages).
      destruct (parse_chapter_info_missing_page tb info course lg t c items1 items2 item
                  pages1 pages2 pg Ht Hc Hitems Hsec Hpages Hpage) as (? & ? & Hfalse).
      congruence.
    + destruct (decide (Forall
        (λ e, failure (ChapterInfoAPIResponse.contentType pg) e = None)
        (ChapterInfoAPIResponse.coursepageDTOList pg))) as [Hok|Hbad]; [done|].
      destruct (parse_chapter_info_bad_score tb info course lg t c item pg
                  Ht Hc Hitem Hsec Hpg Hbad) as (? & ? & Hfalse).
      congruence.
  - intros (t & c & Ht & Hc & Hall).
    rewrite (parse_chapter_info_found _ _ _ _ t c Ht Hc).
    set (I := λ c' : ModelCourse, ∀ tb' ch' sec' pid',
      is_Some (course_page course tb' ch' sec' pid') →
      is_Some (course_page c' tb' ch' sec' pid')).
    match goal with |- context [for_each ?xs ?body ?w] =>
      destruct (for_each_succeeds I body xs w) as ([course' lg'] & -> & _)
    end.
    + intros item Hitem [c0 lg0] Hc0. unfold parse_section. case_decide as Hsec.
      * apply (for_each_succeeds I); [|done].
        intros pg Hpg [c1 lg1] Hc1.
        destruct (Hall item Hitem Hsec pg Hpg) as [Hpresent Hok].
        destruct (parse_page_succeeds tb (ChapterInfoAPIResponse.chapterid info)
                    (ChapterInfoAPIResponse.itemid item) pg c1 lg1)
          as (c2 & lg2 & Hrun & Hkeep); [by apply Hc1|done|].
        exists (c2, lg2). split; [done|]. intros tb' ch' sec' pid' H.
        apply Hkeep, Hc1, H.
      * by exists (c0, lg0).
    + by intros tb' ch' sec' pid' H.
    + by eexists _, _.
Qed.

(** X7.  Whatever it returns, [parse_chapter_info] only appends elements: a
    page is found after the call exactly where it was found before, with the
    same identifiers, name, type and completion flag, and its old elements
    are a prefix of its new ones.  Pages outside the chapter of the response
    are not changed at all.  This holds for a failed call as well, which
    keeps what it appended before the error. *)
Theorem parse_chapter_info_only_appends (tb : Z) (info : ChapterInfoAPIResponse.t)
    (course : ModelCourse) (lg : list LogLine) :
  ∃ b course' lg',
    parse_chapter_info tb info (course, lg) = (inr b, (course', lg')) ∧
    ∀ tb' ch' sec' pid',
      ∃ extra,
        course_page course' tb' ch' sec' pid' =
          (λ p, set_elements (elements p ++ extra) p) <$> course_page course tb' ch' sec' pid' ∧
        (¬ (tb' = tb ∧ ch' = ChapterInfoAPIResponse.chapterid info) →
         course_page course' tb' ch' sec' pid' = course_page course tb' ch' sec' pid').
Proof.
  set (ch := ChapterInfoAPIResponse.chapterid info).
  set (I := λ c' : ModelCourse, ∀ tb' ch' sec' pid',
    ∃ extra,
      course_page c' tb' ch' sec' pid' =
        (λ p, set_elements (elements p ++ extra) p) <$> course_page course tb' ch' sec' pid' ∧
      (¬ (tb' = tb ∧ ch' = ch) →
       course_page c' tb' ch' sec' pid' = course_page course tb' ch' sec' pid')).
  assert (HI : I course).
  { intros tb' ch' sec' pid'. exists []. split; [|done].
    destruct (course_page course tb' ch' sec' pid') as [p|]; simpl; [|done].
    by rewrite set_elements_same. }
  assert (Helement : ∀ sec pid ct e w, I w.1 → I (parse_element tb ch sec pid ct e w).2.1).
  { intros sec pid ct e [c0 lg0] Hc0. simpl in Hc0. rewrite parse_element_run.
    destruct (failure ct e); [done|].
    destruct (classified ct e) as [el|]; simpl; [|done].
    intros tb' ch' sec' pid'. destruct (Hc0 tb' ch' sec' pid') as (extra & Hlook & Hframe).
    rewrite course_page_alter_page. case_decide as Hpath.
    - exists (extra ++ [el]). split.
      + rewrite Hlook. destruct (course_page course tb' ch' sec' pid') as [p|]; [|done].
        cbn. f_equal. unfold set_elements; simpl. by rewrite app_assoc.
      + intros Hne. destruct Hne. by destruct Hpath as (? & ? & _).
    - exists extra. split.
      + rewrite Hlook. by destruct (course_page course tb' ch' sec' pid').
      + intros Hne. rewrite <- (Hframe Hne). by destruct (course_page c0 tb' ch' sec' pid'). }
  assert (Hpage : ∀ sec pg w, I w.1 → I (parse_page tb ch sec pg w).2.1).
  { intros sec pg w Hw. rewrite parse_page_run.
    destruct (course_page w.1 tb ch sec _); [|done].
    apply (for_each_preserves I); [|done]. intros e w'. apply Helement. }
  assert (Hsection : ∀ ss item w, I w.1 → I (parse_section tb ch ss item w).2.1).
  { intros ss item w Hw. unfold parse_section. case_decide; [|done].
    apply (for_each_preserves I); [|done]. intros pg w'. apply Hpage. }
  destruct (t ← textbooks course !! tb; chapters t !! ch) as [c|] eqn:Hchain.
  - apply bind_Some in Hchain as (t & Ht & Hc).
    rewrite (parse_chapter_info_found _ _ _ _ t c Ht Hc).
    match goal with |- context [for_each ?xs ?body ?w] =>
      pose proof (for_each_preserves I body xs (Hsection (sections c)) w HI) as Hfinal;
      destruct (for_each xs body w) as [[e|[]] [course' lg']]
    end; by eexists _, _, _.
  - rewrite parse_chapter_info_missing by done. by eexists _, _, _.
Qed.

(** ** Clearing the configured courses *)

Lemma no_empty_container_page (course : ModelCourse) :
  no_empty_container course →
  textbooks course ≠ ∅ →
  ∃ tb ch sec pid p, course_page course tb ch sec pid = Some p.
Proof.
  intros Hne Htb.
  apply map_choose in Htb as (tb & t & Ht).
  destruct (Hne tb t Ht) as [Hch Hchs].
  apply map_choose in Hch as (ch & c & Hc).
  destruct (Hchs ch c Hc) as [Hsec Hsecs].
  apply map_choose in Hsec as (sec & s & Hs).
  pose proof (Hsecs sec s Hs) as Hpages.
  apply map_choose in Hpages as (pid & p & Hp).
  exists tb, ch, sec, pid, p.
  unfold course_page, textbook_page, chapter_page.
  rewrite Ht; simpl. rewrite Hc; simpl. by rewrite Hs.
Qed.

Lemma course_page_textbooks (course : ModelCourse) (tb ch sec pid : Z) (p : CoursewarePage) :
  course_page course tb ch sec pid = Some p → textbooks course ≠ ∅.
Proof.
  unfold course_page. intros H Hempty. by rewrite Hempty, lookup_empty in H.
Qed.

Lemma prune_courses_body_Some (rc : bool) (cid : Z) (c c' : ModelCourse) :
  prune_courses_body rc cid c = Some c' ↔
  c' = ModelCourse_prune rc c ∧
  ∃ tb ch sec pid p,
    course_page c tb ch sec pid = Some p ∧ (rc = true → is_complete p = false).
Proof.
  unfold prune_courses_body.
  destruct (dict_not (textbooks (ModelCourse_prune rc c))) eqn:Hd.
  - split; [done|]. intros (_ & tb & ch & sec & pid & p & Hp & Hopen).
    apply dict_not_true in Hd.
    destruct (course_page_textbooks (ModelCourse_prune rc c) tb ch sec pid p); [|done].
    rewrite ModelCourse_prune_page, Hp. simpl.
    destruct rc; [by rewrite Hopen|done].
  - apply dict_not_false in Hd. split.
    + intros [= <-]. split; [done|].
      destruct (no_empty_container_page _ (ModelCourse_prune_nonempty rc c) Hd)
        as (tb & ch & sec & pid & p & Hp).
      rewrite ModelCourse_prune_page in Hp.
      apply bind_Some in Hp as (q & Hq & Hkeep).
      exists tb, ch, sec, pid, q. split; [done|]. intros ->. simpl in Hkeep.
      by destruct (is_complete q).
    + by intros [-> _].
Qed.

(** X8.  The loop that clears the course dictionary keeps a course exactly
    when it has a page that [prune] does not remove: any page for
    [prune()], an incomplete page for [prune(remove_complete=True)].  A
    course that is kept is stored pruned, under the same key. *)
Theorem prune_courses_survivors (remove_complete : bool) (courses : gmap Z ModelCourse)
    (course_id : Z) (course' : ModelCourse) :
  prune_courses remove_complete courses !! course_id = Some course' ↔
  ∃ course,
    courses !! course_id = Some course ∧
    course' = ModelCourse_prune remove_complete course ∧
    ∃ tb ch sec pid p,
      course_page course tb ch sec pid = Some p ∧
      (remove_complete = true → is_complete p = false).
Proof.
  unfold prune_courses. rewrite items_loop_Some.
  split; intros (course & Hc & H); exists course; (split; [done|]);
    by apply (prune_courses_body_Some remove_complete course_id course course').
Qed.

(** X9.  After the loop of [__prune_completed_courseware] the course
    dictionary is empty exactly when every page of every course was complete
    when the loop started; [__start_courseware] warns that some courseware
    seems unfinished in every other case. *)
Theorem prune_courses_empty_iff (courses : gmap Z ModelCourse) :
  prune_courses true courses = ∅ ↔
  ∀ course_id course tb ch sec pid p,
    courses !! course_id = Some course →
    course_page course tb ch sec pid = Some p →
    is_complete p = true.
Proof.
  rewrite map_empty. split.
  - intros Hnone cid c tb ch sec pid p Hc Hp.
    destruct (is_complete p) eqn:Hdone; [done|].
    specialize (Hnone cid). unfold prune_courses in Hnone.
    rewrite items_loop_lookup, Hc in Hnone. simpl in Hnone.
    destruct (prune_courses_body true cid c) as [c'|] eqn:Hbody; [done|].
    assert (is_Some (prune_courses_body true cid c)) as [? ?]; [|congruence].
    eexists. apply prune_courses_body_Some. split; [done|].
    by exists tb, ch, sec, pid, p.
  - intros Hall cid. unfold prune_courses. rewrite items_loop_lookup.
    destruct (courses !! cid) as [c|] eqn:Hc; [|done]. simpl.
    destruct (prune_courses_body true cid c) as [c'|] eqn:Hbody; [|done].
    apply prune_courses_body_Some in Hbody as (_ & tb & ch & sec & pid & p & Hp & Hopen).
    specialize (Hall cid c tb ch sec pid p Hc Hp). rewrite Hopen in Hall; done.
Qed.

(** ** Study records: parsing the same record again *)

Lemma with_pages_compose (tb ch sec : Z)
    (f g : gmap Z CoursewarePage → gmap Z CoursewarePage) (course : ModelCourse) :
  with_pages tb ch sec f (with_pages tb ch sec g course) =
  with_pages tb ch sec (f ∘ g) course.
Proof.
  unfold with_pages, set_textbooks; simpl. f_equal.
  rewrite alter_alter_eq. apply alter_ext. intros t _.
  unfold set_chapters; simpl. f_equal.
  rewrite alter_alter_eq. apply alter_ext. intros c _.
  unfold set_sections; simpl. f_equal.
  rewrite alter_alter_eq. by apply alter_ext.
Qed.

Lemma with_pages_ext (tb ch sec : Z)
    (f g : gmap Z CoursewarePage → gmap Z CoursewarePage) (course : ModelCourse) :
  (∀ ps, f ps = g ps) → with_pages tb ch sec f course = with_pages tb ch sec g course.
Proof.
  intros Hfg. unfold with_pages, set_textbooks. f_equal.
  apply alter_ext. intros t _. unfold set_chapters. f_equal.
  apply alter_ext. intros c _. unfold set_sections. f_equal.
  apply alter_ext. intros s _. by rewrite Hfg.
Qed.

Lemma with_pages_lookup (tb ch sec : Z)
    (f : gmap Z CoursewarePage → gmap Z CoursewarePage) (course : ModelCourse)
    (t : ModelTextbook) (c : CoursewareChapter) (s : CoursewareSection) :
  textbooks course !! tb = Some t →
  chapters t !! ch = Some c →
  sections c !! sec = Some s →
  ∃ t' c' s',
    textbooks (with_pages tb ch sec f course) !! tb = Some t' ∧
    chapters t' !! ch = Some c' ∧
    sections c' !! sec = Some s'.
Proof.
  intros Ht Hc Hs. unfold with_pages; simpl. rewrite lookup_alter_eq, Ht; simpl.
  eexists _, _, _. split; [done|]. simpl. rewrite lookup_alter_eq, Hc; simpl.
  split; [done|]. simpl. by rewrite lookup_alter_eq, Hs.
Qed.

Lemma mark_all_with_pages (tb ch sec : Z)
    (es : list StudyRecordAPIResponse.PageStudyRecordDTO) (course : ModelCourse) :
  foldl (λ c e, with_pages tb ch sec (mark_pages e) c) course es =
  with_pages tb ch sec (λ ps, foldl (λ ps e, mark_pages e ps) ps es) course.
Proof.
  revert course. induction es as [|e es IH]; intros course; simpl.
  - symmetry. by apply with_pages_id.
  - by rewrite IH, with_pages_compose.
Qed.

Lemma mark_all_pages_lookup (es : list StudyRecordAPIResponse.PageStudyRecordDTO)
    (ps : gmap Z CoursewarePage) (pid : Z) :
  foldl (λ ps e, mark_pages e ps) ps es !! pid =
  (λ p, foldl (λ p e, mark_page e p) p es) <$> ps !! pid.
Proof.
  revert ps. induction es as [|e es IH]; intros ps; simpl.
  - by destruct (ps !! pid).
  - rewrite IH, mark_pages_lookup. by destruct (ps !! pid).
Qed.

Lemma mark_all_by_relation_id (es : list StudyRecordAPIResponse.PageStudyRecordDTO) (r : Z) :
  (∀ p, page_relation_id p = r → foldl (λ p e, mark_page e p) p es = p) ∨
  (∃ b, ∀ p, page_relation_id p = r →
             foldl (λ p e, mark_page e p) p es = set_is_complete b p).
Proof.
  induction es as [|e es IH]; [by left|].
  destruct (decide (r = StudyRecordAPIResponse.pageid e)) as [Hr|Hr].
  - right. destruct IH as [IH|[b IH]].
    + eexists. intros p Hp. simpl. unfold mark_page at 2.
      rewrite (proj2 (Z.eqb_eq _ _)) by congruence. by rewrite IH.
    + exists b. intros p Hp. simpl. unfold mark_page at 2.
      rewrite (proj2 (Z.eqb_eq _ _)) by congruence. by rewrite IH.
  - destruct IH as [IH|[b IH]]; [left|right; exists b]; intros p Hp; simpl;
      unfold mark_page at 2; rewrite (proj2 (Z.eqb_neq _ _)) by congruence; by apply IH.
Qed.

Lemma mark_all_idem (es : list StudyRecordAPIResponse.PageStudyRecordDTO)
    (p : CoursewarePage) :
  foldl (λ p e, mark_page e p) (foldl (λ p e, mark_page e p) p es) es =
  foldl (λ p e, mark_page e p) p es.
Proof.
  destruct (mark_all_by_relation_id es (page_relation_id p)) as [H|[b H]].
  - by rewrite (H p eq_refl), (H p eq_refl).
  - rewrite (H p eq_refl). by rewrite (H (set_is_complete b p) eq_refl).
Qed.

(** X10.  [parse_study_record_info] is idempotent on the tree: parsing the
    same study record a second time returns the same value and leaves the
    tree that the first call produced. *)
Theorem parse_study_record_info_idempotent (tb : Z) (info : StudyRecordAPIResponse.t)
    (course : ModelCourse) (lg : list LogLine) :
  ∃ b course' lg' lg'',
    parse_study_record_info tb info (course, lg) = (inr b, (course', lg')) ∧
    parse_study_record_info tb info (course', lg') = (inr b, (course', lg'')).
Proof.
  destruct (t ← textbooks course !! tb;
            c ← chapters t !! StudyRecordAPIResponse.node_id info;
            sections c !! StudyRecordAPIResponse.item_id info) as [s|] eqn:Hchain.
  - apply bind_Some in Hchain as (t & Ht & Hchain).
    apply bind_Some in Hchain as (c & Hc & Hs).
    rewrite (parse_study_record_info_found _ _ _ _ t c s Ht Hc Hs).
    rewrite mark_all_with_pages.
    destruct (with_pages_lookup tb (StudyRecordAPIResponse.node_id info)
                (StudyRecordAPIResponse.item_id info)
                (λ ps, foldl (λ ps e, mark_pages e ps) ps
                         (StudyRecordAPIResponse.pageStudyRecordDTOList info))
                course t c s Ht Hc Hs) as (t' & c' & s' & Ht' & Hc' & Hs').
    eexists _, _, _, _. split; [done|].
    rewrite (parse_study_record_info_found _ _ _ _ t' c' s' Ht' Hc' Hs').
    rewrite mark_all_with_pages, with_pages_compose. do 2 f_equal.
    apply with_pages_ext. intros ps. simpl. apply map_eq. intros pid.
    rewrite !mark_all_pages_lookup. destruct (ps !! pid) as [p|]; simpl; [|done].
    by rewrite mark_all_idem.
  - rewrite parse_study_record_info_missing by done.
    eexists _, _, _, _. split; [done|].
    by rewrite parse_study_record_info_missing.
Qed.

(** ** Second-pass reports *)

Lemma build_questions_run (es : list Element) (acc : Z * list QuestionDTO.t) :
  foldl build_questions acc es =
  (acc.1 + foldr Z.add 0 (question_score <$> questions_of es),
   acc.2 ++ (question_record <$> questions_of es)).
Proof.
  revert acc. induction es as [|element es IH]; intros [s qs]; simpl.
  - by rewrite Z.add_0_r, app_nil_r.
  - rewrite IH. clear IH.
    assert (Hq : ∀ questions s qs,
      foldl (λ acc question,
               (acc.1 + question_score question,
                acc.2 ++ [{| QuestionDTO.questionid := question_id question;
                             QuestionDTO.answerList := question_answer_list question;
                             QuestionDTO.score := question_score question |}]))
        (s, qs) questions =
      (s + foldr Z.add 0 (question_score <$> questions),
       qs ++ (question_record <$> questions))).
    { clear. induction questions as [|q questions IH]; intros s qs; simpl.
      - by rewrite Z.add_0_r, app_nil_r.
      - rewrite IH. simpl. f_equal; [|by rewrite <- app_assoc].
        rewrite <- Z.add_assoc. reflexivity. }
    destruct element as [c|d|video_id video_length|questions]; simpl;
      try (by rewrite ?app_nil_r).
    rewrite Hq. simpl. rewrite !fmap_app, foldr_app.
    f_equal; [|by rewrite app_assoc].
    assert (Hsum : ∀ (xs : list Z) a, foldr Z.add a xs = foldr Z.add 0 xs + a).
    { clear. induction xs as [|x xs IH]; intros a; simpl; [lia|]. rewrite IH. lia. }
    rewrite (Hsum _ (foldr _ _ _)). lia.
Qed.

(** X11.  The second-pass record of a question page (type 7), for a question
    range that is not empty: the study time is one draw from the range,
    capped at 3600 seconds; the score is the sum of the scores of the
    questions of the page, not 100; the questions are reported in order, one
    record each; and [coursepageId] is the page identifier exactly when the
    page has a question. *)
Theorem question_page_report
    (cfg : StudyTime.t) (pid : Z) (p : CoursewarePage) (amb : Ambient) (lg : list LogLine) :
  page_content_type p = 7 →
  MinMaxTime.min (StudyTime.question cfg) ≤ MinMaxTime.max (StudyTime.question cfg) →
  ∃ dto t lg',
    build_page cfg false pid p (amb, lg) = (inr (Some dto), (next_draw amb, lg')) ∧
    MinMaxTime.min (StudyTime.question cfg) ≤ t ≤ MinMaxTime.max (StudyTime.question cfg) ∧
    PageStudyRecordDTO.pageid dto = page_relation_id p ∧
    PageStudyRecordDTO.studyTime dto = Z.min t 3600 ∧
    PageStudyRecordDTO.score dto =
      foldr Z.add 0 (question_score <$> questions_of (elements p)) ∧
    PageStudyRecordDTO.questions dto = (question_record <$> questions_of (elements p)) ∧
    PageStudyRecordDTO.videos dto = [] ∧
    PageStudyRecordDTO.coursepageId dto =
      (if decide (questions_of (elements p) = []) then None else Some pid).
Proof.
  intros Hct Hrange.
  set (a := MinMaxTime.min (StudyTime.question cfg)) in *.
  set (b := MinMaxTime.max (StudyTime.question cfg)) in *.
  exists
    {| PageStudyRecordDTO.pageid := page_relation_id p;
       PageStudyRecordDTO.complete := 1;
       PageStudyRecordDTO.studyTime :=
         Z.min (a + rng amb (rng_pos amb) `mod` (b - a + 1)) 3600;
       PageStudyRecordDTO.score :=
         foldr Z.add 0 (question_score <$> questions_of (elements p));
       PageStudyRecordDTO.answerTime := 1;
       PageStudyRecordDTO.submitTimes := 0;
       PageStudyRecordDTO.coursepageId :=
         (if decide (questions_of (elements p) = []) then None else Some pid);
       PageStudyRecordDTO.questions := question_record <$> questions_of (elements p);
       PageStudyRecordDTO.videos := [] |},
    (a + rng amb (rng_pos amb) `mod` (b - a + 1)).
  eexists. split; [|split; [by apply randint_range|done]].
  unfold build_page. rewrite eff_bind_run; simpl. rewrite eff_bind_run.
  unfold simulate_page. rewrite Hct; simpl.
  rewrite eff_bind_run, randint_run by done. simpl.
  rewrite build_questions_run. simpl.
  destruct (questions_of (elements p)); reflexivity.
Qed.

Lemma question_page_report_witness :
  ∃ dto t lg',
    build_page default_study_time false 3 sample_question_page (sample_ambient 7 0, []) =
      (inr (Some dto), (next_draw (sample_ambient 7 0), lg')) ∧
    180 ≤ t ≤ 360 ∧
    PageStudyRecordDTO.score dto = 100 ∧
    PageStudyRecordDTO.coursepageId dto = Some 3.
Proof.
  destruct (question_page_report default_study_time 3 sample_question_page
              (sample_ambient 7 0) [])
    as (dto & t & lg' & Hrun & Ht & _ & _ & Hscore & _ & _ & Hid);
    [reflexivity|simpl; lia|].
  exists dto, t, lg'. split; [exact Hrun|]. split; [exact Ht|].
  split; [exact Hscore|exact Hid].
Defined.

Lemma build_page_second (cfg : StudyTime.t) (pid : Z) (p : CoursewarePage)
    (amb : Ambient) (lg : list LogLine) :
  (∀ r, page_range cfg p = Some r → MinMaxTime.min r ≤ MinMaxTime.max r) →
  short_videos p →
  (∀ i, (0 <= clock amb i)%Q ∧ (clock amb i <= inject_Z (2 ^ 51))%Q) →
  ∃ o amb' lg',
    build_page cfg false pid p (amb, lg) = (inr o, (amb', lg')) ∧
    clock amb' = clock amb ∧
    if page_type_known p
    then ∃ dto, o = Some dto ∧ PageStudyRecordDTO.pageid dto = page_relation_id p ∧
                PageStudyRecordDTO.complete dto = 1
    else o = None.
Proof.
  unfold page_range, page_type_known, short_videos. intros Hvalid Hshort Hclock.
  unfold build_page. rewrite eff_bind_run; simpl. rewrite eff_bind_run.
  unfold simulate_page.
  destruct (page_content_type p =? 5) eqn:H5; simpl.
  - specialize (Hvalid _ eq_refl). unfold page_bucket in Hvalid.
    destruct (existsb isinstance_ElementDocumen (elements p));
      rewrite eff_bind_run, randint_run by done; simpl;
      eexists _, _, _; (split; [reflexivity|]); (split; [reflexivity|]); by eexists.
  - destruct (page_content_type p =? 6) eqn:H6; simpl.
    + destruct (fold_each_build_video (elements p) (0, []) amb
                  (lg ++ [{| level := INFO; text := "[page] processing"; args := [pid] |}]))
        as (lg' & Hrun); [apply Hshort; lia|exact Hclock|].
      rewrite eff_bind_run, Hrun. cbn [fst snd]. rewrite eff_ret_run.
      eexists _, _, _; (split; [reflexivity|]); (split; [reflexivity|]); by eexists.
    + destruct (page_content_type p =? 7) eqn:H7; simpl.
      * specialize (Hvalid _ eq_refl).
        rewrite eff_bind_run, randint_run by done; simpl.
        eexists _, _, _; (split; [reflexivity|]); (split; [reflexivity|]); by eexists.
      * by eexists _, _, _.
Qed.

Lemma build_page_raises (cfg : StudyTime.t) (pid : Z) (p : CoursewarePage)
    (r : MinMaxTime.t) (w : Ambient * list LogLine) :
  page_range cfg p = Some r →
  MinMaxTime.max r < MinMaxTime.min r →
  ∃ w', build_page cfg false pid p w = (inl ValueError, w').
Proof.
  unfold page_range. intros Hr Hbad.
  unfold build_page. rewrite eff_bind_run; simpl. rewrite eff_bind_run.
  unfold simulate_page.
  destruct (page_content_type p =? 5) eqn:H5; simpl.
  - injection Hr as <-. unfold page_bucket in Hbad.
    destruct (existsb isinstance_ElementDocumen (elements p));
      rewrite eff_bind_run, randint_raises by done; by eexists.
  - destruct (page_content_type p =? 7) eqn:H7; [|done]. injection Hr as <-.
    assert ((page_content_type p =? 6) = false) as -> by lia.
    rewrite eff_bind_run, randint_raises by done. by eexists.
Qed.

Lemma fold_each_build_pages (cfg : StudyTime.t) (items : list (Z * CoursewarePage))
    (acc : list PageStudyRecordDTO.t) (amb : Ambient) (lg : list LogLine) :
  (∀ item r, item ∈ items → page_range cfg item.2 = Some r →
             MinMaxTime.min r ≤ MinMaxTime.max r) →
  (∀ item, item ∈ items → short_videos item.2) →
  (∀ i, (0 <= clock amb i)%Q ∧ (clock amb i <= inject_Z (2 ^ 51))%Q) →
  ∃ dtos amb' lg',
    fold_each items acc
      (λ page_study_record_dto_list item,
         dto ← build_page cfg false item.1 item.2;
         mret (match dto with
               | Some dto => page_study_record_dto_list ++ [dto]
               | None => page_study_record_dto_list
               end)) (amb, lg) = (inr (acc ++ dtos), (amb', lg')) ∧
    PageStudyRecordDTO.pageid <$> dtos =
      (page_relation_id ∘ snd <$> filter (λ item, page_type_known item.2) items) ∧
    Forall (λ dto, PageStudyRecordDTO.complete dto = 1) dtos.
Proof.
  revert acc amb lg.
  induction items as [|[pid p] items IH]; intros acc amb lg Hvalid Hshort Hclock.
  { exists [], amb, lg. rewrite app_nil_r. split; [reflexivity|].
    split; [reflexivity|constructor]. }
  rewrite fold_each_cons, eff_bind_run.
  destruct (build_page_second cfg pid p amb lg) as (o & amb1 & lg1 & Hrun & Hsame & Ho).
  { intros r. apply (Hvalid (pid, p)). left. }
  { apply (Hshort (pid, p)). left. }
  { exact Hclock. }
  cbn [fst snd]. rewrite Hrun, eff_ret_run.
  match goal with |- context [fold_each items ?acc1 _ _] =>
    destruct (IH acc1 amb1 lg1) as (dtos & amb' & lg' & Hrest & Hids & Hall)
  end.
  { intros item r Hitem. apply Hvalid. by right. }
  { intros item Hitem. apply Hshort. by right. }
  { rewrite Hsame. exact Hclock. }
  destruct (page_type_known p) eqn:Hknown.
  - destruct Ho as (dto & -> & Hid & Hcomplete).
    exists (dto :: dtos), amb', lg'. split; [by rewrite Hrest, <- app_assoc|].
    rewrite filter_cons_True by (simpl; rewrite Hknown; exact I).
    rewrite !fmap_cons, Hids. cbn [compose snd]. rewrite Hid. split; [done|].
    by constructor.
  - subst o. exists dtos, amb', lg'. split; [done|].
    rewrite filter_cons_False by (simpl; rewrite Hknown; intros []). done.
Qed.

(** X12.  With ranges that are not empty, video lengths of at most [2^51]
    in magnitude and a clock that reads between 0 and [2^51] seconds, the
    second-pass request of a section is built: it carries the section
    identifier, the start time and the user name, and one record, marked
    complete, for every page of type 5, 6 or 7, in the order in which the
    page dictionary is walked.  Pages of any other type are left out of the
    second-pass request. *)
Theorem second_pass_report_pages (page_keys : list Z)
    (study_start_time : Z) (section_info : CoursewareSection)
    (user_info : CourseAPIUserInfoAPIResponse.t) (cfg : StudyTime.t)
    (amb : Ambient) (lg : list LogLine) :
  (∀ pid p r, pages section_info !! pid = Some p → page_range cfg p = Some r →
              MinMaxTime.min r ≤ MinMaxTime.max r) →
  (∀ pid p, pages section_info !! pid = Some p → page_content_type p = 6 →
            Forall (λ video : Z * Z, Z.abs video.2 ≤ 2 ^ 51) (videos_of (elements p))) →
  (∀ i, (0 <= clock amb i)%Q ∧ (clock amb i <= inject_Z (2 ^ 51))%Q) →
  ∃ req amb' lg',
    build_sync_study_record_request page_keys study_start_time section_info user_info cfg
      false (amb, lg) = (inr (Some req), (amb', lg')) ∧
    SyncStudyRecordAPIRequest.itemid req = section_id section_info ∧
    SyncStudyRecordAPIRequest.studyStartTime req = study_start_time ∧
    SyncStudyRecordAPIRequest.userName req = CourseAPIUserInfoAPIResponse.name user_info ∧
    PageStudyRecordDTO.pageid <$> SyncStudyRecordAPIRequest.pageStudyRecordDTOList req =
      (page_relation_id ∘ snd <$>
         filter (λ item, page_type_known item.2)
           (dict_items page_keys (pages section_info))) ∧
    Forall (λ dto, PageStudyRecordDTO.complete dto = 1)
      (SyncStudyRecordAPIRequest.pageStudyRecordDTOList req).
Proof.
  intros Hvalid Hshort Hclock.
  destruct (fold_each_build_pages cfg (dict_items page_keys (pages section_info)) [] amb
              (lg ++ [{| level := DEBUG;
                         text := "[MANAGER][DATA] build sync study record request";
                         args := [] |}]))
    as (dtos & amb' & lg' & Hrun & Hids & Hall).
  { intros [pid p] r Hitem. apply (Hvalid pid p r). by apply elem_of_dict_items in Hitem. }
  { intros [pid p] Hitem Hct. apply (Hshort pid p); [|exact Hct].
    by apply elem_of_dict_items in Hitem. }
  { exact Hclock. }
  eexists _, amb', lg'. split.
  { unfold build_sync_study_record_request. rewrite eff_bind_run; simpl.
    unfold try_except. rewrite eff_bind_run, Hrun. reflexivity. }
  simpl. done.
Qed.

Lemma second_pass_report_pages_witness :
  ∃ req amb' lg',
    build_sync_study_record_request [1; 2] 1700000000 sample_section_1000 sample_user
      default_study_time false (sample_ambient 7 1700000000, []) =
      (inr (Some req), (amb', lg')) ∧
    SyncStudyRecordAPIRequest.itemid req = 1000 ∧
    PageStudyRecordDTO.pageid <$> SyncStudyRecordAPIRequest.pageStudyRecordDTOList req =
      [501; 502].
Proof.
  destruct (second_pass_report_pages [1; 2] 1700000000 sample_section_1000 sample_user
              default_study_time (sample_ambient 7 1700000000) [])
    as (req & amb' & lg' & Hrun & Hid & _ & _ & Hids & _).
  - intros pid p r _. unfold page_range, page_bucket. simpl.
    repeat case_match; intros [= <-]; simpl; lia.
  - intros pid p Hp Hct.
    assert (Hpid : pid = 1 ∨ pid = 2).
    { destruct (decide (pid = 1)) as [|H1]; [by left|].
      destruct (decide (pid = 2)) as [|H2]; [by right|].
      exfalso. unfold sample_section_1000 in Hp. cbn [pages] in Hp.
      rewrite lookup_insert_ne, lookup_singleton_ne in Hp by done. discriminate Hp. }
    destruct Hpid as [-> | ->].
    + assert (p = sample_video_page) as -> by (injection Hp as <-; reflexivity).
      repeat constructor. simpl. lia.
    + assert (p = sample_document_page) as -> by (injection Hp as <-; reflexivity).
      discriminate Hct.
  - intros i. split; vm_compute; discriminate.
  - exists req, amb', lg'. split; [exact Hrun|]. split; [exact Hid|]. exact Hids.
Defined.

(** The order of the records is the order of the walk: the same section
    walked from page 2 to page 1 reports page 502 first. *)
Example second_pass_report_order :
  ∃ req,
    (build_sync_study_record_request [2; 1] 1700000000 sample_section_1000 sample_user
       default_study_time false (sample_ambient 7 1700000000, [])).1 = inr (Some req) ∧
    PageStudyRecordDTO.pageid <$> SyncStudyRecordAPIRequest.pageStudyRecordDTOList req =
      [502; 501].
Proof. eexists. split; vm_compute; reflexivity. Qed.

Lemma fold_each_raises {σ A B} (body : B → A → Eff σ B) (xs ys : list A) (x : A)
    (acc : B) (w : σ * list LogLine) :
  (∀ acc w, ∃ e w', body acc x w = (inl e, w')) →
  ∃ e w', fold_each (xs ++ x :: ys) acc body w = (inl e, w').
Proof.
  intros Hx. revert acc w. induction xs as [|y xs IH]; intros acc w; simpl.
  - rewrite eff_bind_run. destruct (Hx acc w) as (e & w' & ->). by eexists _, _.
  - rewrite eff_bind_run. destruct (body acc y w) as [[e|acc'] w']; [by eexists _, _|].
    apply IH.
Qed.

Lemma build_empty_range (page_keys : list Z)
    (study_start_time : Z) (section_info : CoursewareSection)
    (user_info : CourseAPIUserInfoAPIResponse.t) (cfg : StudyTime.t)
    (pid : Z) (p : CoursewarePage) (r : MinMaxTime.t)
    (amb : Ambient) (lg : list LogLine) :
  pages section_info !! pid = Some p →
  page_range cfg p = Some r →
  MinMaxTime.max r < MinMaxTime.min r →
  ∃ amb' lg',
    build_sync_study_record_request page_keys study_start_time section_info user_info cfg
      false (amb, lg) = (inr None, (amb', lg')) ∧
    last lg' = Some {| level := ERROR;
                       text := "[MANAGER][DATA] error while building sync study record request";
                       args := [] |}.
Proof.
  intros Hp Hr Hbad.
  apply (elem_of_dict_items page_keys), list_elem_of_split in Hp
    as (items1 & items2 & Hitems).
  unfold build_sync_study_record_request. rewrite eff_bind_run; simpl.
  unfold try_except. rewrite eff_bind_run, Hitems.
  match goal with |- context [fold_each _ ?acc ?body ?w] =>
    destruct (fold_each_raises body items1 items2 (pid, p) acc w) as (e & [amb' lg'] & ->)
  end.
  - intros acc w. rewrite eff_bind_run. simpl.
    destruct (build_page_raises cfg pid p r w Hr Hbad) as (w' & ->). by eexists _, _.
  - rewrite eff_bind_run. simpl. eexists _, _. split; [reflexivity|].
    by rewrite last_snoc.
Qed.

(** X13.  An empty range in the study-time configuration ([min > max]) makes
    the second-pass request of a whole section fail: if the section holds a
    page for which the range is drawn from (type 5 or 7), the call returns
    [None] after logging the error, whatever the other pages are. *)
Theorem second_pass_report_empty_range (page_keys : list Z)
    (study_start_time : Z) (section_info : CoursewareSection)
    (user_info : CourseAPIUserInfoAPIResponse.t) (cfg : StudyTime.t)
    (pid : Z) (p : CoursewarePage) (r : MinMaxTime.t)
    (amb : Ambient) (lg : list LogLine) :
  pages section_info !! pid = Some p →
  page_range cfg p = Some r →
  MinMaxTime.max r < MinMaxTime.min r →
  ∃ amb' lg',
    build_sync_study_record_request page_keys study_start_time section_info user_info cfg
      false (amb, lg) = (inr None, (amb', lg')) ∧
    last lg' = Some {| level := ERROR;
                       text := "[MANAGER][DATA] error while building sync study record request";
                       args := [] |}.
Proof. apply build_empty_range. Qed.

Lemma second_pass_report_empty_range_witness :
  ∃ amb' lg',
    build_sync_study_record_request [3] 1700000000 sample_section_1001 sample_user
      broken_study_time false (sample_ambient 7 0, []) = (inr None, (amb', lg')).
Proof.
  destruct (second_pass_report_empty_range [3] 1700000000 sample_section_1001 sample_user
              broken_study_time 3 sample_question_page
              {| MinMaxTime.min := 10; MinMaxTime.max := 5 |} (sample_ambient 7 0) [])
    as (amb' & lg' & Hrun & _); [reflexivity|reflexivity|simpl; lia|].
  by exists amb', lg'.
Defined.

(** ** One pass over a section: what is put on record *)

Lemma add_events_nil (world : World) : add_events [] world = world.
Proof. destruct world. unfold add_events; simpl. by rewrite app_nil_r. Qed.

Lemma add_events_app (new1 new2 : list Event) (world : World) :
  add_events new2 (add_events new1 world) = add_events (new1 ++ new2) world.
Proof. unfold add_events; simpl. by rewrite app_assoc. Qed.

Lemma watch_videos_run (videos : list (Z * Z)) (acc : list (Z * bool))
    (world : World) (lg : list LogLine) :
  fold_each videos acc
    (λ statuses video,
       watch_status ← watch_video_behavior video.1;
       mret (statuses ++ [(video.1, watch_status)])) (world, lg) =
  (inr (acc ++ ((λ video, (video.1, watch_results world video.1)) <$> videos)),
   (add_events (Watched ∘ fst <$> videos) world, lg)).
Proof.
  revert acc world. induction videos as [|video videos IH]; intros acc world.
  - simpl. by rewrite eff_ret_run, app_nil_r, add_events_nil.
  - rewrite fold_each_cons, eff_bind_run. simpl.
    change (record_event (Watched video.1) world)
      with (add_events [Watched video.1] world).
    rewrite IH, add_events_app. simpl. by rewrite <- app_assoc.
Qed.

Lemma watch_pauses_run (statuses : list (Z * bool)) (world : World) (lg : list LogLine) :
  ∃ lg',
    for_each statuses
      (λ result,
         (if negb result.2
          then logger WARNING "[video] reporting the watch behaviour failed" [result.1]
          else logger SUCCESS "[video] watch behaviour reported" [result.1]);;
         sleep (3 # 10)) (world, lg) =
    (inr (), (add_events ((λ _, Paused (3 # 10)) <$> statuses) world, lg')).
Proof.
  revert world lg. induction statuses as [|result statuses IH]; intros world lg.
  - exists lg. simpl. by rewrite add_events_nil.
  - cbn [for_each]. rewrite eff_bind_run, eff_bind_run.
    destruct (negb result.2); simpl;
      match goal with |- context [for_each statuses _ (?w1, ?lg1)] =>
        destruct (IH w1 lg1) as (lg' & ->)
      end;
      exists lg';
      change (record_event (Paused (3 # 10)) world)
        with (add_events [Paused (3 # 10)] world);
      by rewrite add_events_app.
Qed.

Lemma watch_page_run (page_info : CoursewarePage) (world : World) (lg : list LogLine) :
  ∃ lg',
    watch_page page_info (world, lg) =
    (inr (), (add_events (page_pings page_info) world, lg')).
Proof.
  unfold watch_page, page_pings. destruct (page_content_type page_info =? 6).
  - rewrite eff_bind_run, watch_videos_run.
    match goal with |- context [for_each ?st _ (?w1, ?lg1)] =>
      destruct (watch_pauses_run st w1 lg1) as (lg' & ->)
    end.
    exists lg'. rewrite add_events_app. simpl. by rewrite <- list_fmap_compose.
  - exists lg. by rewrite eff_ret_run, add_events_nil.
Qed.

Lemma watch_pages_run (items : list (Z * CoursewarePage)) (world : World)
    (lg : list LogLine) :
  ∃ lg',
    for_each items (λ page, watch_page page.2) (world, lg) =
    (inr (), (add_events (flat_map (λ page, page_pings page.2) items) world, lg')).
Proof.
  revert world lg. induction items as [|page items IH]; intros world lg.
  - exists lg. simpl. by rewrite add_events_nil.
  - cbn [for_each]. rewrite eff_bind_run.
    destruct (watch_page_run page.2 world lg) as (lg1 & ->).
    destruct (IH (add_events (page_pings page.2) world) lg1) as (lg' & ->).
    exists lg'. by rewrite add_events_app.
Qed.

Lemma record_event_add (e : Event) (world : World) :
  record_event e world = add_events [e] world.
Proof. reflexivity. Qed.

Lemma handle_section_run (page_order : Z → list Z) (config : Config)
    (user_info : CourseAPIUserInfoAPIResponse.t)
    (is_first : bool) (sid : Z) (section_info : CoursewareSection)
    (world : World) (lg : list LogLine) :
  ∃ rest world' lg',
    handle_section page_order config user_info is_first (sid, section_info) (world, lg) =
      (inr (), (world', lg')) ∧
    events world' = events world ++ Initialized sid :: rest ∧
    match initialize_results world sid with
    | Some study_start_time =>
        if study_start_time =? 0 then rest = [] ∧ sync_calls world' = sync_calls world
        else
          ∃ reqs tail,
            rest = (if is_first then [] else section_pings (page_order sid) section_info)
                   ++ rejected_reports reqs ++ tail
                   ++ (if is_first then [] else [Paused (sleep_time config)]) ∧
            (tail = [] ∨
             tail = [Paused 1] ∧ reqs ≠ [] ∧
             sync_results world (sync_calls world + (length reqs - 1)) = false) ∧
            (length reqs ≤ 4)%nat ∧
            sync_calls world' = (sync_calls world + length reqs)%nat ∧
            (∀ i, (S i < length reqs)%nat →
                  sync_results world (sync_calls world + i) = false)
    | None => rest = [] ∧ sync_calls world' = sync_calls world
    end.
Proof.
  unfold handle_section. rewrite eff_bind_run. simpl.
  destruct (initialize_results world sid) as [study_start_time|]; cycle 1.
  { exists []. eexists _, _. split; [reflexivity|]. by simpl. }
  destruct (study_start_time =? 0).
  { exists []. eexists _, _. split; [reflexivity|]. by simpl. }
  rewrite eff_bind_run.
  assert (Hwatch : ∃ lg1,
    (if negb is_first
     then for_each (dict_items (page_order sid) (pages section_info))
            (λ page, watch_page page.2)
     else mret ()) (record_event (Initialized sid) world, lg) =
    (inr (),
     (add_events (if is_first then [] else section_pings (page_order sid) section_info)
        (record_event (Initialized sid) world), lg1))).
  { destruct is_first; simpl.
    - exists lg. by rewrite eff_ret_run, add_events_nil.
    - apply watch_pages_run. }
  destruct Hwatch as [lg1 ->]. rewrite eff_bind_run; simpl. rewrite eff_bind_run.
  match goal with |- context [submit_loop ?k ?a ?b ?c ?d ?e ?f (?w2, ?lg2)] =>
    destruct (submit_loop_shape k a b c d e f w2 lg2)
      as (reqs & tail & world3 & lg3 & -> & Hev & Htail & Hlen & Hcalls & Hres & Hrej)
  end.
  simpl in Hev, Htail, Hcalls, Hres, Hrej. change (attempts_from 0) with 4%nat in Hlen.
  destruct is_first; simpl.
  - exists ([] ++ rejected_reports reqs ++ tail ++ []). eexists _, _.
    split; [reflexivity|]. split.
    + simpl in *. rewrite Hev, !app_nil_r. by rewrite <- !app_assoc.
    + by exists reqs, tail.
  - exists (section_pings (page_order sid) section_info
            ++ rejected_reports reqs ++ tail ++ [Paused (sleep_time config)]).
    eexists _, _. split; [reflexivity|]. split.
    + simpl in *. rewrite Hev. by rewrite <- !app_assoc.
    + by exists reqs, tail.
Qed.

(** X14.  A section that does not initialise is passed over: when
    [initialize_section] returns [None] or the timestamp 0, [handle_section]
    makes that one call, logs one warning and does nothing else.  No ping
    and no report is sent and there is no pause, in either pass. *)
Theorem handle_section_initialisation_fails (page_order : Z → list Z)
    (config : Config) (user_info : CourseAPIUserInfoAPIResponse.t) (is_first : bool)
    (sid : Z) (section_info : CoursewareSection) (world : World) (lg : list LogLine) :
  initialize_results world sid = None ∨ initialize_results world sid = Some 0 →
  handle_section page_order config user_info is_first (sid, section_info) (world, lg) =
  (inr (),
   (add_events [Initialized sid] world,
    lg ++ [{| level := WARNING; text := "initialising the section failed, skipped";
              args := [sid] |}])).
Proof.
  intros Hinit. unfold handle_section. rewrite eff_bind_run. simpl.
  by destruct Hinit as [-> | ->].
Qed.

Lemma handle_section_initialisation_fails_witness :
  handle_section (page_order sample_order 100) sample_config sample_user false
    (1000, sample_section_1000) (closed_world, []) =
  (inr (),
   (add_events [Initialized 1000] closed_world,
    [{| level := WARNING; text := "initialising the section failed, skipped";
        args := [1000] |}])).
Proof.
  apply (handle_section_initialisation_fails (page_order sample_order 100)
           sample_config sample_user false 1000
           sample_section_1000 closed_world []).
  left. reflexivity.
Defined.



(** The trace of the second pass over the sample section 1000 in an
    accepting world: the ping and the pause for the video of page 1, one
    accepted report, the cooldown. *)
Example handle_section_sample_trace :
  ∃ req world' lg',
    handle_section (page_order sample_order 100) sample_config sample_user false
      (1000, sample_section_1000) (accepting_world, []) = (inr (), (world', lg')) ∧
    events world' =
      [Initialized 1000; Watched 71; Paused (3 # 10); Synced req; Paused 1] ∧
    PageStudyRecordDTO.pageid <$> SyncStudyRecordAPIRequest.pageStudyRecordDTOList req =
      [501; 502].
Proof. eexists _, _, _. split; [vm_compute; reflexivity|]. split; reflexivity. Qed.

Lemma handle_section_initialises_once (page_order : Z → list Z)
    (config : Config) (user_info : CourseAPIUserInfoAPIResponse.t) (is_first : bool)
    (item : Z * CoursewareSection) (world : World) (lg : list LogLine) :
  ∃ rest world' lg',
    handle_section page_order config user_info is_first item (world, lg) =
      (inr (), (world', lg')) ∧
    events world' = events world ++ Initialized item.1 :: rest ∧
    filter is_initialized rest = [].
Proof.
  destruct item as [sid section_info].
  destruct (handle_section_run page_order config user_info is_first sid section_info
              world lg) as (rest & world' & lg' & Hrun & Hev & Hrest).
  exists rest, world', lg'. split; [exact Hrun|]. split; [exact Hev|].
  assert (Hpings : filter is_initialized (section_pings (page_order sid) section_info)
                   = []).
  { unfold section_pings.
    induction (dict_items (page_order sid) (pages section_info)) as [|page l IH];
      [done|]. simpl. rewrite filter_app, IH, app_nil_r.
    unfold page_pings. destruct (page_content_type page.2 =? 6); [|done].
    assert (Hnone : ∀ (f : Z * Z → Event) vs,
      (∀ v, is_initialized (f v) = false) → filter is_initialized (f <$> vs) = []).
    { intros f vs Hf. induction vs as [|v vs IHv]; [done|].
      rewrite fmap_cons, filter_cons_False; [exact IHv|]. rewrite Hf. intros []. }
    by rewrite filter_app, !Hnone. }
  assert (Hreports : ∀ reqs, filter is_initialized (rejected_reports reqs) = []).
  { intros [|req reqs]; [done|]. simpl.
    rewrite filter_cons_False by (intros []).
    induction reqs as [|req' reqs IH]; [done|]. simpl.
    rewrite filter_cons_False by (intros []).
    rewrite filter_cons_False by (intros []). exact IH. }
  destruct (initialize_results world sid) as [study_start_time|];
    [|by destruct Hrest as [-> _]].
  destruct (study_start_time =? 0); [by destruct Hrest as [-> _]|].
  destruct Hrest as (reqs & tail & -> & Htail & _).
  assert (Htail' : filter is_initialized tail = []).
  { destruct Htail as [->|(-> & _)]; [done|]. by rewrite filter_cons_False by (intros []). }
  rewrite !filter_app, Hreports, Htail'.
  destruct is_first; [done|]. by rewrite Hpings.
Qed.

(** X16.  [courseware_handler] never raises and initialises every section
    of every chapter exactly once, chapter after chapter and section after
    section in the order in which the dictionaries are walked, in either
    pass, whatever the initialisations and the reports return. *)
Theorem courseware_handler_initialises_each_section_once (order : TreeOrder)
    (config : Config) (chapters : gmap Z CoursewareChapter)
    (user_info : CourseAPIUserInfoAPIResponse.t) (is_first : bool)
    (world : World) (lg : list LogLine) :
  ∃ new world' lg',
    courseware_handler order config chapters user_info is_first (world, lg) =
      (inr (), (world', lg')) ∧
    events world' = events world ++ new ∧
    filter is_initialized new = (Initialized <$> section_ids order chapters).
Proof.
  unfold courseware_handler, section_ids.
  assert (Hsections : ∀ page_order items world lg,
    ∃ new world' lg',
      for_each items (handle_section page_order config user_info is_first) (world, lg) =
        (inr (), (world', lg')) ∧
      events world' = events world ++ new ∧
      filter is_initialized new = (Initialized <$> (fst <$> items))).
  { intros page_order. induction items as [|item items IH]; intros world0 lg0.
    - exists [], world0, lg0. by rewrite app_nil_r.
    - destruct (handle_section_initialises_once page_order config user_info is_first
                  item world0 lg0) as (rest & world1 & lg1 & Hrun & Hev & Hrest).
      destruct (IH world1 lg1) as (new & world2 & lg2 & Hrun2 & Hev2 & Hnew).
      exists (Initialized item.1 :: rest ++ new), world2, lg2.
      split; [cbn [for_each]; by rewrite eff_bind_run, Hrun|].
      split; [rewrite Hev2, Hev; by rewrite <- app_assoc|].
      rewrite filter_cons_True by exact I.
      by rewrite filter_app, Hrest, Hnew. }
  revert world lg.
  induction (dict_items (chapter_order order) chapters) as [|chapter l IH];
    intros world lg.
  - exists [], world, lg. by rewrite app_nil_r.
  - cbn [for_each]. rewrite eff_bind_run, eff_bind_run. simpl.
    match goal with |- context [for_each (dict_items ?keys (sections chapter.2)) _
                                  (?w1, ?lg1)] =>
      destruct (Hsections (page_order order chapter.1)
                  (dict_items keys (sections chapter.2)) w1 lg1)
        as (new1 & world1 & lg1' & -> & Hev1 & Hnew1)
    end.
    destruct (IH world1 lg1') as (new2 & world2 & lg2 & -> & Hev2 & Hnew2).
    exists (new1 ++ new2), world2, lg2. split; [done|].
    split; [rewrite Hev2, Hev1; by rewrite <- app_assoc|].
    by rewrite filter_app, Hnew1, Hnew2, fmap_app.
Qed.

(** The sections of the sample chapter, walked in insertion order and in
    the opposite order. *)
Example section_ids_sample :
  section_ids sample_order {[ 100 := sample_chapter ]} = [1000; 1001] ∧
  section_ids {| chapter_order := [100]; section_order := λ _, [1001; 1000];
                 page_order := page_order sample_order |}
    {[ 100 := sample_chapter ]} = [1001; 1000].
Proof. split; vm_compute; reflexivity. Qed.

(** ** The report loop: acceptance, and the last attempt *)






Lemma submit_loop_build_fails (page_keys : list Z) (config : Config) (study_start_time : Z)
    (section_info : CoursewareSection) (user_info : CourseAPIUserInfoAPIResponse.t)
    (is_first : bool) (retry : Z) (world : World) (lg : list LogLine)
    (amb' : Ambient) (lg' : list LogLine) :
  build_sync_study_record_request page_keys study_start_time section_info user_info
    (study_time config) is_first (ambient world, lg) = (inr None, (amb', lg')) →
  submit_loop page_keys config study_start_time section_info user_info is_first retry (world, lg) =
  (inr (),
   ({| ambient := amb'; initialize_results := initialize_results world;
       sync_results := sync_results world; sync_calls := sync_calls world;
       watch_results := watch_results world; events := events world |},
    lg' ++ [{| level := WARNING; text := "building the request failed, skipped";
               args := [] |}])).
Proof.
  intros Hbuild. rewrite submit_loop_equation_1, eff_bind_run, lift_ambient_run, Hbuild.
  reflexivity.
Qed.

(** X19.  With an empty range in the study-time configuration, the second
    pass reports nothing for a section that holds a page the range is drawn
    for: the section is initialised, the videos are pinged page after page
    in the order of the page dictionary, the request fails to build, no
    report is sent, and the cooldown follows. *)
Theorem handle_section_empty_range (page_order : Z → list Z)
    (config : Config) (user_info : CourseAPIUserInfoAPIResponse.t)
    (sid study_start_time : Z) (section_info : CoursewareSection)
    (pid : Z) (p : CoursewarePage) (r : MinMaxTime.t)
    (world : World) (lg : list LogLine) :
  initialize_results world sid = Some study_start_time →
  study_start_time ≠ 0 →
  pages section_info !! pid = Some p →
  page_range (study_time config) p = Some r →
  MinMaxTime.max r < MinMaxTime.min r →
  ∃ world' lg',
    handle_section page_order config user_info false (sid, section_info) (world, lg) =
      (inr (), (world', lg')) ∧
    events world' =
      events world
      ++ Initialized sid
         :: section_pings (page_order sid) section_info ++ [Paused (sleep_time config)] ∧
    sync_calls world' = sync_calls world ∧
    {| level := WARNING; text := "building the request failed, skipped"; args := [] |}
      ∈ lg'.
Proof.
  intros Hinit Hnz Hp Hr Hbad.
  unfold handle_section. rewrite eff_bind_run. simpl.
  rewrite Hinit, (proj2 (Z.eqb_neq _ _) Hnz).
  rewrite eff_bind_run.
  destruct (watch_pages_run (dict_items (page_order sid) (pages section_info))
              (record_event (Initialized sid) world) lg) as (lg1 & ->).
  rewrite eff_bind_run; simpl. rewrite eff_bind_run.
  match goal with |- context [submit_loop _ _ _ _ _ _ _ (?w2, ?lg2)] =>
    destruct (build_empty_range (page_order sid) study_start_time section_info user_info
                (study_time config) pid p r (ambient w2) lg2 Hp Hr Hbad)
      as (amb' & lg' & Hbuild & _);
    rewrite (submit_loop_build_fails _ _ _ _ _ _ _ w2 lg2 amb' lg' Hbuild)
  end.
  simpl. eexists _, _. split; [reflexivity|]. simpl.
  split; [by rewrite <- !app_assoc|]. split; [done|].
  apply elem_of_app. right. left.
Qed.

Lemma handle_section_empty_range_witness :
  ∃ world' lg',
    handle_section (page_order sample_order 100) broken_document_config sample_user false
      (1000, sample_section_1000) (accepting_world, []) = (inr (), (world', lg')) ∧
    events world' =
      Initialized 1000 :: section_pings [1; 2] sample_section_1000 ++ [Paused 1] ∧
    sync_calls world' = 0%nat.
Proof.
  destruct (handle_section_empty_range (page_order sample_order 100) broken_document_config
              sample_user 1000 1700000000 sample_section_1000 2 sample_document_page
              {| MinMaxTime.min := 360; MinMaxTime.max := 180 |} accepting_world [])
    as (world' & lg' & Hrun & Hev & Hcalls & _);
    [reflexivity|discriminate|reflexivity|reflexivity|simpl; lia|].
  exists world', lg'. split; [exact Hrun|]. split; [exact Hev|exact Hcalls].
Defined.

(** The same run, event by event: the video of page 1 is pinged although
    the request is never built. *)
Example handle_section_empty_range_trace :
  ∃ world' lg',
    handle_section (page_order sample_order 100) broken_document_config sample_user false
      (1000, sample_section_1000) (accepting_world, []) = (inr (), (world', lg')) ∧
    events world' = [Initialized 1000; Watched 71; Paused (3 # 10); Paused 1].
Proof. eexists _, _. split; [vm_compute; reflexivity|reflexivity]. Qed.
(** ** HTTP requests that are answered *)

Lemma retried_S (method : Method) (url : string) (k : nat) :
  retried method url (S k) = Slept (1 # 2) :: Sent method url false :: retried method url k.
Proof. reflexivity. Qed.

Lemma get_first_answer (url : string) (retry : Z) (fr : bool) (net : Net) (lg : list LogLine) :
  transport net (sent net) ≠ TransportError →
  ∃ lg',
    get url retry fr (net, lg) =
    (inr (match transport net (sent net) with
          | Responded resp => Some resp
          | _ => None
          end),
     ({| transport := transport net; sent := S (sent net);
         wire := wire net ++ [Sent GET url fr] |}, lg')).
Proof.
  intros Hans. rewrite (get_equation_1 url retry fr).
  rewrite eff_bind_run; simpl. rewrite eff_bind_run; simpl.
  destruct (transport net (sent net)); [by eexists|done|].
  rewrite eff_bind_run; simpl. by eexists.
Qed.

Lemma post_first_answer (url : string) (retry : Z) (fr : bool) (net : Net) (lg : list LogLine) :
  transport net (sent net) ≠ TransportError →
  ∃ lg',
    post url retry fr (net, lg) =
    (inr (match transport net (sent net) with
          | Responded resp => Some resp
          | _ => None
          end),
     ({| transport := transport net; sent := S (sent net);
         wire := wire net ++ [Sent POST url fr] |}, lg')).
Proof.
  intros Hans. rewrite (post_equation_1 url retry fr).
  rewrite eff_bind_run; simpl. rewrite eff_bind_run; simpl.
  destruct (transport net (sent net)); [by eexists|done|].
  rewrite eff_bind_run; simpl. by eexists.
Qed.

Lemma get_answered (url : string) (k : nat) (retry : Z) (fr : bool) (net : Net)
    (lg : list LogLine) :
  (k < attempts_from retry)%nat →
  (∀ i, (i < k)%nat → transport net (sent net + i) = TransportError) →
  transport net (sent net + k) ≠ TransportError →
  ∃ lg',
    get url retry fr (net, lg) =
    (inr (match transport net (sent net + k) with
          | Responded resp => Some resp
          | _ => None
          end),
     ({| transport := transport net; sent := sent net + S k;
         wire := wire net ++ Sent GET url fr :: retried GET url k |}, lg')).
Proof.
  revert retry fr net lg. induction k as [|k IH]; intros retry fr net lg Hk Hfail Hans.
  - rewrite Nat.add_0_r in *. destruct (get_first_answer url retry fr net lg Hans) as [lg' ->].
    exists lg'. by rewrite Nat.add_1_r.
  - assert (Hretry : retry < 3) by (unfold attempts_from in Hk; lia).
    rewrite (attempts_from_retry retry Hretry) in Hk.
    rewrite get_retry; [|by rewrite <- (Hfail 0%nat), Nat.add_0_r by lia|done].
    match goal with |- context [get url (retry + 1) false (?net1, ?lg1)] =>
      destruct (IH (retry + 1) false net1 lg1) as [lg' Hrun]
    end.
    { lia. }
    { simpl. intros i Hi. rewrite <- (Hfail (S i)) by lia. f_equal. lia. }
    { simpl. intros H. apply Hans. rewrite <- H. f_equal. lia. }
    exists lg'. rewrite Hrun. cbn [transport sent wire].
    replace (S (sent net) + k)%nat with (sent net + S k)%nat by lia.
    do 3 f_equal; [lia|]. rewrite retried_S. by rewrite <- !app_assoc.
Qed.

Lemma post_answered (url : string) (k : nat) (retry : Z) (fr : bool) (net : Net)
    (lg : list LogLine) :
  (k < attempts_from retry)%nat →
  (∀ i, (i < k)%nat → transport net (sent net + i) = TransportError) →
  transport net (sent net + k) ≠ TransportError →
  ∃ lg',
    post url retry fr (net, lg) =
    (inr (match transport net (sent net + k) with
          | Responded resp => Some resp
          | _ => None
          end),
     ({| transport := transport net; sent := sent net + S k;
         wire := wire net ++ Sent POST url fr :: retried POST url k |}, lg')).
Proof.
  revert retry fr net lg. induction k as [|k IH]; intros retry fr net lg Hk Hfail Hans.
  - rewrite Nat.add_0_r in *. destruct (post_first_answer url retry fr net lg Hans) as [lg' ->].
    exists lg'. by rewrite Nat.add_1_r.
  - assert (Hretry : retry < 3) by (unfold attempts_from in Hk; lia).
    rewrite (attempts_from_retry retry Hretry) in Hk.
    rewrite post_retry; [|by rewrite <- (Hfail 0%nat), Nat.add_0_r by lia|done].
    match goal with |- context [post url (retry + 1) false (?net1, ?lg1)] =>
      destruct (IH (retry + 1) false net1 lg1) as [lg' Hrun]
    end.
    { lia. }
    { simpl. intros i Hi. rewrite <- (Hfail (S i)) by lia. f_equal. lia. }
    { simpl. intros H. apply Hans. rewrite <- H. f_equal. lia. }
    exists lg'. rewrite Hrun. cbn [transport sent wire].
    replace (S (sent net) + k)%nat with (sent net + S k)%nat by lia.
    do 3 f_equal; [lia|]. rewrite retried_S. by rewrite <- !app_assoc.
Qed.

(** X20.  [get] and [post] return what the first request that does not fail
    at the transport level gives: when the first [k] requests fail at the
    transport level and request [k + 1] is still within the retry budget,
    the call sends exactly [k + 1] requests, sleeps 0.5 s before each retry,
    and returns the response of the last one, or [None] when that request
    raised another exception.  Only the first request carries the caller's
    [follow_redirects]; every retry is sent with the default [False]. *)
Theorem http_first_answer_is_returned :
  (∀ url k retry fr net lg,
     (k < attempts_from retry)%nat →
     (∀ i, (i < k)%nat → transport net (sent net + i) = TransportError) →
     transport net (sent net + k) ≠ TransportError →
     ∃ lg',
       get url retry fr (net, lg) =
       (inr (match transport net (sent net + k) with
             | Responded resp => Some resp
             | _ => None
             end),
        ({| transport := transport net; sent := sent net + S k;
            wire := wire net ++ Sent GET url fr :: retried GET url k |}, lg'))) ∧
  (∀ url k retry fr net lg,
     (k < attempts_from retry)%nat →
     (∀ i, (i < k)%nat → transport net (sent net + i) = TransportError) →
     transport net (sent net + k) ≠ TransportError →
     ∃ lg',
       post url retry fr (net, lg) =
       (inr (match transport net (sent net + k) with
             | Responded resp => Some resp
             | _ => None
             end),
        ({| transport := transport net; sent := sent net + S k;
            wire := wire net ++ Sent POST url fr :: retried POST url k |}, lg'))).
Proof. split; [apply get_answered|apply post_answered]. Qed.

Lemma http_first_answer_is_returned_witness :
  ∃ lg',
    get "u" 1 true (recovering_net, []) =
    (inr (Some {| status_code := 302; body := "moved" |}),
     ({| transport := transport recovering_net; sent := 3;
         wire := [Sent GET "u" true; Slept (1 # 2); Sent GET "u" false;
                  Slept (1 # 2); Sent GET "u" false] |}, lg')).
Proof.
  destruct (proj1 http_first_answer_is_returned "u" 2%nat 1 true recovering_net [])
    as [lg' Hrun].
  - unfold attempts_from. simpl. lia.
  - intros i Hi. destruct i as [|[|i]]; [reflexivity..|lia].
  - discriminate.
  - exists lg'. exact Hrun.
Defined.

(** ** Refreshing the study record and clearing what is complete *)

Lemma course_section_pages (course : ModelCourse) (tb ch sec pid : Z)
    (s : CoursewareSection) :
  course_section course tb ch sec = Some s →
  course_page course tb ch sec pid = pages s !! pid.
Proof.
  unfold course_section, course_page, textbook_page, chapter_page.
  destruct (textbooks course !! tb) as [t|]; simpl; [|done].
  destruct (chapters t !! ch) as [c|]; simpl; [|done].
  by intros ->.
Qed.

Lemma no_empty_container_section (course : ModelCourse) (tb ch sec : Z)
    (s : CoursewareSection) :
  no_empty_container course →
  course_section course tb ch sec = Some s →
  ∃ pid p, pages s !! pid = Some p.
Proof.
  intros Hne. unfold course_section.
  destruct (textbooks course !! tb) as [t|] eqn:Ht; simpl; [|done].
  destruct (chapters t !! ch) as [c|] eqn:Hc; simpl; [|done].
  intros Hs. destruct (Hne tb t Ht) as [_ Hchs]. destruct (Hchs ch c Hc) as [_ Hsecs].
  by apply map_choose, (Hsecs sec s Hs).
Qed.

(** X21.  Refreshing and then clearing, as [__prune_completed_courseware]
    does for each section: when the study record reports every page of the
    section as complete (for each page, the last entry with its relation
    identifier has a non-zero [complete]), [parse_study_record_info]
    succeeds and [prune(remove_complete=True)] then removes the section. *)
Theorem completed_section_is_cleared
    (tb : Z) (info : StudyRecordAPIResponse.t) (course : ModelCourse) (lg : list LogLine)
    (t : ModelTextbook) (c : CoursewareChapter) (s : CoursewareSection) :
  textbooks course !! tb = Some t →
  chapters t !! StudyRecordAPIResponse.node_id info = Some c →
  sections c !! StudyRecordAPIResponse.item_id info = Some s →
  (∀ pid p, pages s !! pid = Some p →
     ∃ es1 e es2,
       StudyRecordAPIResponse.pageStudyRecordDTOList info = es1 ++ e :: es2 ∧
       StudyRecordAPIResponse.pageid e = page_relation_id p ∧
       StudyRecordAPIResponse.complete e ≠ 0 ∧
       Forall (λ e', StudyRecordAPIResponse.pageid e' ≠ page_relation_id p) es2) →
  ∃ course' lg',
    parse_study_record_info tb info (course, lg) = (inr true, (course', lg')) ∧
    course_section (ModelCourse_prune true course') tb
      (StudyRecordAPIResponse.node_id info) (StudyRecordAPIResponse.item_id info) = None.
Proof.
  intros Ht Hc Hs Hall. eexists _, _.
  split; [by apply (parse_study_record_info_found _ _ _ _ t c s)|].
  match goal with |- course_section ?pruned _ _ _ = None =>
    destruct (course_section pruned tb (StudyRecordAPIResponse.node_id info)
                (StudyRecordAPIResponse.item_id info)) as [s'|] eqn:Hs'; [|done]
  end.
  exfalso.
  destruct (no_empty_container_section _ _ _ _ _ (ModelCourse_prune_nonempty true _) Hs')
    as (pid & p' & Hp').
  rewrite <- (course_section_pages _ _ _ _ pid _ Hs') in Hp'.
  rewrite ModelCourse_prune_page, course_page_mark_all, decide_True in Hp' by done.
  assert (Hat : course_page course tb (StudyRecordAPIResponse.node_id info)
                  (StudyRecordAPIResponse.item_id info) pid = pages s !! pid).
  { unfold course_page, textbook_page, chapter_page. rewrite Ht; simpl.
    rewrite Hc; simpl. by rewrite Hs. }
  rewrite Hat in Hp'. destruct (pages s !! pid) as [p|] eqn:Hp; [|done].
  simpl in Hp'.
  destruct (Hall pid p Hp) as (es1 & e & es2 & Hes & Hid & Hdone & Hrest).
  rewrite Hes, (mark_all_last es1 es2 e p Hid Hrest) in Hp'.
  unfold py_bool in Hp'. rewrite (proj2 (Z.eqb_neq _ _) Hdone) in Hp'. done.
Qed.

Lemma completed_section_is_cleared_witness :
  let info := sample_study_record 100 1000
                [sample_record_entry 501 1; sample_record_entry 502 1] in
  (pages <$> course_section (ModelCourse_prune true sample_course) 10 100 1000) =
    Some {[ 2 := sample_document_page ]} ∧
  ∃ course' lg',
    parse_study_record_info 10 info (sample_course, []) = (inr true, (course', lg')) ∧
    course_section (ModelCourse_prune true course') 10 100 1000 = None.
Proof.
  intros info. split; [vm_compute; reflexivity|].
  apply (completed_section_is_cleared 10 info sample_course []
           sample_textbook sample_chapter sample_section_1000);
    [reflexivity..|].
  intros pid p Hp.
  change (pages sample_section_1000)
    with (<[1 := sample_video_page]> ({[ 2 := sample_document_page ]} : gmap Z _)) in Hp.
  apply lookup_insert_Some in Hp as [[<- <-]|[_ Hp]].
  - exists [], (sample_record_entry 501 1), [sample_record_entry 502 1].
    split; [reflexivity|]. split; [reflexivity|]. split; [discriminate|].
    constructor; [discriminate|constructor].
  - apply lookup_singleton_Some in Hp as [<- <-].
    exists [sample_record_entry 501 1], (sample_record_entry 502 1), [].
    split; [reflexivity|]. split; [reflexivity|]. split; [discriminate|constructor].
Defined.
